(** * NYC civic data reconciliation pipeline: a shallow embedding

    The seed scripts of the repository turn raw civic feeds into canonical
    records: a normalizer, a classifier, an overlay merger, a deduplicator,
    a Douglas-Peucker line simplifier and a change detector based on a
    content fingerprint.  Each function below is a transcription of the
    JavaScript function of the same name.

    Conventions.
    - JavaScript strings are modelled by [string] (code units below 256).
    - Unit counts, years and other integers of the canonical records are [Z].
    - Coordinates are IEEE binary64 numbers ([float]).  The line simplifier
      is written over an arithmetic interface, so that what does not depend
      on rounding is proved once for any arithmetic; the code runs on the
      binary64 instance.
    - Built-ins of the language that are not code of the repository
      (digit generation of [Number::toString], [parseInt], [Math.round],
      [JSON.stringify] of a record) are section variables. *)

From Stdlib Require Import Floats.
From Stdlib Require Import ZArith List String Ascii Bool Lia.
From Stdlib Require DecimalString DecimalZ HexadecimalString.
From stdpp Require Import gmap strings.
Import ListNotations.

Local Open Scope string_scope.
Local Open Scope list_scope.
Local Open Scope Z_scope.

(* ===================================================================== *)
(** ** JavaScript values met in the raw feeds *)
(* ===================================================================== *)

Module JS.

Inductive JsVal : Type :=
| JsUndefined
| JsNull
| JsBool (b : bool)
| JsNumber (x : float)
| JsString (s : string).

(** [x === 0] on numbers: true for both zeros, false for NaN. *)
Definition isZero (x : float) : bool := PrimFloat.eqb x 0%float.

(** [isNaN(x)] *)
Definition isNaN (x : float) : bool := PrimFloat.is_nan x.

(** [a > b] *)
Definition gt (a b : float) : bool := PrimFloat.ltb b a.

(** [a < b] *)
Definition lt (a b : float) : bool := PrimFloat.ltb a b.

(** [a <= b] *)
Definition le (a b : float) : bool := PrimFloat.leb a b.

(** ToBoolean *)
Definition truthy (v : JsVal) : bool :=
  match v with
  | JsUndefined | JsNull => false
  | JsBool b => b
  | JsNumber x => negb (isNaN x || isZero x)
  | JsString s => negb (s =? "")%string
  end.

(** [a || b] on numbers *)
Definition orElse (a b : float) : float :=
  if isNaN a || isZero a then b else a.

Section ToString.

(** Digits of a finite, strictly positive number (the shortest
    round-trip decimal of [Number::toString]); a built-in. *)
Variable positiveDigits : float -> string.

(** [Number::toString], radix 10: its first steps are the special cases. *)
Definition numberToString (x : float) : string :=
  if isNaN x then "NaN"
  else if isZero x then "0"
  else
    let sign := if lt x 0%float then "-" else "" in
    let m := PrimFloat.abs x in
    (sign ++ (if PrimFloat.is_infinity m then "Infinity" else positiveDigits m))%string.

(** [String(v)] *)
Definition toString (v : JsVal) : string :=
  match v with
  | JsUndefined => "undefined"
  | JsNull => "null"
  | JsBool true => "true"
  | JsBool false => "false"
  | JsNumber x => numberToString x
  | JsString s => s
  end.

End ToString.

(** Characters ['0'..'9'] *)
Definition isDigit (c : ascii) : bool :=
  let n := nat_of_ascii c in (48 <=? n)%nat && (n <=? 57)%nat.

Fixpoint filterString (p : ascii -> bool) (s : string) : string :=
  match s with
  | EmptyString => EmptyString
  | String c r => if p c then String c (filterString p r) else filterString p r
  end.

Fixpoint allChars (p : ascii -> bool) (s : string) : bool :=
  match s with
  | EmptyString => true
  | String c r => p c && allChars p r
  end.

(** [s.replace(/[^0-9]/g, '')] *)
Definition stripNonDigits (s : string) : string := filterString isDigit s.

(** Decimal rendering of an integer, as a template literal prints it. *)
Definition showZ (z : Z) : string :=
  DecimalString.NilEmpty.string_of_int (Z.to_int z).

End JS.

(* ===================================================================== *)
(** ** Normalizer: property identifiers *)
(* ===================================================================== *)

Module Normalizer.
Import JS.

Section NormalizeBBL.

Variable positiveDigits : float -> string.

(** [normalizeBBL(bbl)] : [None] is [null]. *)
Definition normalizeBBL (bbl : JsVal) : option string :=
  if negb (truthy bbl) then None
  else
    let numeric := stripNonDigits (toString positiveDigits bbl) in
    if (String.length numeric =? 10)%nat then Some numeric
    else if (String.length numeric =? 9)%nat then Some ("0" ++ numeric)%string
    else None.

End NormalizeBBL.

(** A canonical property identifier: exactly ten digits. *)
Definition isTenDigits (s : string) : bool :=
  (String.length s =? 10)%nat && allChars isDigit s.

End Normalizer.

(* ===================================================================== *)
(** ** Classifier *)
(* ===================================================================== *)

Module Classifier.

Inductive BuildingType : Type :=
| affordable
| renovation
| one_two_family
| multifamily_walkup
| multifamily_elevator
| mixed_use
| unknown.

(** The string each category stands for in the code. *)
Definition buildingTypeName (t : BuildingType) : string :=
  match t with
  | affordable => "affordable"
  | renovation => "renovation"
  | one_two_family => "one-two-family"
  | multifamily_walkup => "multifamily-walkup"
  | multifamily_elevator => "multifamily-elevator"
  | mixed_use => "mixed-use"
  | unknown => "unknown"
  end.

(** [c.toUpperCase()] for one code unit; only ['a'..'z'] can become
    ['D'] or ['O'], so the other code units are left as they are. *)
Definition toUpperCase (c : ascii) : ascii :=
  let n := nat_of_ascii c in
  if (97 <=? n)%nat && (n <=? 122)%nat then ascii_of_nat (n - 32) else c.

(** [getPhysicalBuildingType(totalUnits, buildingClass)] *)
Definition getPhysicalBuildingType (totalUnits : Z) (buildingClass : option string)
  : BuildingType :=
  let mixed :=
    match buildingClass with
    | Some (String c _) =>
        let classPrefix := toUpperCase c in
        Ascii.eqb classPrefix "D" || Ascii.eqb classPrefix "O"
    | _ => false
    end in
  if mixed then mixed_use
  else if 50 <=? totalUnits then multifamily_elevator
  else if 10 <=? totalUnits then multifamily_walkup
  else if 3 <=? totalUnits then multifamily_walkup
  else if totalUnits <=? 2 then one_two_family
  else unknown.

(** [classifyBuildingType(totalUnits, affordableUnits, jobType,
    hasAffordableOverlay, buildingClass)] *)
Definition classifyBuildingType (totalUnits affordableUnits : Z) (jobType : string)
    (hasAffordableOverlay : bool) (buildingClass : option string) : BuildingType :=
  if hasAffordableOverlay && (0 <? affordableUnits) then affordable
  else if (jobType =? "Alteration")%string then renovation
  else getPhysicalBuildingType totalUnits buildingClass.

End Classifier.


(* ===================================================================== *)
(** ** Canonical construction records, overlay merger and deduplicator *)
(* ===================================================================== *)

Module Housing.
Import JS Classifier.

(** A construction record, with the fields of the object literal built by
    [processDCPHousing] that the merge and the deduplication read or write,
    and the location fields that identify it. *)
Record Building : Type := mkBuilding {
  id : string;
  jobNumber : string;
  jobType : string;
  longitude : float;
  latitude : float;
  address : string;
  borough : string;
  bbl : option string;
  completionYear : Z;
  totalUnits : Z;
  affordableUnits : Z;
  affordablePercentage : float;
  extremeLowIncomeUnits : Z;
  veryLowIncomeUnits : Z;
  lowIncomeUnits : Z;
  moderateIncomeUnits : Z;
  middleIncomeUnits : Z;
  otherIncomeUnits : Z;
  studioUnits : Z;
  oneBrUnits : Z;
  twoBrUnits : Z;
  threeBrUnits : Z;
  fourBrUnits : Z;
  fiveBrUnits : Z;
  sixBrUnits : Z;
  unknownBrUnits : Z;
  buildingType : BuildingType;
  physicalBuildingType : BuildingType;
  buildingClass : option string;
  dataSource : string;
  hasAffordableOverlay : bool;
  housingNyProjectId : JsVal;
  housingNyProjectName : JsVal;
  housingNyConstructionType : JsVal;
  housingNyExtendedAffordabilityOnly : bool
}.

(** The value stored per property identifier by [processHousingNY]. *)
Record AffordableData : Type := mkAffordableData {
  ad_affordableUnits : Z;
  ad_affordablePercentage : float;
  ad_extremeLowIncomeUnits : Z;
  ad_veryLowIncomeUnits : Z;
  ad_lowIncomeUnits : Z;
  ad_moderateIncomeUnits : Z;
  ad_middleIncomeUnits : Z;
  ad_otherIncomeUnits : Z;
  ad_studioUnits : Z;
  ad_oneBrUnits : Z;
  ad_twoBrUnits : Z;
  ad_threeBrUnits : Z;
  ad_fourBrUnits : Z;
  ad_fiveBrUnits : Z;
  ad_sixBrUnits : Z;
  ad_unknownBrUnits : Z;
  ad_projectId : JsVal;
  ad_projectName : JsVal;
  ad_constructionType : JsVal;
  ad_extendedAffordabilityOnly : bool
}.

(** [!building.bbl] : the identifier is [null] or the empty string. *)
Definition lacksBbl (b : Building) : bool :=
  match bbl b with
  | None => true
  | Some p => (p =? "")%string
  end.

(** The body of [if (affordableData) { ... }] in [overlayAffordableData]:
    [Object.assign] with the enumerated fields, then the reclassification. *)
Definition applyOverlay (building : Building) (affordableData : AffordableData) : Building :=
  let assigned :=
    {| id := id building;
       jobNumber := jobNumber building;
       jobType := jobType building;
       longitude := longitude building;
       latitude := latitude building;
       address := address building;
       borough := borough building;
       bbl := bbl building;
       completionYear := completionYear building;
       totalUnits := totalUnits building;
       affordableUnits := ad_affordableUnits affordableData;
       affordablePercentage := ad_affordablePercentage affordableData;
       extremeLowIncomeUnits := ad_extremeLowIncomeUnits affordableData;
       veryLowIncomeUnits := ad_veryLowIncomeUnits affordableData;
       lowIncomeUnits := ad_lowIncomeUnits affordableData;
       moderateIncomeUnits := ad_moderateIncomeUnits affordableData;
       middleIncomeUnits := ad_middleIncomeUnits affordableData;
       otherIncomeUnits := ad_otherIncomeUnits affordableData;
       studioUnits := ad_studioUnits affordableData;
       oneBrUnits := ad_oneBrUnits affordableData;
       twoBrUnits := ad_twoBrUnits affordableData;
       threeBrUnits := ad_threeBrUnits affordableData;
       fourBrUnits := ad_fourBrUnits affordableData;
       fiveBrUnits := ad_fiveBrUnits affordableData;
       sixBrUnits := ad_sixBrUnits affordableData;
       unknownBrUnits := ad_unknownBrUnits affordableData;
       buildingType := buildingType building;
       physicalBuildingType := physicalBuildingType building;
       buildingClass := buildingClass building;
       dataSource := "dcp-affordable";
       hasAffordableOverlay := true;
       housingNyProjectId := ad_projectId affordableData;
       housingNyProjectName := ad_projectName affordableData;
       housingNyConstructionType := ad_constructionType affordableData;
       housingNyExtendedAffordabilityOnly := ad_extendedAffordabilityOnly affordableData |} in
  {| id := id assigned;
     jobNumber := jobNumber assigned;
     jobType := jobType assigned;
     longitude := longitude assigned;
     latitude := latitude assigned;
     address := address assigned;
     borough := borough assigned;
     bbl := bbl assigned;
     completionYear := completionYear assigned;
     totalUnits := totalUnits assigned;
     affordableUnits := affordableUnits assigned;
     affordablePercentage := affordablePercentage assigned;
     extremeLowIncomeUnits := extremeLowIncomeUnits assigned;
     veryLowIncomeUnits := veryLowIncomeUnits assigned;
     lowIncomeUnits := lowIncomeUnits assigned;
     moderateIncomeUnits := moderateIncomeUnits assigned;
     middleIncomeUnits := middleIncomeUnits assigned;
     otherIncomeUnits := otherIncomeUnits assigned;
     studioUnits := studioUnits assigned;
     oneBrUnits := oneBrUnits assigned;
     twoBrUnits := twoBrUnits assigned;
     threeBrUnits := threeBrUnits assigned;
     fourBrUnits := fourBrUnits assigned;
     fiveBrUnits := fiveBrUnits assigned;
     sixBrUnits := sixBrUnits assigned;
     unknownBrUnits := unknownBrUnits assigned;
     buildingType :=
       classifyBuildingType (totalUnits assigned) (affordableUnits assigned)
         (jobType assigned) true (buildingClass assigned);
     physicalBuildingType := physicalBuildingType assigned;
     buildingClass := buildingClass assigned;
     dataSource := dataSource assigned;
     hasAffordableOverlay := hasAffordableOverlay assigned;
     housingNyProjectId := housingNyProjectId assigned;
     housingNyProjectName := housingNyProjectName assigned;
     housingNyConstructionType := housingNyConstructionType assigned;
     housingNyExtendedAffordabilityOnly := housingNyExtendedAffordabilityOnly assigned |}.

(** One iteration of the loop of [overlayAffordableData]: the new state of
    the building and whether it was overlaid. *)
Definition overlayBuilding (housingNyMap : gmap string AffordableData) (building : Building)
  : Building * bool :=
  if lacksBbl building then (building, false)
  else
    match bbl building with
    | Some p =>
        match housingNyMap !! p with
        | Some affordableData => (applyOverlay building affordableData, true)
        | None => (building, false)
        end
    | None => (building, false)
    end.

(** The loop, threading the array under mutation and [overlaidCount]. *)
Fixpoint overlayLoop (housingNyMap : gmap string AffordableData) (todo : list Building)
    (done : list Building) (overlaidCount : nat) : list Building * nat :=
  match todo with
  | [] => (done, overlaidCount)
  | building :: rest =>
      let '(building', overlaid) := overlayBuilding housingNyMap building in
      overlayLoop housingNyMap rest (done ++ [building'])
        (if overlaid then S overlaidCount else overlaidCount)
  end.

(** [overlayAffordableData(dcpBuildings, housingNyMap)] returns the array. *)
Definition overlayAffordableData (dcpBuildings : list Building)
    (housingNyMap : gmap string AffordableData) : list Building :=
  fst (overlayLoop housingNyMap dcpBuildings [] 0%nat).

(** *** Deduplicator *)

(** The key [`${building.bbl}-${building.completionYear}`]. *)
Definition groupKey (p : string) (year : Z) : string :=
  (p ++ "-" ++ showZ year)%string.

(** [duplicateGroups] is a [Map]: keys in insertion order, one array each. *)
Fixpoint pushToGroup (key : string) (building : Building)
    (duplicateGroups : list (string * list Building)) : list (string * list Building) :=
  match duplicateGroups with
  | [] => [(key, [building])]
  | (k, group) :: rest =>
      if (k =? key)%string then (k, group ++ [building]) :: rest
      else (k, group) :: pushToGroup key building rest
  end.

(** One iteration of the grouping loop on ([uniqueBuildings], [duplicateGroups]). *)
Definition groupStep (st : list Building * list (string * list Building)) (building : Building)
  : list Building * list (string * list Building) :=
  let '(uniqueBuildings, duplicateGroups) := st in
  if lacksBbl building then (uniqueBuildings ++ [building], duplicateGroups)
  else
    match bbl building with
    | Some p =>
        (uniqueBuildings, pushToGroup (groupKey p (completionYear building)) building duplicateGroups)
    | None => (uniqueBuildings ++ [building], duplicateGroups)
    end.

(** The callback of [group.reduce]. *)
Definition preferBuilding (best current : Building) : Building :=
  if totalUnits best <? totalUnits current then current
  else if totalUnits current <? totalUnits best then best
  else if hasAffordableOverlay current && negb (hasAffordableOverlay best) then current
  else if negb (hasAffordableOverlay current) && hasAffordableOverlay best then best
  else if String.ltb (jobNumber best) (jobNumber current) then current
  else best.

(** [group.reduce(callback)] with no initial value: a [TypeError] ([None])
    on an empty array. *)
Definition reduceBest (group : list Building) : option Building :=
  match group with
  | [] => None
  | first :: rest => Some (fold_left preferBuilding rest first)
  end.

(** The second loop, over [duplicateGroups.entries()]. *)
Fixpoint emitGroups (uniqueBuildings : list Building)
    (duplicateGroups : list (string * list Building)) : option (list Building) :=
  match duplicateGroups with
  | [] => Some uniqueBuildings
  | (_, group) :: rest =>
      match group with
      | [only] => emitGroups (uniqueBuildings ++ [only]) rest
      | _ =>
          match reduceBest group with
          | Some bestBuilding => emitGroups (uniqueBuildings ++ [bestBuilding]) rest
          | None => None
          end
      end
  end.

(** [deduplicateBuildings(buildings)] *)
Definition deduplicateBuildings (buildings : list Building) : option (list Building) :=
  let '(uniqueBuildings, duplicateGroups) := fold_left groupStep buildings ([], []) in
  emitGroups uniqueBuildings duplicateGroups.

(** The key a record with an identifier is filed under. *)
Definition keyOf (b : Building) : string :=
  match bbl b with
  | Some p => groupKey p (completionYear b)
  | None => ""
  end.

(** [duplicateGroups.get(key)], the empty array when the key is absent. *)
Fixpoint groupOf (key : string) (duplicateGroups : list (string * list Building))
  : list Building :=
  match duplicateGroups with
  | [] => []
  | (k, group) :: rest => if (k =? key)%string then group else groupOf key rest
  end.

(** No key occurs twice in the map. *)
Fixpoint distinctKeys (duplicateGroups : list (string * list Building)) : Prop :=
  match duplicateGroups with
  | [] => True
  | (k, _) :: rest => ~ In k (map fst rest) /\ distinctKeys rest
  end.

(** The data-model invariant on the property identifier. *)
Definition bblInvariant (b : Building) : bool :=
  match bbl b with
  | None => true
  | Some p => Normalizer.isTenDigits p
  end.

(** Membership of a record in the group of key ([p], [year]). *)
Definition inGroup (p : string) (year : Z) (b : Building) : bool :=
  match bbl b with
  | Some q => (q =? p)%string && (completionYear b =? year)
  | None => false
  end.

(** The ordered tie-break: [a] does not beat [b]. *)
Definition noBetter (a b : Building) : Prop :=
  totalUnits a < totalUnits b
  \/ (totalUnits a = totalUnits b
      /\ ((hasAffordableOverlay a = false /\ hasAffordableOverlay b = true)
          \/ (hasAffordableOverlay a = hasAffordableOverlay b
              /\ String.leb (jobNumber a) (jobNumber b) = true))).

End Housing.


(* ===================================================================== *)
(** ** Normalizer: intake of the construction feed *)
(* ===================================================================== *)

Module Processing.
Import JS Housing.

(** [record.name] on a raw feature: [undefined] when the property is missing. *)
Definition getProp (record : gmap string JsVal) (name : string) : JsVal :=
  default JsUndefined (record !! name).

Section ProcessDCPHousing.

(** [parseFloat] of a string, [parseInt(_, 10)] and [Math.round]: built-ins. *)
Variable parseFloatString : string -> float.
Variable parseInt10 : JsVal -> float.
Variable Math_round : float -> float.

(** The value of the object literal of lines 371-455, from the feature
    and the values parsed before it: latitude, longitude, completion year,
    unit count.  It is evaluated only for a record that passed the three
    guards.  The literal can also throw; [processRecord] and
    [processDCPHousing] below are the loop on the records whose literal
    evaluates, and [ConstructionIntake] has the loop with the exceptions. *)
Variable buildingLiteral : gmap string JsVal -> float -> float -> float -> float -> Building.

(** [parseFloat(v)]: the argument is first converted to a string; a number
    reads back as itself ([-0] prints as "0"), and the texts of [undefined],
    [null], [true] and [false] start no numeric literal. *)
Definition parseFloat (v : JsVal) : float :=
  match v with
  | JsNumber x => if isZero x then 0%float else x
  | JsString s => parseFloatString s
  | _ => nan
  end.

(** The body of the loop of [processDCPHousing] for one feature:
    [None] is [skipped++; continue], [Some b] is [buildings.push(b)]. *)
Definition processRecord (record : gmap string JsVal) : option Building :=
  let lat := parseFloat (getProp record "Latitude") in
  let lon := parseFloat (getProp record "Longitude") in
  if isNaN lat || isNaN lon || isZero lat || isZero lon then None
  else
    let completionYear := parseInt10 (getProp record "CompltYear") in
    if isNaN completionYear || lt completionYear 2014%float || gt completionYear 2025%float
    then None
    else
      let classANet := orElse (parseFloat (getProp record "ClassANet")) 0%float in
      let totalUnits := Math_round classANet in
      if le totalUnits 0%float then None
      else Some (buildingLiteral record lat lon completionYear totalUnits).

(** One iteration on the state ([buildings], [skipped]). *)
Definition processStep (st : list Building * nat) (record : gmap string JsVal)
  : list Building * nat :=
  match processRecord record with
  | Some building => (fst st ++ [building], snd st)
  | None => (fst st, S (snd st))
  end.

(** [processDCPHousing(records)]: the returned array and the logged
    [skipped] counter. *)
Definition processDCPHousing (records : list (gmap string JsVal)) : list Building * nat :=
  fold_left processStep records ([], 0%nat).

End ProcessDCPHousing.

(** [isFinite(x)] *)
Definition isFinite (x : float) : bool :=
  negb (isNaN x) && negb (PrimFloat.is_infinity x).

(** [validators.isValidLatitude], on the parsed value. *)
Definition isValidLatitude (lat : float) : bool :=
  negb (isNaN lat) && isFinite lat && le (-90)%float lat && le lat 90%float
  && negb (isZero lat).

End Processing.

(* ===================================================================== *)
(** ** Geometry simplifier *)
(* ===================================================================== *)

Module Geometry.

(** The arithmetic [simplifyLine] uses on coordinates. *)
Class Arith (num : Type) : Type := {
  n_zero : num;
  n_add : num -> num -> num;
  n_sub : num -> num -> num;
  n_mul : num -> num -> num;
  n_div : num -> num -> num;
  n_sq : num -> num;             (* [x ** 2] *)
  n_sqrt : num -> num;           (* [Math.sqrt] *)
  n_abs : num -> num;            (* [Math.abs] *)
  n_gt : num -> num -> bool;     (* [a > b] *)
  n_eq : num -> num -> bool      (* [a === b] *)
}.

Section SimplifyLine.

Context {num : Type} {A : Arith num}.

Definition Point : Type := (num * num)%type.

Definition origin : Point := (n_zero, n_zero).

(** [points[i]] for an index in range. *)
Definition at_ (points : list Point) (i : nat) : Point := nth i points origin.

(** [Math.sqrt((y2 - y1) ** 2 + (x2 - x1) ** 2)] *)
Definition lineLength (p1 p2 : Point) : num :=
  let '(x1, y1) := p1 in
  let '(x2, y2) := p2 in
  n_sqrt (n_add (n_sq (n_sub y2 y1)) (n_sq (n_sub x2 x1))).

(** [Math.abs((y2 - y1) * x0 - (x2 - x1) * y0 + x2 * y1 - y2 * x1) / lineLength] *)
Definition perpendicular (p1 p2 : Point) (len : num) (p0 : Point) : num :=
  let '(x1, y1) := p1 in
  let '(x2, y2) := p2 in
  let '(x0, y0) := p0 in
  n_div
    (n_abs
       (n_sub
          (n_add
             (n_sub (n_mul (n_sub y2 y1) x0) (n_mul (n_sub x2 x1) y0))
             (n_mul x2 y1))
          (n_mul y2 x1)))
    len.

(** One iteration of the [for] loop on ([maxDist], [maxIndex]). *)
Definition scanStep (points : list Point) (p1 p2 : Point) (len : num)
    (st : num * nat) (i : nat) : num * nat :=
  let '(maxDist, maxIndex) := st in
  let dist := perpendicular p1 p2 len (at_ points i) in
  if n_gt dist maxDist then (dist, i) else (maxDist, maxIndex).

(** The loop [for (let i = 1; i < points.length - 1; i++)] from
    [maxDist = 0], [maxIndex = 0]. *)
Definition farthest (points : list Point) (p1 p2 : Point) (len : num) : num * nat :=
  fold_left (scanStep points p1 p2 len) (seq 1 (length points - 2)) (n_zero, 0%nat).

(** [simplifyLine(points, tolerance)].  The recursion of the code is not
    structural, so the depth of the call stack is bounded by [fuel];
    [None] means the bound was reached. *)
Fixpoint simplifyLine (fuel : nat) (points : list Point) (tolerance : num)
  : option (list Point) :=
  if (length points <=? 2)%nat then Some points
  else
    match fuel with
    | O => None
    | S fuel' =>
        let p1 := at_ points 0 in
        let p2 := at_ points (length points - 1) in
        let len := lineLength p1 p2 in
        if n_eq len n_zero then Some [p1]
        else
          let '(maxDist, maxIndex) := farthest points p1 p2 len in
          if n_gt maxDist tolerance then
            match simplifyLine fuel' (firstn (maxIndex + 1) points) tolerance with
            | Some leftPart =>
                match simplifyLine fuel' (skipn maxIndex points) tolerance with
                | Some rightPart => Some (removelast leftPart ++ rightPart)
                | None => None
                end
            | None => None
            end
          else Some [p1; p2]
    end.

End SimplifyLine.

(** IEEE binary64, the numbers the code runs on. *)
#[export] Instance float_arith : Arith float := {
  n_zero := 0%float;
  n_add := PrimFloat.add;
  n_sub := PrimFloat.sub;
  n_mul := PrimFloat.mul;
  n_div := PrimFloat.div;
  n_sq := fun x => PrimFloat.mul x x;
  n_sqrt := PrimFloat.sqrt;
  n_abs := PrimFloat.abs;
  n_gt := fun a b => PrimFloat.ltb b a;
  n_eq := PrimFloat.eqb
}.


(** A coordinate that is neither NaN nor infinite. *)
Definition finiteCoordinate (x : float) : bool :=
  negb (PrimFloat.is_nan x) && negb (PrimFloat.is_infinity x).








End Geometry.


(* ===================================================================== *)
(** ** Change detector *)
(* ===================================================================== *)

Module ChangeDetector.
Import JS.

(** *** [JSON.stringify] of the summary object *)

Definition dquote : ascii := ascii_of_nat 34.
Definition backslash : ascii := ascii_of_nat 92.

Definition hexDigit (n : nat) : ascii :=
  match n with
  | 0 => "0" | 1 => "1" | 2 => "2" | 3 => "3" | 4 => "4" | 5 => "5" | 6 => "6"
  | 7 => "7" | 8 => "8" | 9 => "9" | 10 => "a" | 11 => "b" | 12 => "c"
  | 13 => "d" | 14 => "e" | _ => "f"
  end%nat%char.

(** One code unit inside a JSON string (QuoteJSONString). *)
Definition quoteChar (c : ascii) : string :=
  let n := nat_of_ascii c in
  if (n =? 8)%nat then String backslash "b"
  else if (n =? 9)%nat then String backslash "t"
  else if (n =? 10)%nat then String backslash "n"
  else if (n =? 12)%nat then String backslash "f"
  else if (n =? 13)%nat then String backslash "r"
  else if (n =? 34)%nat then String backslash (String dquote "")
  else if (n =? 92)%nat then String backslash (String backslash "")
  else if (n <? 32)%nat then
    String backslash
      (String "u" (String "0" (String "0"
         (String (hexDigit (n / 16)) (String (hexDigit (n mod 16)) "")))))
  else String c "".

Fixpoint quoteChars (s : string) : string :=
  match s with
  | EmptyString => EmptyString
  | String c r => (quoteChar c ++ quoteChars r)%string
  end.

(** [JSON.stringify(s)] for a string [s]. *)
Definition quoteJSON (s : string) : string :=
  String dquote (quoteChars s ++ String dquote "")%string.

Fixpoint joinWith (sep : string) (parts : list string) : string :=
  match parts with
  | [] => ""
  | [x] => x
  | x :: rest => (x ++ sep ++ joinWith sep rest)%string
  end.

(** [JSON.stringify({ count, first, last, samples })] *)
Definition stringifySummary (count : nat) (first last : string) (samples : list string)
  : string :=
  ("{" ++ quoteJSON "count" ++ ":" ++ showZ (Z.of_nat count)
   ++ "," ++ quoteJSON "first" ++ ":" ++ quoteJSON first
   ++ "," ++ quoteJSON "last" ++ ":" ++ quoteJSON last
   ++ "," ++ quoteJSON "samples" ++ ":[" ++ joinWith "," (map quoteJSON samples)
   ++ "]}")%string.

(** *** The rolling hash *)

(** ToInt32 *)
Definition toInt32 (z : Z) : Z := (z + 2 ^ 31) mod 2 ^ 32 - 2 ^ 31.

(** ToUint32, the value of [z >>> 0] *)
Definition toUint32 (z : Z) : Z := z mod 2 ^ 32.

(** [h << k] *)
Definition shl (h k : Z) : Z := toInt32 (Z.shiftl (toInt32 h) k).

(** [hash ^= c; hash += (hash << 1) + (hash << 4) + (hash << 7) +
    (hash << 8) + (hash << 24)]: the xor yields an int32, the sum is an
    exact number and is only wrapped by the next xor. *)
Definition hashStep (hash : Z) (c : ascii) : Z :=
  let hash := Z.lxor (toInt32 hash) (Z.of_nat (nat_of_ascii c)) in
  hash + (shl hash 1 + shl hash 4 + shl hash 7 + shl hash 8 + shl hash 24).

(** [n.toString(16)] for a non-negative integer. *)
Definition toHex (n : Z) : string :=
  HexadecimalString.NilZero.string_of_uint (N.to_hex_uint (Z.to_N n)).

(** The loop over [str.charCodeAt(i)] and the final [(hash >>> 0).toString(16)]. *)
Definition hashString (str : string) : string :=
  toHex (toUint32 (fold_left hashStep (list_ascii_of_string str) 2166136261)).

(** [idx % stride === 0]: with [stride = 0] the remainder is [NaN]. *)
Definition remainderIsZero (idx stride : nat) : bool :=
  if (stride =? 0)%nat then false else (idx mod stride =? 0)%nat.

(** [records.filter((_, idx) => keep idx)], from index [idx]. *)
Fixpoint filterIndex {X : Type} (keep : nat -> bool) (idx : nat) (l : list X) : list X :=
  match l with
  | [] => []
  | x :: rest =>
      if keep idx then x :: filterIndex keep (S idx) rest
      else filterIndex keep (S idx) rest
  end.

Section Fingerprint.

(** A record and [JSON.stringify] of it: a built-in. *)
Variable Rec : Type.
Variable stringify : Rec -> string.

(** The [samples] of the summary, before serialization. *)
Definition sampleRecords (records : list Rec) : list Rec :=
  firstn 5
    (filterIndex (fun idx => remainderIsZero idx (length records / 5)%nat) 0 records).

(** [calculateDataHash(records)] *)
Definition calculateDataHash (records : list Rec) : string :=
  match records with
  | [] => "empty"
  | first :: _ =>
      hashString
        (stringifySummary (length records)
           (stringify first)
           (stringify (List.last records first))
           (map stringify (sampleRecords records)))
  end.

(** *** The detector *)

(** Result of an awaited call: a value, or a thrown error with its message. *)
Inductive Outcome (X : Type) : Type :=
| Returned (x : X)
| Thrown (message : string).
Arguments Returned {X} x.
Arguments Thrown {X} message.

(** The two steps of the detector that read the database, each of which
    can throw: the count step (the counting query and the expression that
    reads its result) and the sample step.  [storageOf] below gives them
    for a database and its driver. *)
Record Storage : Type := {
  currentCount : string -> Outcome Z;
  currentSample : string -> Outcome (list Rec)
}.

Inductive Stats : Type :=
| StatsEmpty
| StatsCounts (currentCount newCount : Z)
| StatsDifference (currentCount newCount difference : Z)
| StatsHashes (currentCount newCount : Z) (existingHash newHash : string).

Record Verdict : Type := {
  hasChanges : bool;
  reason : string;
  error : option string;
  stats : Stats
}.

(** The hash comparison of the [if (hashData)] block: [Some] verdict when
    it returns from inside the block. *)
Definition compareHashes (db : Storage) (tableName : string) (newRecords : list Rec)
    (current newCount : Z) : Outcome (option Verdict) :=
  match currentSample db tableName with
  | Thrown message => Thrown message
  | Returned existingRecords =>
      let existingHash := calculateDataHash existingRecords in
      let newHash := calculateDataHash (firstn 1000 newRecords) in
      if negb (existingHash =? newHash)%string then
        Returned (Some {| hasChanges := true;
                          reason := "Data content has changed (hash mismatch)";
                          error := None;
                          stats := StatsHashes current newCount existingHash newHash |})
      else Returned None
  end.

(** The [try] block of [detectDataChanges]. *)
Definition tryBlock (db : Storage) (tableName : string) (newRecords : list Rec)
    (hashData : bool) : Outcome Verdict :=
  match currentCount db tableName with
  | Thrown message => Thrown message
  | Returned current =>
      let newCount := Z.of_nat (length newRecords) in
      if 0 <? Z.abs (current - newCount) then
        Returned {| hasChanges := true;
                    reason :=
                      if current =? 0 then "Table is empty - initial seed required"
                      else ("Record count changed (" ++ showZ current ++ " → "
                            ++ showZ newCount ++ ")")%string;
                    error := None;
                    stats := StatsDifference current newCount (newCount - current) |}
      else
        let unchanged :=
          {| hasChanges := false;
             reason := "Data is identical to existing records";
             error := None;
             stats := StatsCounts current newCount |} in
        if hashData then
          match compareHashes db tableName newRecords current newCount with
          | Thrown message => Thrown message
          | Returned (Some verdict) => Returned verdict
          | Returned None => Returned unchanged
          end
        else Returned unchanged
  end.

(** [detectDataChanges(db, tableName, newRecords, { hashData })]: the
    [catch] clause turns a thrown error into a verdict. *)
Definition detectDataChanges (db : Storage) (tableName : string) (newRecords : list Rec)
    (hashData : bool) : Verdict :=
  match tryBlock db tableName newRecords hashData with
  | Returned verdict => verdict
  | Thrown message =>
      {| hasChanges := true;
         reason := "Change detection failed - proceeding with update";
         error := Some message;
         stats := StatsEmpty |}
  end.

End Fingerprint.

Arguments Returned {X} x.
Arguments Thrown {X} message.

(** *** The database behind the storage *)

(** What [await db.execute(...)] resolves to.  With the driver [initDb]
    sets up ([drizzle-orm/postgres-js] over [postgres]) it is the array of
    the rows itself, which has no [rows] property; with a driver in the
    style of node-postgres it is an object whose [rows] property is that
    array. *)
Inductive QueryResult (Row : Type) : Type :=
| RowList (rows : list Row)
| RowsObject (rows : list Row).
Arguments RowList {Row} rows.
Arguments RowsObject {Row} rows.

Section Driver.

Variable Rec : Type.

(** [parseInt(v, 10)] on the [count] of a counting row, a built-in. *)
Variable parseCount : JsVal -> Z.

(** [parseInt(result.rows[0]?.count || result[0]?.count || 0, 10)], each
    row of the counting query given by its [count] property.  On an array
    [result.rows] is [undefined], and [result.rows[0]] throws a
    [TypeError] before any [?.] is reached; on an object with a [rows]
    array, [result[0]] is [undefined]. *)
Definition readCount (result : QueryResult JsVal) : Outcome Z :=
  match result with
  | RowList _ => Thrown "Cannot read properties of undefined (reading '0')"
  | RowsObject rows =>
      let first :=
        match rows with
        | count :: _ => count
        | [] => JsUndefined
        end in
      Returned (parseCount (if truthy first then first else JsNumber 0%float))
  end.

(** [existingRecords.rows || existingRecords || []] *)
Definition readSample (result : QueryResult Rec) : list Rec :=
  match result with
  | RowList rows => rows
  | RowsObject rows => rows
  end.

(** The two queries of [detectDataChanges], by table name:
    [SELECT COUNT( * ) as count FROM t] and
    [SELECT * FROM t ORDER BY id LIMIT 1000]. *)
Record Database : Type := {
  selectCount : string -> Outcome (QueryResult JsVal);
  selectSample : string -> Outcome (QueryResult Rec)
}.

(** The count step and the sample step of [detectDataChanges] on a
    database: the query, then the expression that reads its result. *)
Definition storageOf (db : Database) : Storage Rec :=
  {| currentCount := fun tableName =>
       match selectCount db tableName with
       | Returned result => readCount result
       | Thrown message => Thrown message
       end;
     currentSample := fun tableName =>
       match selectSample db tableName with
       | Returned result => Returned (readSample result)
       | Thrown message => Thrown message
       end |}.

End Driver.

(** The indices [sampleRecords] keeps in an array of [n] records. *)
Definition sampleIndices (n : nat) : list nat :=
  firstn 5 (filterIndex (fun idx => remainderIsZero idx (n / 5)%nat) 0 (seq 0 n)).

(** The positions the fingerprint reads in an array of [n] records:
    the first, the last and the sampled ones. *)
Definition sampledIndex (n idx : nat) : bool :=
  (idx =? 0)%nat || (idx =? n - 1)%nat || existsb (Nat.eqb idx) (sampleIndices n).

(** *** Flat rows, for concrete runs *)

Inductive Cell : Type :=
| CellNull
| CellInt (n : Z)
| CellText (s : string).

(** [JSON.stringify] of a cell and of an object with such cells. *)
Definition stringifyCell (c : Cell) : string :=
  match c with
  | CellNull => "null"
  | CellInt n => showZ n
  | CellText s => quoteJSON s
  end.

Definition stringifyRow (row : list (string * Cell)) : string :=
  ("{" ++ joinWith "," (map (fun kv => quoteJSON (fst kv) ++ ":" ++ stringifyCell (snd kv)) row)
   ++ "}")%string.

End ChangeDetector.


(* ===================================================================== *)
(** ** Intake of the construction feed, with the exceptions of the literal *)
(* ===================================================================== *)

Module ConstructionIntake.
Import JS Housing ChangeDetector.

Section ProcessDCPHousing.

Variable parseFloatString : string -> float.
Variable parseInt10 : JsVal -> float.
Variable Math_round : float -> float.
Variable buildingLiteral : gmap string JsVal -> float -> float -> float -> float -> Building.

(** [new Date(v).toISOString()], a built-in: [None] when the date is
    invalid and the call throws a [RangeError]. *)
Variable toISOString : JsVal -> option string.

(** [v ? new Date(v).toISOString() : null] throws. *)
Definition unreadableDate (v : JsVal) : bool :=
  truthy v && match toISOString v with Some _ => false | None => true end.

(** The exception of the object literal, if any, in the order of its
    properties: [completionDate] and [permitDate] throw a [RangeError] on
    a truthy value that is not a date; [buildingType] and
    [physicalBuildingType] reach [buildingClass.charAt(0)], a [TypeError]
    on a truthy value that is not a string. *)
Definition literalError (record : gmap string JsVal) : option string :=
  if unreadableDate (Processing.getProp record "DateComplt") then Some "RangeError"
  else if unreadableDate (Processing.getProp record "DatePermit") then Some "RangeError"
  else
    match Processing.getProp record "Bldg_Class" with
    | JsString _ => None
    | buildingClass => if truthy buildingClass then Some "TypeError" else None
    end.

(** The body of the loop for one feature: the three guards, then the
    literal.  [Returned None] is [skipped++; continue], [Returned (Some b)]
    is [buildings.push(b)], [Thrown] leaves the function. *)
Definition processRecord (record : gmap string JsVal) : Outcome (option Building) :=
  match Processing.processRecord parseFloatString parseInt10 Math_round buildingLiteral record with
  | None => Returned None
  | Some building =>
      match literalError record with
      | Some message => Thrown message
      | None => Returned (Some building)
      end
  end.

(** The loop on ([buildings], [skipped]); it has no [try]. *)
Fixpoint processLoop (records : list (gmap string JsVal)) (buildings : list Building)
    (skipped : nat) : Outcome (list Building * nat) :=
  match records with
  | [] => Returned (buildings, skipped)
  | record :: rest =>
      match processRecord record with
      | Thrown message => Thrown message
      | Returned (Some building) => processLoop rest (buildings ++ [building]) skipped
      | Returned None => processLoop rest buildings (S skipped)
      end
  end.

(** [processDCPHousing(records)]: the returned array and the logged
    [skipped] counter, or the exception. *)
Definition processDCPHousing (records : list (gmap string JsVal))
  : Outcome (list Building * nat) :=
  processLoop records [] 0%nat.

(** A record that passes the three guards and whose literal throws. *)
Definition throwing (record : gmap string JsVal) : bool :=
  match Processing.processRecord parseFloatString parseInt10 Math_round buildingLiteral record,
        literalError record with
  | Some _, Some _ => true
  | _, _ => false
  end.

End ProcessDCPHousing.

End ConstructionIntake.


(* ===================================================================== *)
(** ** Concrete data used in the examples *)
(* ===================================================================== *)

Module Examples.
Import JS Classifier Housing Processing Geometry ChangeDetector.

(** Ten stored rows; [tenRows u] differs from [tenRows 5] in one field
    ("units") of the row at index 1 only. *)
Definition tenRows (u : Z) : list (list (string * Cell)) :=
  map (fun i => [("id", CellInt (Z.of_nat i));
                 ("units", CellInt (if (i =? 1)%nat then u else 5))])
      (seq 0 10).

(** A store holding [rows]. *)
Definition storeOf (rows : list (list (string * Cell))) : Storage (list (string * Cell)) :=
  {| currentCount := fun _ => Returned (Z.of_nat (length rows));
     currentSample := fun _ => Returned rows |}.

(** A table behind the driver of the repository: every query resolves to
    the array of its rows, the count being the decimal text of the number
    of rows. *)
Definition postgresJsTable (rows : list (list (string * Cell)))
  : Database (list (string * Cell)) :=
  {| selectCount := fun _ => Returned (RowList [JsString (showZ (Z.of_nat (length rows)))]);
     selectSample := fun _ => Returned (RowList (firstn 1000 rows)) |}.

(** The same table behind a driver that resolves to an object with a
    [rows] array. *)
Definition rowsObjectTable (rows : list (list (string * Cell)))
  : Database (list (string * Cell)) :=
  {| selectCount := fun _ => Returned (RowsObject [JsString (showZ (Z.of_nat (length rows)))]);
     selectSample := fun _ => Returned (RowsObject (firstn 1000 rows)) |}.

(** [parseInt(v, 10)] on the texts of the counts of the examples. *)
Definition parseCountOf (v : JsVal) : Z :=
  match v with
  | JsString "0" => 0
  | JsString "10" => 10
  | _ => 0
  end.

(** A store whose count query is rejected. *)
Definition unreachableStore : Storage (list (string * Cell)) :=
  {| currentCount := fun _ => Thrown "connection refused";
     currentSample := fun _ => Thrown "connection refused" |}.

(** A store whose sample query is rejected after the count succeeded. *)
Definition halfReachableStore : Storage (list (string * Cell)) :=
  {| currentCount := fun _ => Returned 10;
     currentSample := fun _ => Thrown "statement timeout" |}.

(** Stand-ins for the built-ins on features whose attributes are JSON
    numbers: no string is parsed, [parseInt(x, 10)] of an integral number
    is that number, and [Math.round] of an integral number is that number. *)
Definition noStringParsed (_ : string) : float := nan.

Definition parseIntOfNumber (v : JsVal) : float :=
  match v with
  | JsNumber x => x
  | _ => nan
  end.

Definition roundOfIntegral (x : float) : float := x.

(** An object literal with the parsed values in place and fixed other fields. *)
Definition plainBuilding (record : gmap string JsVal) (lat lon year units : float) : Building :=
  {| id := "B1"; jobNumber := "B1"; jobType := "New Building";
     longitude := lon; latitude := lat;
     address := "1 Main St"; borough := "Brooklyn"; bbl := None;
     completionYear := 2020; totalUnits := 12;
     affordableUnits := 0; affordablePercentage := 0%float;
     extremeLowIncomeUnits := 0; veryLowIncomeUnits := 0; lowIncomeUnits := 0;
     moderateIncomeUnits := 0; middleIncomeUnits := 0; otherIncomeUnits := 0;
     studioUnits := 0; oneBrUnits := 0; twoBrUnits := 0; threeBrUnits := 0;
     fourBrUnits := 0; fiveBrUnits := 0; sixBrUnits := 0; unknownBrUnits := 12;
     buildingType := multifamily_walkup; physicalBuildingType := multifamily_walkup;
     buildingClass := None; dataSource := "dcp"; hasAffordableOverlay := false;
     housingNyProjectId := JsNull; housingNyProjectName := JsNull;
     housingNyConstructionType := JsNull;
     housingNyExtendedAffordabilityOnly := false |}.

(** A feature whose latitude is the JSON number [1e999], read as [Infinity]. *)
Definition infiniteLatitudeFeature : gmap string JsVal :=
  list_to_map [("Latitude", JsNumber infinity);
               ("Longitude", JsNumber (-73.75)%float);
               ("CompltYear", JsNumber 2020%float);
               ("ClassANet", JsNumber 12%float)].

(** A feature with no latitude at all. *)
Definition missingLatitudeFeature : gmap string JsVal :=
  list_to_map [("Longitude", JsNumber (-73.75)%float);
               ("CompltYear", JsNumber 2020%float);
               ("ClassANet", JsNumber 12%float)].

(** A construction record with the fields the deduplication reads. *)
Definition construction (job : string) (parcel : option string) (year units : Z)
    (overlay : bool) : Building :=
  {| id := job; jobNumber := job; jobType := "New Building";
     longitude := (-73.75)%float; latitude := 40.75%float;
     address := "1 Main St"; borough := "Manhattan"; bbl := parcel;
     completionYear := year; totalUnits := units;
     affordableUnits := if overlay then 5 else 0; affordablePercentage := 0%float;
     extremeLowIncomeUnits := 0; veryLowIncomeUnits := 0; lowIncomeUnits := 0;
     moderateIncomeUnits := 0; middleIncomeUnits := 0; otherIncomeUnits := 0;
     studioUnits := 0; oneBrUnits := 0; twoBrUnits := 0; threeBrUnits := 0;
     fourBrUnits := 0; fiveBrUnits := 0; sixBrUnits := 0; unknownBrUnits := units;
     buildingType := if overlay then affordable else multifamily_walkup;
     physicalBuildingType := multifamily_walkup;
     buildingClass := None;
     dataSource := if overlay then "dcp-affordable" else "dcp";
     hasAffordableOverlay := overlay;
     housingNyProjectId := JsNull; housingNyProjectName := JsNull;
     housingNyConstructionType := JsNull;
     housingNyExtendedAffordabilityOnly := false |}.

(** The end-to-end scenario: two jobs on parcel 1000123456 completed in
    2020 (40 units without overlay, 45 units with one), a job with no
    identifier, the same parcel in 2021, and a tie on units and overlay. *)
Definition scenario : list Building :=
  [ construction "J100" (Some "1000123456") 2020 40 false;
    construction "J050" None 2020 7 false;
    construction "J101" (Some "1000123456") 2020 45 true;
    construction "J102" (Some "1000123456") 2021 45 false;
    construction "J200" (Some "3000500012") 2019 10 false;
    construction "J201" (Some "3000500012") 2019 10 false ].

(** Three points on a line, and a segment run over twice. *)
Definition collinearPoints : list (float * float) :=
  [(0, 0); (1, 0); (2, 0)]%float.


(** The unit square, and a closed ring. *)
Definition unitSquare : list (float * float) :=
  [(0, 0); (1, 0); (1, 1); (0, 1)]%float.

Definition closedRing : list (float * float) :=
  [(0, 0); (1, 3); (2, 0); (0, 0)]%float.



(** A zigzag whose peaks are farther than half a unit from any chord. *)
Definition zigzag : list (float * float) :=
  [(0, 0); (1, 3); (2, 0); (3, 1); (4, 0)]%float.

End Examples.


(* ===================================================================== *)
(** ** The merge and the deduplication in the pipeline *)
(* ===================================================================== *)

Module Pipeline.
Import JS Classifier Housing.

(** The record has an identifier with an entry in the overlay mapping. *)
Definition overlayMatches (housingNyMap : gmap string AffordableData) (building : Building)
  : bool :=
  negb (lacksBbl building)
  && match bbl building with
     | Some p => bool_decide (is_Some (housingNyMap !! p))
     | None => false
     end.

(** The choice between two records by units, then by job number alone. *)
Definition preferByUnitsThenJob (best current : Building) : Building :=
  if totalUnits best <? totalUnits current then current
  else if totalUnits current <? totalUnits best then best
  else if String.ltb (jobNumber best) (jobNumber current) then current
  else best.

End Pipeline.

Module PipelineExamples.
Import JS Housing.

(** An entry of the overlay mapping with five affordable units. *)
Definition plainOverlay : AffordableData :=
  {| ad_affordableUnits := 5; ad_affordablePercentage := 12.5%float;
     ad_extremeLowIncomeUnits := 0; ad_veryLowIncomeUnits := 0; ad_lowIncomeUnits := 5;
     ad_moderateIncomeUnits := 0; ad_middleIncomeUnits := 0; ad_otherIncomeUnits := 0;
     ad_studioUnits := 0; ad_oneBrUnits := 0; ad_twoBrUnits := 0; ad_threeBrUnits := 0;
     ad_fourBrUnits := 0; ad_fiveBrUnits := 0; ad_sixBrUnits := 0; ad_unknownBrUnits := 5;
     ad_projectId := JsString "P-1"; ad_projectName := JsString "Project One";
     ad_constructionType := JsString "New Construction";
     ad_extendedAffordabilityOnly := false |}.

End PipelineExamples.

(* ===================================================================== *)
(** ** GeoJSON geometries: simplification and centroid *)
(* ===================================================================== *)

Module GeoJSON.
Import Geometry ChangeDetector.

(** A geometry as the two functions read it: its [type] and, under the
    three types they know, its [coordinates].  A position is a pair
    [[lon, lat]], as [simplifyLine] destructures it. *)
Inductive Geom (num : Type) : Type :=
| GeoMissing                                   (* falsy, or with no [type] *)
| GeoPoint (coordinates : num * num)
| GeoPolygon (coordinates : list (list (num * num)))
| GeoMultiPolygon (coordinates : list (list (list (num * num))))
| GeoOther (type : string).                    (* any other [type] *)
Arguments GeoMissing {num}.
Arguments GeoPoint {num} coordinates.
Arguments GeoPolygon {num} coordinates.
Arguments GeoMultiPolygon {num} coordinates.
Arguments GeoOther {num} type.

Section Geometries.

Context {num : Type} {A : Arith num}.

(** [rings.map(ring => simplifyLine(ring, tolerance))]: the calls are made
    in order, and the result exists when each of them returns. *)
Definition simplifyRings (fuel : nat) (rings : list (list (num * num))) (tolerance : num)
  : option (list (list (num * num))) :=
  mapM (fun ring => simplifyLine fuel ring tolerance) rings.

(** [simplifyGeometry(geometry, tolerance)] *)
Definition simplifyGeometry (fuel : nat) (geometry : Geom num) (tolerance : num)
  : option (Geom num) :=
  match geometry with
  | GeoMissing => Some geometry
  | GeoPoint _ => Some geometry
  | GeoPolygon coordinates =>
      match simplifyRings fuel coordinates tolerance with
      | Some rings => Some (GeoPolygon rings)
      | None => None
      end
  | GeoMultiPolygon coordinates =>
      match mapM (fun polygon => simplifyRings fuel polygon tolerance) coordinates with
      | Some polygons => Some (GeoMultiPolygon polygons)
      | None => None
      end
  | GeoOther _ => Some geometry
  end.

(** The number 1, for [totalPoints++]. *)
Variable n_one : num.

(** [processRing(ring)] on ([totalX], [totalY], [totalPoints]). *)
Definition processRing (totals : num * num * num) (ring : list (num * num))
  : num * num * num :=
  fold_left
    (fun (st : num * num * num) (position : num * num) =>
       let '(totalX, totalY, totalPoints) := st in
       let '(lon, lat) := position in
       (n_add totalX lon, n_add totalY lat, n_add totalPoints n_one))
    ring totals.

(** The loop over the polygons of a MultiPolygon: [polygon[0]] of a polygon
    with no ring is [undefined], and iterating it is a [TypeError]. *)
Fixpoint processPolygons (totals : num * num * num)
    (polygons : list (list (list (num * num)))) : Outcome (num * num * num) :=
  match polygons with
  | [] => Returned totals
  | polygon :: rest =>
      match polygon with
      | [] => Thrown "TypeError"
      | outer :: _ => processPolygons (processRing totals outer) rest
      end
  end.

(** The last two lines: [None] is [[null, null]]. *)
Definition meanPosition (totals : num * num * num) : option (num * num) :=
  let '(totalX, totalY, totalPoints) := totals in
  if n_eq totalPoints n_zero then None
  else Some (n_div totalX totalPoints, n_div totalY totalPoints).

(** [calculateCentroid(geometry)] *)
Definition calculateCentroid (geometry : Geom num) : Outcome (option (num * num)) :=
  let start := (n_zero, n_zero, n_zero) in
  match geometry with
  | GeoMissing => Returned None
  | GeoPoint coordinates => Returned (Some coordinates)
  | GeoPolygon coordinates =>
      match coordinates with
      | [] => Thrown "TypeError"
      | outer :: _ => Returned (meanPosition (processRing start outer))
      end
  | GeoMultiPolygon coordinates =>
      match processPolygons start coordinates with
      | Returned totals => Returned (meanPosition totals)
      | Thrown message => Thrown message
      end
  | GeoOther _ => Returned (meanPosition start)
  end.

End Geometries.

(** The tolerance the seed script passes, [0.0001]. *)
Definition seedTolerance : float := Eval cbv in (1 / 10000)%float.

(** A ring whose last position repeats its first one, as GeoJSON rings do. *)
Definition ringIsClosed {num : Type} {A : Arith num} (ring : list (num * num)) : Prop :=
  (2 < length ring)%nat /\ at_ ring 0 = at_ ring (length ring - 1).

(** All coordinates of a ring are finite binary64 numbers. *)
Definition finiteRing (ring : list (float * float)) : Prop :=
  Forall (fun p => finiteCoordinate (fst p) = true /\ finiteCoordinate (snd p) = true) ring.

(** A closed ring whose first position has finite coordinates. *)
Definition closedFiniteRing (ring : list (float * float)) : Prop :=
  ringIsClosed ring
  /\ finiteCoordinate (fst (at_ ring 0)) = true
  /\ finiteCoordinate (snd (at_ ring 0)) = true.

(** The longest ring of a geometry, a bound on the depth of the call stack. *)
Definition longestRing {num : Type} (geometry : Geom num) : nat :=
  match geometry with
  | GeoPolygon coordinates => list_max (map (@length _) coordinates)
  | GeoMultiPolygon coordinates =>
      list_max (map (fun polygon => list_max (map (@length _) polygon)) coordinates)
  | _ => 0%nat
  end.

(** [simplified] has the type of [original] and, ring for ring, a
    subsequence of its positions. *)
Definition simplifiedFrom {num : Type} (original simplified : Geom num) : Prop :=
  match original, simplified with
  | GeoMissing, GeoMissing => True
  | GeoPoint p, GeoPoint q => p = q
  | GeoPolygon o, GeoPolygon s => Forall2 sublist s o
  | GeoMultiPolygon o, GeoMultiPolygon s => Forall2 (Forall2 sublist) s o
  | GeoOther t, GeoOther t' => t = t'
  | _, _ => False
  end.

(** Some polygon of the geometry has no ring at all. *)
Definition hasRinglessPolygon {num : Type} (geometry : Geom num) : bool :=
  match geometry with
  | GeoPolygon coordinates => match coordinates with [] => true | _ => false end
  | GeoMultiPolygon coordinates =>
      existsb (fun polygon => match polygon with [] => true | _ :: _ => false end) coordinates
  | _ => false
  end.

(** The positions the centroid averages: those of the outer rings. *)
Definition outerRings {num : Type} (polygons : list (list (list (num * num))))
  : list (num * num) :=
  concat (map (fun polygon => hd [] polygon) polygons).

Definition centroidVertices {num : Type} (geometry : Geom num) : list (num * num) :=
  match geometry with
  | GeoPolygon coordinates => hd [] coordinates
  | GeoMultiPolygon coordinates => outerRings coordinates
  | _ => []
  end.

(** A property of every ring of a geometry. *)
Definition everyRing {num : Type} (P : list (num * num) -> Prop) (geometry : Geom num) : Prop :=
  match geometry with
  | GeoPolygon coordinates => Forall P coordinates
  | GeoMultiPolygon coordinates => Forall (Forall P) coordinates
  | _ => True
  end.

(** The geometry with every ring cut down to its first position. *)
Definition firstPositions {num : Type} {A : Arith num} (geometry : Geom num) : Geom num :=
  match geometry with
  | GeoPolygon coordinates => GeoPolygon (map (fun ring => [at_ ring 0]) coordinates)
  | GeoMultiPolygon coordinates =>
      GeoMultiPolygon (map (map (fun ring => [at_ ring 0])) coordinates)
  | _ => geometry
  end.

End GeoJSON.

(* ===================================================================== *)
(** ** Intake of the capital projects feed *)
(* ===================================================================== *)

Module CapitalProjects.
Import JS Processing Geometry GeoJSON ChangeDetector.

(** A GeoJSON feature: [feature.properties] and [feature.geometry]. *)
Record Feature : Type := mkFeature {
  properties : gmap string JsVal;
  geometry : Geom float
}.

(** The object literal of [processCapitalProjects], without the time stamp
    [lastSyncedAt]; [projectGeometry] is its field [geometry].  [None] is
    [null]. *)
Record Project : Type := mkProject {
  id : JsVal;
  maprojid : JsVal;
  description : JsVal;
  managingAgency : JsVal;
  managingAgencyAcronym : JsVal;
  typeCategory : JsVal;
  minDate : JsVal;
  maxDate : JsVal;
  fiscalYear : option float;
  completionYear : option float;
  allocateTotal : float;
  commitTotal : float;
  spentTotal : float;
  plannedCommitTotal : float;
  projectGeometry : Geom float;
  centroidLon : option float;
  centroidLat : option float;
  geometrySimplified : Geom float
}.

(** [a || b] on values. *)
Definition orValue (a b : JsVal) : JsVal := if truthy a then a else b.

(** The data correction on [allocateTotal]: a value between 99 and 101
    billion is replaced by 100 million. *)
Definition correctAllocation (allocateTotal : float) : float :=
  if le 99e9%float allocateTotal && le allocateTotal 101e9%float then 100e6%float
  else allocateTotal.

Section ProcessCapitalProjects.

(** [parseFloat] and [parseInt(_, 10)] of a string: built-ins. *)
Variable parseFloatString : string -> float.
Variable parseIntString : string -> float.

(** The text [Math.random().toString(36).substring(2, 11)] drawn for the
    feature at a given index. *)
Variable randomSuffix : nat -> string.

(** [date ? parseInt(date.substring(0, 4), 10) : null]; [substring] is a
    method of strings only, and calling it on another truthy value is a
    [TypeError]. *)
Definition yearOf (date : JsVal) : Outcome (option float) :=
  if truthy date then
    match date with
    | JsString s => Returned (Some (parseIntString (String.substring 0 4 s)))
    | _ => Thrown "TypeError"
    end
  else Returned None.

(** [parseFloat(props[name] || '0')] *)
Definition amountOf (props : gmap string JsVal) (name : string) : float :=
  parseFloat parseFloatString (orValue (getProp props name) (JsString "0")).

(** The body of the loop for the feature at position [index].  The outer
    [None] means that the simplification ran out of call stack. *)
Definition processFeature (fuel : nat) (index : nat) (feature : Feature)
  : option (Outcome Project) :=
  let props := properties feature in
  match yearOf (getProp props "mindate") with
  | Thrown message => Some (Thrown message)
  | Returned fiscalYear =>
      match yearOf (getProp props "maxdate") with
      | Thrown message => Some (Thrown message)
      | Returned completionYear =>
          let allocateTotal := correctAllocation (amountOf props "allocate_total") in
          match calculateCentroid 1%float (geometry feature) with
          | Thrown message => Some (Thrown message)
          | Returned centroid =>
              match simplifyGeometry fuel (geometry feature) seedTolerance with
              | None => None
              | Some simplified =>
                  Some (Returned
                    {| id := orValue (getProp props "maprojid")
                               (JsString ("project-" ++ randomSuffix index));
                       maprojid := orValue (getProp props "maprojid") (JsString "Unknown");
                       description :=
                         orValue (getProp props "description") (JsString "Unnamed Project");
                       managingAgency :=
                         orValue (getProp props "magencyname") (JsString "Unknown Agency");
                       managingAgencyAcronym :=
                         orValue (getProp props "magencyacro") (JsString "N/A");
                       typeCategory :=
                         orValue (getProp props "typecategory") (JsString "Unknown");
                       minDate := orValue (getProp props "mindate") JsNull;
                       maxDate := orValue (getProp props "maxdate") JsNull;
                       fiscalYear := fiscalYear;
                       completionYear := completionYear;
                       allocateTotal := allocateTotal;
                       commitTotal := amountOf props "commit_total";
                       spentTotal := amountOf props "spent_total";
                       plannedCommitTotal := amountOf props "plannedcommit_total";
                       projectGeometry := geometry feature;
                       centroidLon := fst <$> centroid;
                       centroidLat := snd <$> centroid;
                       geometrySimplified := simplified |})
              end
          end
      end
  end.

(** The loop of [processCapitalProjects] from position [index], on the
    array [projects] built so far: the first error ends it. *)
Fixpoint processFrom (fuel : nat) (index : nat) (features : list Feature)
    (projects : list Project) : option (Outcome (list Project)) :=
  match features with
  | [] => Some (Returned projects)
  | feature :: rest =>
      match processFeature fuel index feature with
      | None => None
      | Some (Thrown message) => Some (Thrown message)
      | Some (Returned project) => processFrom fuel (S index) rest (projects ++ [project])
      end
  end.

(** [processCapitalProjects(features)] *)
Definition processCapitalProjects (fuel : nat) (features : list Feature)
  : option (Outcome (list Project)) :=
  processFrom fuel 0 features [].

End ProcessCapitalProjects.

(** The second check of the processed projects in [main]:
    [records.filter(r => !r.id || !r.maprojid || !r.description)]. *)
Definition missingRequiredFields (records : list Project) : list Project :=
  List.filter
    (fun r => negb (truthy (id r)) || negb (truthy (maprojid r)) || negb (truthy (description r)))
    records.

(** A feature on which the loop body throws: a date that is truthy but not
    a string, or a polygon with no ring. *)
Definition malformedFeature (feature : Feature) : bool :=
  let badDate (v : JsVal) :=
    truthy v && match v with JsString _ => false | _ => true end in
  badDate (getProp (properties feature) "mindate")
  || badDate (getProp (properties feature) "maxdate")
  || hasRinglessPolygon (geometry feature).

(** [allocateTotal >= 99e9 && allocateTotal <= 101e9] *)
Definition inCorrectedBand (allocateTotal : float) : bool :=
  le 99e9%float allocateTotal && le allocateTotal 101e9%float.

(** What the intake guarantees of the project made from a feature. *)
Definition wellFormed (feature : Feature) (project : Project) : Prop :=
  truthy (id project) = true
  /\ truthy (maprojid project) = true
  /\ truthy (description project) = true
  /\ inCorrectedBand (allocateTotal project) = false
  /\ projectGeometry project = geometry feature
  /\ simplifiedFrom (geometry feature) (geometrySimplified project).

(** The longest ring among the features. *)
Definition longestFeatureRing (features : list Feature) : nat :=
  list_max (map (fun feature => longestRing (geometry feature)) features).

End CapitalProjects.

Module CapitalExamples.
Import JS Geometry GeoJSON CapitalProjects Examples.

(** A project drawn as a triangle, with an allocation of 100 billion. *)
Definition triangleFeature : Feature :=
  {| properties := list_to_map [("maprojid", JsString "850HWXYZ");
                                ("mindate", JsString "2019-07-01T00:00:00.000");
                                ("allocate_total", JsNumber 100e9%float)];
     geometry := GeoPolygon [Examples.closedRing] |}.

(** A project with no attribute at all, located by a point. *)
Definition bareFeature : Feature :=
  {| properties := ∅; geometry := GeoPoint (-73.75, 40.75)%float |}.

(** A project whose polygon has no ring. *)
Definition ringlessFeature : Feature :=
  {| properties := list_to_map [("maprojid", JsString "846P-1")];
     geometry := GeoPolygon [] |}.

(** Stand-in for [parseFloat] and [parseInt(_, 10)] on the texts met in
    the examples: a text that starts with decimal digits reads as the
    number they write, any other text as [NaN]. *)
Fixpoint leadingDigits (s : string) : string :=
  match s with
  | String c r => if isDigit c then String c (leadingDigits r) else EmptyString
  | EmptyString => EmptyString
  end.

Definition digitsValue (s : string) : float :=
  match leadingDigits s with
  | EmptyString => nan
  | digits =>
      match DecimalString.NilEmpty.uint_of_string digits with
      | Some d => PrimFloat.of_uint63 (Uint63.of_Z (Z.of_uint d))
      | None => nan
      end
  end.

Definition fixedSuffix (_ : nat) : string := "k3x9q".

End CapitalExamples.

(* ===================================================================== *)
(** ** Intake of the affordable housing feed *)
(* ===================================================================== *)

Module HousingNY.
Import JS Normalizer Processing.

(** The object literal [affordableData] of [processHousingNY]; the counts
    are what [parseInt] returned, [NaN] included. *)
Record Affordable : Type := mkAffordable {
  affordableUnits : float;
  affordablePercentage : float;
  extremeLowIncomeUnits : float;
  veryLowIncomeUnits : float;
  lowIncomeUnits : float;
  moderateIncomeUnits : float;
  middleIncomeUnits : float;
  otherIncomeUnits : float;
  studioUnits : float;
  oneBrUnits : float;
  twoBrUnits : float;
  threeBrUnits : float;
  fourBrUnits : float;
  fiveBrUnits : float;
  sixBrUnits : float;
  unknownBrUnits : float;
  projectId : JsVal;
  projectName : JsVal;
  constructionType : JsVal;
  extendedAffordabilityOnly : bool
}.

(** [a || b] on values. *)
Definition orValue (a b : JsVal) : JsVal := if truthy a then a else b.

Section ProcessHousingNY.

(** Built-ins: the digits of a number, [parseInt(_, 10)], and
    [new Date(_).getFullYear()], which is [NaN] for an invalid date. *)
Variable positiveDigits : float -> string.
Variable parseInt10 : JsVal -> float.
Variable getFullYear : JsVal -> float.

(** [parseInt(record[field] || 0, 10)] *)
Definition countOf (record : gmap string JsVal) (field : string) : float :=
  parseInt10 (orValue (getProp record field) (JsNumber 0%float)).

(** The object literal, for a record with the parsed [totalUnits]. *)
Definition affordableLiteral (record : gmap string JsVal) (totalUnits : float) : Affordable :=
  let affordableUnits :=
    fold_left (fun sum field => PrimFloat.add sum (countOf record field))
      ["extremely_low_income_units"; "very_low_income_units"; "low_income_units";
       "moderate_income_units"; "middle_income_units"]
      0%float in
  {| affordableUnits := affordableUnits;
     affordablePercentage :=
       if gt totalUnits 0%float
       then PrimFloat.mul (PrimFloat.div affordableUnits totalUnits) 100%float
       else 0%float;
     extremeLowIncomeUnits := countOf record "extremely_low_income_units";
     veryLowIncomeUnits := countOf record "very_low_income_units";
     lowIncomeUnits := countOf record "low_income_units";
     moderateIncomeUnits := countOf record "moderate_income_units";
     middleIncomeUnits := countOf record "middle_income_units";
     otherIncomeUnits := countOf record "other_income_units";
     studioUnits := countOf record "studio_units";
     oneBrUnits := countOf record "1_br_units";
     twoBrUnits := countOf record "2_br_units";
     threeBrUnits := countOf record "3_br_units";
     fourBrUnits := countOf record "4_br_units";
     fiveBrUnits := countOf record "5_br_units";
     sixBrUnits := countOf record "6_br_units";
     unknownBrUnits := countOf record "unknown_br_units";
     projectId := getProp record "project_id";
     projectName := getProp record "project_name";
     constructionType := getProp record "reporting_construction_type";
     extendedAffordabilityOnly :=
       match getProp record "extended_affordability_only" with
       | JsString s => (s =? "Yes")%string
       | _ => false
       end |}.

(** The part of the loop body before the map is touched: [None] is
    [continue], [Some (bbl, affordableData)] reaches the last statement. *)
Definition acceptRecord (record : gmap string JsVal) : option (string * Affordable) :=
  match normalizeBBL positiveDigits (getProp record "bbl") with
  | None => None
  | Some bbl =>
      if (bbl =? "")%string then None
      else
        let completionDate := getProp record "building_completion_date" in
        if negb (truthy completionDate) then None
        else
          let completionYear := getFullYear completionDate in
          if lt completionYear 2014%float || gt completionYear 2025%float then None
          else
            let totalUnits :=
              parseInt10
                (orValue (orValue (getProp record "all_counted_units")
                            (getProp record "total_units"))
                   (JsNumber 0%float)) in
            if isZero totalUnits then None
            else Some (bbl, affordableLiteral record totalUnits)
  end.

(** The last statement of the body: the entry is set when the key is new
    or the new record has more affordable units. *)
Definition keepBetter (affordableMap : gmap string Affordable) (bbl : string)
    (affordableData : Affordable) : gmap string Affordable :=
  match affordableMap !! bbl with
  | None => <[bbl := affordableData]> affordableMap
  | Some existing =>
      if gt (affordableUnits affordableData) (affordableUnits existing)
      then <[bbl := affordableData]> affordableMap
      else affordableMap
  end.

(** One iteration of the loop. *)
Definition housingNyStep (affordableMap : gmap string Affordable)
    (record : gmap string JsVal) : gmap string Affordable :=
  match acceptRecord record with
  | None => affordableMap
  | Some (bbl, affordableData) => keepBetter affordableMap bbl affordableData
  end.

(** [processHousingNY(records)] *)
Definition processHousingNY (records : list (gmap string JsVal)) : gmap string Affordable :=
  fold_left housingNyStep records ∅.

(** The entry of a key after the accepted records [candidates] of that
    key were met in order, from the entry [current]. *)
Definition bestOf (current : option Affordable) (candidates : list Affordable)
  : option Affordable :=
  fold_left
    (fun current affordableData =>
       match current with
       | None => Some affordableData
       | Some existing =>
           if gt (affordableUnits affordableData) (affordableUnits existing)
           then Some affordableData
           else Some existing
       end)
    candidates current.

(** The stored entry [s] is [e] or has more affordable units than [e]. *)
Definition climbs (e s : Affordable) : Prop :=
  e = s \/ PrimFloat.ltb (affordableUnits e) (affordableUnits s) = true.

(** The records of the feed accepted under the identifier [bbl], in order. *)
Definition acceptedUnder (bbl : string) (records : list (gmap string JsVal))
  : list Affordable :=
  flat_map
    (fun record =>
       match acceptRecord record with
       | Some (key, affordableData) => if (key =? bbl)%string then [affordableData] else []
       | None => []
       end)
    records.

End ProcessHousingNY.

End HousingNY.

Module HousingNYExamples.
Import JS HousingNY CapitalExamples.

(** [parseInt(v, 10)] on the values of the examples. *)
Definition parseIntOf (v : JsVal) : float :=
  match v with
  | JsNumber x => x
  | JsString s => digitsValue s
  | _ => nan
  end.

(** A year reader that knows no date: every date is invalid. *)
Definition noYear (_ : JsVal) : float := nan.

(** A year reader for dates that start with the year. *)
Definition leadingYear (v : JsVal) : float :=
  match v with
  | JsString s => digitsValue s
  | _ => nan
  end.

(** Digits of a number: not consulted, the identifiers of the examples
    are strings. *)
Definition noDigits (_ : float) : string := "".

Definition housingNyRecord (parcel date : string) (lowIncome : string)
  : gmap string JsVal :=
  list_to_map [("bbl", JsString parcel);
               ("building_completion_date", JsString date);
               ("all_counted_units", JsString "100");
               ("low_income_units", JsString lowIncome)].

End HousingNYExamples.

(* ===================================================================== *)
(** ** Validation of the feeds and of the processed records *)
(* ===================================================================== *)

Module Validation.
Import JS Processing ChangeDetector.

(** An array length or a counter as a number. *)
Definition ofNat (n : nat) : float := PrimFloat.of_uint63 (Uint63.of_Z (Z.of_nat n)).

(** Its decimal text in a template literal. *)
Definition showNat (n : nat) : string := showZ (Z.of_nat n).

(** *** [validators] *)

Section Validators.

Variable parseFloatString : string -> float.
Variable parseInt10 : JsVal -> float.
Variable positiveDigits : float -> string.

(** [validators.isNumber] *)
Definition isNumber (value : JsVal) : bool :=
  let num := parseFloat parseFloatString value in
  negb (isNaN num) && isFinite num.

(** [validators.isPositiveNumber] *)
Definition isPositiveNumber (value : JsVal) : bool :=
  let num := parseFloat parseFloatString value in
  negb (isNaN num) && isFinite num && gt num 0%float.

(** [validators.isInteger] *)
Definition isInteger (value : JsVal) : bool :=
  let num := parseInt10 value in
  negb (isNaN num) && isFinite num && PrimFloat.eqb num (parseFloat parseFloatString value).

(** [validators.isYearInRange(min, max)] *)
Definition isYearInRange (min max : float) (value : JsVal) : bool :=
  let year := parseInt10 value in
  negb (isNaN year) && le min year && le year max.

(** [validators.isValidLatitude], on the raw value. *)
Definition isValidLatitudeValue (value : JsVal) : bool :=
  isValidLatitude (parseFloat parseFloatString value).

(** [validators.isValidLongitude] *)
Definition isValidLongitude (value : JsVal) : bool :=
  let lon := parseFloat parseFloatString value in
  negb (isNaN lon) && isFinite lon && le (-180)%float lon && le lon 180%float
  && negb (isZero lon).

(** [validators.isValidBBL] *)
Definition isValidBBL (value : JsVal) : bool :=
  if negb (truthy value) then true
  else (String.length (stripNonDigits (toString positiveDigits value)) =? 10)%nat.

End Validators.

(** *** The checks *)

(** [validateMinimumRecordCount(records, minCount, datasetName)] on an array. *)
Definition validateMinimumRecordCount {Rec : Type} (records : list Rec) (minCount : nat)
    (datasetName : string) : Outcome JsVal :=
  if (length records <? minCount)%nat then
    Thrown (datasetName ++ ": Insufficient records (" ++ showNat (length records)
            ++ " < " ++ showNat minCount ++ " minimum)")%string
  else Returned (JsBool true).

Section RequiredFields.

(** The names every object inherits ([toString], [constructor], ...), for
    which [field in record] holds whatever the record; and the built-ins
    [Number::toFixed(1)] and [Number::toString] on positive numbers. *)
Variable inheritedProperty : string -> bool.
Variable toFixed1 : float -> string.
Variable positiveDigits : float -> string.

(** [field in record] *)
Definition hasProperty (record : gmap string JsVal) (field : string) : bool :=
  bool_decide (is_Some (record !! field)) || inheritedProperty field.

(** The [missingFields] of one record. *)
Definition missingFields (requiredFields : list string) (record : gmap string JsVal)
  : list string :=
  List.filter (fun field => negb (hasProperty record field)) requiredFields.

(** The entries of [missingFieldsByRecord], from index [i]. *)
Fixpoint missingFieldsFrom (i : nat) (requiredFields : list string)
    (sample : list (gmap string JsVal)) : list (nat * list string) :=
  match sample with
  | [] => []
  | record :: rest =>
      match missingFields requiredFields record with
      | [] => missingFieldsFrom (S i) requiredFields rest
      | missing => (i, missing) :: missingFieldsFrom (S i) requiredFields rest
      end
  end.

(** [(failures / samplesToCheck) * 100] *)
Definition failureRate (failures samplesToCheck : nat) : float :=
  PrimFloat.mul (PrimFloat.div (ofNat failures) (ofNat samplesToCheck)) 100%float.

(** [validateRequiredFields(records, requiredFields, datasetName,
    sampleSize, maxFailureRate)] *)
Definition validateRequiredFields (records : list (gmap string JsVal))
    (requiredFields : list string) (datasetName : string) (sampleSize : nat)
    (maxFailureRate : float) : Outcome JsVal :=
  match records with
  | [] => Thrown (datasetName ++ ": No records to validate")%string
  | _ :: _ =>
      let samplesToCheck := Nat.min sampleSize (length records) in
      let missingFieldsByRecord :=
        missingFieldsFrom 0 requiredFields (firstn samplesToCheck records) in
      if (0 <? length missingFieldsByRecord)%nat then
        let rate := failureRate (length missingFieldsByRecord) samplesToCheck in
        if gt rate maxFailureRate then
          Thrown (datasetName ++ ": " ++ showNat (length missingFieldsByRecord) ++ "/"
                  ++ showNat samplesToCheck
                  ++ " sampled records have missing required fields ("
                  ++ toFixed1 rate ++ "% > " ++ numberToString positiveDigits maxFailureRate
                  ++ "% threshold)")%string
        else Returned (JsBool true)
      else Returned (JsBool true)
  end.

End RequiredFields.

(** The entries one record adds to [typeErrors]: a validator that returns
    a falsy value or throws. *)
Definition typeErrorsOf
    (fieldValidators : list (string * (JsVal -> gmap string JsVal -> Outcome bool)))
    (record : gmap string JsVal) : list string :=
  map fst
    (List.filter
       (fun entry =>
          match snd entry (getProp record (fst entry)) record with
          | Returned true => false
          | _ => true
          end)
       fieldValidators).

(** [validateDataTypes(records, fieldValidators, datasetName, sampleSize)] *)
Definition validateDataTypes (records : list (gmap string JsVal))
    (fieldValidators : list (string * (JsVal -> gmap string JsVal -> Outcome bool)))
    (datasetName : string) (sampleSize : nat) : Outcome JsVal :=
  match records with
  | [] => Thrown (datasetName ++ ": No records to validate")%string
  | _ :: _ =>
      let samplesToCheck := Nat.min sampleSize (length records) in
      let typeErrors :=
        flat_map (typeErrorsOf fieldValidators) (firstn samplesToCheck records) in
      if (0 <? length typeErrors)%nat then
        Thrown (datasetName ++ ": " ++ showNat (length typeErrors)
                ++ " type validation errors in " ++ showNat samplesToCheck
                ++ " sampled records")%string
      else Returned (JsBool true)
  end.

(** The messages of the validations that throw, in order. *)
Definition validationErrors {Rec : Type} (records : list Rec)
    (validations : list (list Rec -> Outcome JsVal)) : list string :=
  flat_map
    (fun validation =>
       match validation records with
       | Thrown message => [message]
       | Returned _ => []
       end)
    validations.

(** [validateProcessedRecords(records, validations, datasetName)] *)
Definition validateProcessedRecords {Rec : Type} (records : list Rec)
    (validations : list (list Rec -> Outcome JsVal)) (datasetName : string)
  : Outcome JsVal :=
  match records with
  | [] => Thrown (datasetName ++ ": No processed records to validate")%string
  | _ :: _ =>
      let errors := validationErrors records validations in
      if (0 <? length errors)%nat then
        Thrown (datasetName ++ ": " ++ showNat (length errors) ++ " validation error(s): "
                ++ joinWith "; " errors)%string
      else Returned (JsBool true)
  end.

(** [10 * failures > samplesToCheck], the threshold of ten per cent in
    exact arithmetic. *)
Definition aboveTenPerCent (failures samplesToCheck : nat) : bool :=
  (samplesToCheck <? 10 * failures)%nat.

(** The records with a missing required field among [sample]. *)
Definition incomplete (inheritedProperty : string -> bool) (requiredFields : list string)
    (sample : list (gmap string JsVal)) : list (gmap string JsVal) :=
  List.filter
    (fun record =>
       match missingFields inheritedProperty requiredFields record with
       | [] => false
       | _ => true
       end)
    sample.

(** The comparison of the two thresholds on every sample of at most
    [bound] records. *)
Definition thresholdsAgree (bound : nat) : bool :=
  forallb
    (fun samplesToCheck =>
       forallb
         (fun failures =>
            Bool.eqb (gt (failureRate failures samplesToCheck) 10%float)
              (aboveTenPerCent failures samplesToCheck))
         (seq 0 (S samplesToCheck)))
    (seq 0 (S bound)).

(** The validators [main] of the housing script hands to
    [validateDataTypes]. *)
Definition housingFieldValidators (parseFloatString : string -> float)
    (parseInt10 : JsVal -> float)
  : list (string * (JsVal -> gmap string JsVal -> Outcome bool)) :=
  [("Latitude", fun val _ => Returned (isValidLatitudeValue parseFloatString val));
   ("Longitude", fun val _ => Returned (isValidLongitude parseFloatString val));
   ("CompltYear", fun val _ => Returned (isYearInRange parseInt10 2014%float 2025%float val));
   ("ClassANet", fun val _ => Returned (isNumber parseFloatString val))].

End Validation.

Module ValidationExamples.
Import JS Validation.

(** A feature of the construction feed with sound values. *)
Definition soundFeature : gmap string JsVal :=
  list_to_map [("Job_Number", JsString "321000001");
               ("BBL", JsString "3012340056");
               ("Latitude", JsNumber 40.75%float);
               ("Longitude", JsNumber (-73.75)%float);
               ("CompltYear", JsNumber 2020%float);
               ("ClassANet", JsNumber 12%float)].

(** The same feature without its identifier. *)
Definition featureWithoutBBL : gmap string JsVal := delete "BBL" soundFeature.

(** A feature whose year lies outside the range. *)
Definition oldFeature : gmap string JsVal :=
  <["CompltYear" := JsNumber 2009%float]> soundFeature.

(** A sound feature whose completion date is not a date, and one whose
    building class is a number. *)
Definition pendingFeature : gmap string JsVal :=
  <["DateComplt" := JsString "pending"]> soundFeature.

Definition numberedClassFeature : gmap string JsVal :=
  <["Bldg_Class" := JsNumber 7%float]> soundFeature.

(** No required field of the examples is an inherited name. *)
Definition noInherited (_ : string) : bool := false.

(** [toFixed(1)] is only used in messages, which the examples do not read. *)
Definition unreadFixed (_ : float) : string := "?".

End ValidationExamples.

(* ===================================================================== *)
(** ** Intake of the demolition records and matching with construction *)
(* ===================================================================== *)

Module Demolitions.
Import JS Normalizer Processing ChangeDetector.

(** A demolition record, with the fields of the object literal of
    [processDCPDemolitions] that the matching and the checks of [main]
    read, and those computed from the feature.  [None] is [null]. *)
Record Demolition : Type := mkDemolition {
  id : JsVal;
  jobNumber : JsVal;
  jobType : string;
  bbl : option string;
  latitude : option float;
  longitude : option float;
  demolitionYear : float;
  demolitionDate : option string;
  classAInit : float;
  classANet : float;
  estimatedUnits : float;
  hasNewConstruction : bool
}.

(** What the loop does with one feature. *)
Inductive Intake : Type :=
| NotADemolition                  (* [continue] on the job type *)
| Skipped                         (* [skipped++; continue] *)
| Pushed (demolition : Demolition)
| Failed (message : string).      (* an error thrown by the literal *)

(** [record.Job_Type === 'Demolition'] *)
Definition isDemolition (record : gmap string JsVal) : bool :=
  match getProp record "Job_Type" with
  | JsString s => (s =? "Demolition")%string
  | _ => false
  end.

(** [x || null] on a number *)
Definition orNull (x : float) : option float :=
  if isNaN x || isZero x then None else Some x.

Section ProcessDCPDemolitions.

(** Built-ins: [parseFloat] of a string, [parseInt(_, 10)], [Math.round],
    the digits of a number, and [new Date(_).toISOString()], which throws
    a [RangeError] ([None]) on an invalid date. *)
Variable parseFloatString : string -> float.
Variable parseInt10 : JsVal -> float.
Variable Math_round : float -> float.
Variable positiveDigits : float -> string.
Variable toISOString : JsVal -> option string.

(** The body of the loop for one feature. *)
Definition processDemolition (record : gmap string JsVal) : Intake :=
  if negb (isDemolition record) then NotADemolition
  else
      let completionYear := parseInt10 (getProp record "CompltYear") in
      if isNaN completionYear || lt completionYear 2014%float || gt completionYear 2025%float
      then Skipped
      else
        let jobNumber :=
          if truthy (getProp record "Job_Number") then getProp record "Job_Number"
          else JsString ("DCP-DM-" ++ toString positiveDigits (getProp record "OBJECTID")) in
        let bbl := normalizeBBL positiveDigits (getProp record "BBL") in
        let classAInit :=
          Math_round
            (PrimFloat.abs
               (orElse (parseFloat parseFloatString (getProp record "ClassAInit")) 0%float)) in
        let classANet :=
          Math_round
            (orElse (parseFloat parseFloatString (getProp record "ClassANet")) 0%float) in
        let estimatedUnits := orElse classAInit (PrimFloat.abs classANet) in
        let demolitionDate :=
          if truthy (getProp record "DateComplt")
          then match toISOString (getProp record "DateComplt") with
               | Some text => Returned (Some text)
               | None => Thrown "RangeError"
               end
          else Returned None in
        match demolitionDate with
        | Thrown message => Failed message
        | Returned demolitionDate =>
            Pushed
              {| id := jobNumber;
                 jobNumber := jobNumber;
                 jobType := "Demolition";
                 bbl := bbl;
                 latitude := orNull (parseFloat parseFloatString (getProp record "Latitude"));
                 longitude := orNull (parseFloat parseFloatString (getProp record "Longitude"));
                 demolitionYear := completionYear;
                 demolitionDate := demolitionDate;
                 classAInit := classAInit;
                 classANet := classANet;
                 estimatedUnits := estimatedUnits;
                 hasNewConstruction := false |}
        end.

(** The loop on ([demolitions], [skipped]); the first error ends it. *)
Fixpoint demolitionLoop (records : list (gmap string JsVal))
    (demolitions : list Demolition) (skipped : nat) : Outcome (list Demolition * nat) :=
  match records with
  | [] => Returned (demolitions, skipped)
  | record :: rest =>
      match processDemolition record with
      | NotADemolition => demolitionLoop rest demolitions skipped
      | Skipped => demolitionLoop rest demolitions (S skipped)
      | Pushed demolition => demolitionLoop rest (demolitions ++ [demolition]) skipped
      | Failed message => Thrown message
      end
  end.

(** [processDCPDemolitions(records)]: the returned array and the logged
    [skipped] counter. *)
Definition processDCPDemolitions (records : list (gmap string JsVal))
  : Outcome (list Demolition * nat) :=
  demolitionLoop records [] 0%nat.

End ProcessDCPDemolitions.

(** *** Matching, in [main] *)

(** A truthy identifier. *)
Definition truthyBbl (bbl : option string) : option string :=
  match bbl with
  | Some p => if (p =? "")%string then None else Some p
  | None => None
  end.

(** [new Set(buildings.map(b => b.bbl).filter(Boolean))] *)
Definition buildingBBLs (buildings : list Housing.Building) : gset string :=
  list_to_set (omap (fun b => truthyBbl (Housing.bbl b)) buildings).

(** The body of the matching loop. *)
Definition matchDemolition (buildingBBLs : gset string) (demolition : Demolition)
  : Demolition :=
  match truthyBbl (bbl demolition) with
  | Some p =>
      if bool_decide (p ∈ buildingBBLs) then
        {| id := id demolition;
           jobNumber := jobNumber demolition;
           jobType := jobType demolition;
           bbl := bbl demolition;
           latitude := latitude demolition;
           longitude := longitude demolition;
           demolitionYear := demolitionYear demolition;
           demolitionDate := demolitionDate demolition;
           classAInit := classAInit demolition;
           classANet := classANet demolition;
           estimatedUnits := estimatedUnits demolition;
           hasNewConstruction := true |}
      else demolition
  | None => demolition
  end.

(** The matching loop over the demolitions. *)
Definition matchDemolitions (buildings : list Housing.Building)
    (demolitions : list Demolition) : list Demolition :=
  map (matchDemolition (buildingBBLs buildings)) demolitions.

(** [demolitions.filter(d => !d.hasNewConstruction)] *)
Definition standaloneDemolitions (demolitions : list Demolition) : list Demolition :=
  List.filter (fun d => negb (hasNewConstruction d)) demolitions.

(** The check of [main] on the processed demolitions:
    [records.some(r => !r.id || !r.demolitionYear)]. *)
Definition someMissingFields (records : list Demolition) : bool :=
  existsb
    (fun r => negb (truthy (id r)) || negb (truthy (JsNumber (demolitionYear r))))
    records.

(** A feature of job type Demolition that passes the year guard and
    whose completion date is truthy and unreadable. *)
Definition unreadableDate (parseInt10 : JsVal -> float) (toISOString : JsVal -> option string)
    (record : gmap string JsVal) : bool :=
  isDemolition record
  && negb (isNaN (parseInt10 (getProp record "CompltYear"))
           || lt (parseInt10 (getProp record "CompltYear")) 2014%float
           || gt (parseInt10 (getProp record "CompltYear")) 2025%float)
  && truthy (getProp record "DateComplt")
  && match toISOString (getProp record "DateComplt") with
     | Some _ => false
     | None => true
     end.

(** What [main] can rely on in a demolition that was pushed. *)
Definition soundDemolition (d : Demolition) : Prop :=
  jobType d = "Demolition"
  /\ hasNewConstruction d = false
  /\ le 2014%float (demolitionYear d) = true
  /\ le (demolitionYear d) 2025%float = true
  /\ truthy (id d) = true
  /\ truthy (JsNumber (demolitionYear d)) = true.

End Demolitions.

Module DemolitionExamples.
Import JS Demolitions.

(** A demolition of 2019 on parcel 3012340056 and one on another parcel. *)
Definition demolitionFeature (parcel : string) (job : string) : gmap string JsVal :=
  list_to_map [("Job_Type", JsString "Demolition");
               ("Job_Number", JsString job);
               ("BBL", JsString parcel);
               ("CompltYear", JsNumber 2019%float);
               ("ClassAInit", JsNumber 3%float)].

(** A demolition with a completion date that is not a date. *)
Definition undatedDemolition : gmap string JsVal :=
  <["DateComplt" := JsString "pending"]> (demolitionFeature "3012340056" "D-3").

(** [toISOString] of the examples: no text is a date. *)
Definition noDate (_ : JsVal) : option string := None.

End DemolitionExamples.

(* ===================================================================== *)
(** ** Paged fetching and batched insertion *)
(* ===================================================================== *)

Module SeedUtils.
Import JS ChangeDetector.

Section Fetching.

(** The records of a feed, and the remote service as a state machine: one
    request for the page of [limit] records at [offset] gives the next
    state of the service and what [fetch] and [response.json()] gave, an
    error, [null] ([None]) or an array. *)
Variable Rec : Type.
Variable Server : Type.
Variable request : Server -> nat -> nat -> Server * Outcome (option (list Rec)).

(** The retry loop of [fetchNycOpenData] for one page, [maxRetries = 3]:
    a first and a second failure are retried, the error of the third is
    thrown. *)
Definition fetchPage (server : Server) (limit offset : nat)
  : Server * Outcome (option (list Rec)) :=
  match request server limit offset with
  | (server1, Thrown _) =>
      match request server1 limit offset with
      | (server2, Thrown _) => request server2 limit offset
      | second => second
      end
  | first => first
  end.

(** [allRecords.length < totalLimit], where [None] is [Infinity]. *)
Definition belowLimit (count : nat) (totalLimit : option nat) : bool :=
  match totalLimit with
  | Some n => (count <? n)%nat
  | None => true
  end.

(** [allRecords.slice(0, totalLimit)] *)
Definition sliceTo {X : Type} (totalLimit : option nat) (l : list X) : list X :=
  match totalLimit with
  | Some n => firstn n l
  | None => l
  end.

(** The [while] loop of [fetchNycOpenData], entered with [hasMore] set;
    [fuel] bounds the number of pages and [None] means it was reached. *)
Fixpoint fetchPages (fuel : nat) (limit : nat) (totalLimit : option nat) (server : Server)
    (allRecords : list Rec) (offset : nat) : option (Server * Outcome (list Rec)) :=
  if negb (belowLimit (length allRecords) totalLimit) then Some (server, Returned allRecords)
  else
    match fuel with
    | O => None
    | S fuel' =>
        match fetchPage server limit offset with
        | (server', Thrown message) => Some (server', Thrown message)
        | (server', Returned None) => Some (server', Returned allRecords)
        | (server', Returned (Some batch)) =>
            if (length batch =? 0)%nat then Some (server', Returned allRecords)
            else if (length batch <? limit)%nat
                 then Some (server', Returned (allRecords ++ batch))
                 else fetchPages fuel' limit totalLimit server' (allRecords ++ batch)
                        (offset + length batch)
        end
    end.

(** [fetchNycOpenData(url, { limit, totalLimit })] *)
Definition fetchNycOpenData (fuel : nat) (limit : nat) (totalLimit : option nat)
    (server : Server) : option (Server * Outcome (list Rec)) :=
  match fetchPages fuel limit totalLimit server [] 0 with
  | Some (server', Returned allRecords) =>
      Some (server', Returned (sliceTo totalLimit allRecords))
  | other => other
  end.

(** The [while] loop of [fetchArcGISFeatures], without geometry: no retry,
    and the offset advances by [batchSize]. *)
Fixpoint fetchFeatures (fuel : nat) (batchSize : nat) (server : Server)
    (features : list Rec) (offset : nat) : option (Server * Outcome (list Rec)) :=
  match fuel with
  | O => None
  | S fuel' =>
      match request server batchSize offset with
      | (server', Thrown message) => Some (server', Thrown message)
      | (server', Returned None) => Some (server', Returned features)
      | (server', Returned (Some page)) =>
          if (length page =? 0)%nat then Some (server', Returned features)
          else if (length page <? batchSize)%nat
               then Some (server', Returned (features ++ page))
               else fetchFeatures fuel' batchSize server' (features ++ page)
                      (offset + batchSize)
      end
  end.

(** [fetchArcGISFeatures(serviceUrl, { batchSize })] *)
Definition fetchArcGISFeatures (fuel : nat) (batchSize : nat) (server : Server)
  : option (Server * Outcome (list Rec)) :=
  fetchFeatures fuel batchSize server [] 0.

End Fetching.

Section Inserting.

(** The table as the list of its rows; the database accepts a batch,
    which it appends, or rejects it with an error and leaves the table
    as it was. *)
Variable Rec : Type.
Variable rejects : list Rec -> list Rec -> option string.

(** The [for] loop of [batchInsert] from index [i]: the table at the end
    and how the loop ended.  [fuel] bounds the number of batches. *)
Fixpoint insertFrom (fuel : nat) (records : list Rec) (batchSize : nat) (i : nat)
    (table : list Rec) : option (list Rec * Outcome JsVal) :=
  if negb (i <? length records)%nat then Some (table, Returned JsUndefined)
  else
    match fuel with
    | O => None
    | S fuel' =>
        let batch := firstn batchSize (skipn i records) in
        match rejects table batch with
        | Some message => Some (table, Thrown message)
        | None => insertFrom fuel' records batchSize (i + batchSize) (table ++ batch)
        end
    end.

(** [batchInsert(db, table, records, { batchSize })] *)
Definition batchInsert (fuel : nat) (records : list Rec) (batchSize : nat)
    (table : list Rec) : option (list Rec * Outcome JsVal) :=
  match records with
  | [] => Some (table, Returned JsUndefined)
  | _ :: _ => insertFrom fuel records batchSize 0 table
  end.

End Inserting.

(** A service that holds [dataset], fails [failures] requests before it
    answers, and then serves at most [cap] records a page, whatever the
    number asked for.  Its state is the number of failures to come. *)
Definition service {Rec : Type} (dataset : list Rec) (cap : nat)
    (failures : nat) (limit offset : nat) : nat * Outcome (option (list Rec)) :=
  match failures with
  | O => (O, Returned (Some (firstn (Nat.min limit cap) (skipn offset dataset))))
  | S n => (n, Thrown "ECONNRESET")
  end.

(** A database that rejects the batch that would bring the table to more
    than [capacity] rows. *)
Definition boundedTable {Rec : Type} (capacity : nat) (table batch : list Rec)
  : option string :=
  if (capacity <? length table + length batch)%nat then Some "insert failed" else None.

(** A database that accepts every batch. *)
Definition acceptsAll {Rec : Type} (table batch : list Rec) : option string := None.

End SeedUtils.

(* ===================================================================== *)
(** ** The seed script of the capital projects, end to end *)
(* ===================================================================== *)

Module CapitalSeed.
Import JS Processing Geometry GeoJSON ChangeDetector CapitalProjects Validation SeedUtils.

(** How a run of [main] ends: the table was rewritten, the update was
    skipped because no change was detected, or the process exited with
    status 1. *)
Inductive Exit : Type :=
| Seeded
| SkippedUpdate
| ExitFailure.

Section Main.

(** Built-ins and collaborators of the run. *)
Variable parseFloatString : string -> float.
Variable parseIntString : string -> float.
Variable randomSuffix : nat -> string.
Variable inheritedProperty : string -> bool.
Variable toFixed1 : float -> string.
Variable positiveDigits : float -> string.
Variable stringify : Project -> string.

(** The three checks of step 2, in one [try]: the first that throws
    ends the run. *)
Definition validateFeatures (features : list Feature) : Outcome JsVal :=
  match validateMinimumRecordCount features 1000 "Capital Projects" with
  | Thrown message => Thrown message
  | Returned _ =>
      match
        validateRequiredFields inheritedProperty toFixed1 positiveDigits
          (map properties features)
          ["maprojid"; "description"; "magencyname"; "allocate_total"]
          "Capital Projects" 30 10%float
      with
      | Thrown message => Thrown message
      | Returned _ =>
          validateDataTypes (map properties features)
            [("allocate_total", fun val _ => Returned (isNumber parseFloatString val));
             ("commit_total", fun val _ => Returned (isNumber parseFloatString val));
             ("spent_total", fun val _ => Returned (isNumber parseFloatString val))]
            "Capital Projects" 30
      end
  end.

(** The checks of step 4 on the processed projects. *)
Definition validateProjects (projects : list Project) : Outcome JsVal :=
  validateProcessedRecords projects
    [fun records => validateMinimumRecordCount records 1000 "Processed Capital Projects";
     fun records =>
       match missingRequiredFields records with
       | [] => Returned JsUndefined
       | invalid =>
           Thrown (showNat (length invalid) ++ " projects missing required fields")%string
       end]
    "Capital Projects".

(** [main()]: from what the request for the feed gave (an error, a
    document without features, or the features), the storage read by the
    change detector, the outcome of the [TRUNCATE] ([Some] error when it
    fails), the database that takes the batches and the rows of the table
    before the run, to the way the run ends and the rows after it. *)
Definition main (fuel : nat) (response : Outcome (option (list Feature)))
    (db : Storage Project) (truncateError : option string)
    (rejects : list Project -> list Project -> option string) (table : list Project)
  : option (Exit * list Project) :=
  match response with
  | Thrown _ => Some (ExitFailure, table)
  | Returned fetched =>
      let features := default [] fetched in
      match validateFeatures features with
      | Thrown _ => Some (ExitFailure, table)
      | Returned _ =>
          match processCapitalProjects parseFloatString parseIntString randomSuffix
                  fuel features with
          | None => None
          | Some (Thrown _) => Some (ExitFailure, table)
          | Some (Returned projects) =>
              match validateProjects projects with
              | Thrown _ => Some (ExitFailure, table)
              | Returned _ =>
                  let changeResult :=
                    detectDataChanges Project stringify db "capital_projects" projects true in
                  if negb (hasChanges changeResult) then Some (SkippedUpdate, table)
                  else
                    match truncateError with
                    | Some _ => Some (ExitFailure, table)
                    | None =>
                        match batchInsert Project rejects fuel projects 500 [] with
                        | None => None
                        | Some (rows, Thrown _) => Some (ExitFailure, rows)
                        | Some (rows, Returned _) => Some (Seeded, rows)
                        end
                    end
              end
          end
      end
  end.

End Main.

(** The features a response carries: [geojson.features || []]. *)
Definition featuresOf (response : Outcome (option (list Feature))) : list Feature :=
  match response with
  | Returned (Some features) => features
  | _ => []
  end.

End CapitalSeed.

Module CapitalSeedExamples.
Import JS Geometry GeoJSON ChangeDetector CapitalProjects CapitalSeed Examples.

(** A feature with the attributes the checks of step 2 ask for. *)
Definition completeFeature : Feature :=
  {| properties := list_to_map [("maprojid", JsString "850HWXYZ");
                                ("description", JsString "Reconstruction of a pier");
                                ("magencyname", JsString "Department of Transportation");
                                ("mindate", JsString "2019-07-01T00:00:00.000");
                                ("allocate_total", JsNumber 1500000%float);
                                ("commit_total", JsNumber 0%float);
                                ("spent_total", JsNumber 250000%float)];
     geometry := GeoPolygon [Examples.closedRing] |}.

(** A feed of a thousand such features. *)
Definition thousandFeatures : list Feature := repeat completeFeature 1000.

(** [JSON.stringify] of a project, reduced to its identifier. *)
Definition stringifyId (project : Project) : string :=
  match id project with
  | JsString s => quoteJSON s
  | _ => "null"
  end.

(** An empty table behind the change detector. *)
Definition emptyStore : Storage Project :=
  {| currentCount := fun _ => Returned 0;
     currentSample := fun _ => Returned [] |}.

End CapitalSeedExamples.

(* ===================================================================== *)
(** ** The seed script of the housing data, end to end *)
(* ===================================================================== *)

Module HousingSeed.
Import JS Housing Processing ChangeDetector Validation SeedUtils.
Import HousingNY Demolitions CapitalSeed.

Section Main.

(** Built-ins and collaborators of the run.  [buildingLiteral] is the
    object literal of [processDCPHousing]; [canonical] reads the counts of
    an entry of the affordable map as the integers of the canonical
    record. *)
Variable parseFloatString : string -> float.
Variable parseInt10 : JsVal -> float.
Variable Math_round : float -> float.
Variable buildingLiteral : gmap string JsVal -> float -> float -> float -> float -> Building.
Variable positiveDigits : float -> string.
Variable getFullYear : JsVal -> float.
Variable toISOString : JsVal -> option string.
Variable canonical : Affordable -> AffordableData.
Variable inheritedProperty : string -> bool.
Variable toFixed1 : float -> string.
Variable stringifyBuilding : Building -> string.
Variable stringifyDemolition : Demolition -> string.

(** The checks of step 2 on the construction feed. *)
Definition validateConstructionFeed (dcpRecords : list (gmap string JsVal)) : Outcome JsVal :=
  match validateMinimumRecordCount dcpRecords 10000 "DCP Housing Database" with
  | Thrown message => Thrown message
  | Returned _ =>
      match
        validateRequiredFields inheritedProperty toFixed1 positiveDigits dcpRecords
          ["Job_Number"; "CompltYear"; "BBL"; "Latitude"; "Longitude"; "ClassANet"]
          "DCP Housing Database" 50 10%float
      with
      | Thrown message => Thrown message
      | Returned _ =>
          validateDataTypes dcpRecords (housingFieldValidators parseFloatString parseInt10)
            "DCP Housing Database" 50
      end
  end.

(** The checks of step 3.1 on the affordable housing feed. *)
Definition validateAffordableFeed (housingNyRecords : list (gmap string JsVal))
  : Outcome JsVal :=
  match validateMinimumRecordCount housingNyRecords 100 "Housing NY" with
  | Thrown message => Thrown message
  | Returned _ =>
      validateRequiredFields inheritedProperty toFixed1 positiveDigits housingNyRecords
        ["bbl"; "building_completion_date"; "all_counted_units"] "Housing NY" 20 10%float
  end.

(** The check of the processed buildings:
    [records.filter(r => !r.id || !r.totalUnits || !r.completionYear)]. *)
Definition buildingsMissingFields (records : list Building) : list Building :=
  List.filter
    (fun r =>
       (Housing.id r =? "")%string || (Housing.totalUnits r =? 0)
       || (Housing.completionYear r =? 0))
    records.

(** The two checks of step 9, in one [try]. *)
Definition validateProcessed (buildings : list Building) (demolitions : list Demolition)
  : Outcome JsVal :=
  match
    validateProcessedRecords buildings
      [fun records => validateMinimumRecordCount records 10000 "Processed Buildings";
       fun records =>
         match buildingsMissingFields records with
         | [] => Returned JsUndefined
         | invalid =>
             Thrown (showNat (length invalid) ++ " buildings missing required fields")%string
         end]
      "Housing Buildings"
  with
  | Thrown message => Thrown message
  | Returned _ =>
      validateProcessedRecords demolitions
        [fun records =>
           if (0 <? length records)%nat && someMissingFields records
           then Thrown "Some demolitions missing required fields"
           else Returned JsUndefined]
        "Demolitions"
  end.

(** Steps 5 to 8: the buildings and the demolitions of the run, with the
    matching.  The intake of the construction feed, the deduplicator and
    the intake of the demolitions can throw. *)
Definition processFeeds (dcpRecords housingNyRecords demolitionRecords : list (gmap string JsVal))
  : Outcome (list Building * list Demolition) :=
  match
    ConstructionIntake.processDCPHousing parseFloatString parseInt10 Math_round
      buildingLiteral toISOString dcpRecords
  with
  | Thrown message => Thrown message
  | Returned (dcpBuildings, _) =>
      let housingNyMap :=
        canonical <$> processHousingNY positiveDigits parseInt10 getFullYear housingNyRecords in
      let buildingsWithOverlay := overlayAffordableData dcpBuildings housingNyMap in
      match deduplicateBuildings buildingsWithOverlay with
      | None => Thrown "TypeError"
      | Some buildings =>
          match processDCPDemolitions parseFloatString parseInt10 Math_round positiveDigits
                  toISOString demolitionRecords with
          | Thrown message => Thrown message
          | Returned (demolitions, _) =>
              Returned (buildings, matchDemolitions buildings demolitions)
          end
      end
  end.

(** Steps 11 and 12: the two [TRUNCATE]s, then the two batched insertions;
    the first error ends the run.  The result is the way the run ends
    and the rows of the two tables. *)
Definition rewriteTables (fuel : nat) (buildings : list Building)
    (demolitions : list Demolition)
    (truncateBuildingsError truncateDemolitionsError : option string)
    (rejectsBuildings : list Building -> list Building -> option string)
    (rejectsDemolitions : list Demolition -> list Demolition -> option string)
    (buildingsTable : list Building) (demolitionsTable : list Demolition)
  : option (Exit * list Building * list Demolition) :=
  match truncateBuildingsError with
  | Some _ => Some (ExitFailure, buildingsTable, demolitionsTable)
  | None =>
      match truncateDemolitionsError with
      | Some _ => Some (ExitFailure, [], demolitionsTable)
      | None =>
          match batchInsert Building rejectsBuildings fuel buildings 500 [] with
          | None => None
          | Some (buildingRows, Thrown _) => Some (ExitFailure, buildingRows, [])
          | Some (buildingRows, Returned _) =>
              match batchInsert Demolition rejectsDemolitions fuel demolitions 500 [] with
              | None => None
              | Some (demolitionRows, Thrown _) =>
                  Some (ExitFailure, buildingRows, demolitionRows)
              | Some (demolitionRows, Returned _) =>
                  Some (Seeded, buildingRows, demolitionRows)
              end
          end
      end
  end.

(** [main()]: from what the four fetches gave, the storage read by the
    change detector, the outcomes of the two [TRUNCATE]s, the databases
    behind the two tables and their rows before the run, to the way the
    run ends and the rows after it. *)
Definition main (fuel : nat)
    (newBuildingRecords alterationRecords housingNyRecords demolitionRecords
       : Outcome (list (gmap string JsVal)))
    (dbBuildings : Storage Building) (dbDemolitions : Storage Demolition)
    (truncateBuildingsError truncateDemolitionsError : option string)
    (rejectsBuildings : list Building -> list Building -> option string)
    (rejectsDemolitions : list Demolition -> list Demolition -> option string)
    (buildingsTable : list Building) (demolitionsTable : list Demolition)
  : option (Exit * list Building * list Demolition) :=
  let failure := Some (ExitFailure, buildingsTable, demolitionsTable) in
  match newBuildingRecords, alterationRecords with
  | Returned newBuildings, Returned alterations =>
      let dcpRecords := newBuildings ++ alterations in
      match validateConstructionFeed dcpRecords with
      | Thrown _ => failure
      | Returned _ =>
          match housingNyRecords with
          | Thrown _ => failure
          | Returned housingNy =>
              match validateAffordableFeed housingNy with
              | Thrown _ => failure
              | Returned _ =>
                  match demolitionRecords with
                  | Thrown _ => failure
                  | Returned demolitionFeed =>
                      match processFeeds dcpRecords housingNy demolitionFeed with
                      | Thrown _ => failure
                      | Returned (buildings, demolitions) =>
                          match validateProcessed buildings demolitions with
                          | Thrown _ => failure
                          | Returned _ =>
                              let buildingsChange :=
                                detectDataChanges Building stringifyBuilding dbBuildings
                                  "housing_buildings" buildings true in
                              let demolitionsChange :=
                                detectDataChanges Demolition stringifyDemolition dbDemolitions
                                  "housing_demolitions" demolitions true in
                              if negb (hasChanges buildingsChange)
                                 && negb (hasChanges demolitionsChange)
                              then Some (SkippedUpdate, buildingsTable, demolitionsTable)
                              else
                                rewriteTables fuel buildings demolitions
                                  truncateBuildingsError truncateDemolitionsError
                                  rejectsBuildings rejectsDemolitions
                                  buildingsTable demolitionsTable
                          end
                      end
                  end
              end
          end
      end
  | _, _ => failure
  end.

End Main.

(** The records a fetch returned, none when it threw. *)
Definition recordsOf (fetched : Outcome (list (gmap string JsVal)))
  : list (gmap string JsVal) :=
  match fetched with
  | Returned records => records
  | Thrown _ => []
  end.

End HousingSeed.

Module HousingSeedExamples.
Import JS Housing ChangeDetector HousingNY Demolitions.

(** The counts of an entry read as integers: the examples hold none. *)
Definition noOverlay (_ : Affordable) : AffordableData :=
  {| ad_affordableUnits := 0; ad_affordablePercentage := 0%float;
     ad_extremeLowIncomeUnits := 0; ad_veryLowIncomeUnits := 0; ad_lowIncomeUnits := 0;
     ad_moderateIncomeUnits := 0; ad_middleIncomeUnits := 0; ad_otherIncomeUnits := 0;
     ad_studioUnits := 0; ad_oneBrUnits := 0; ad_twoBrUnits := 0; ad_threeBrUnits := 0;
     ad_fourBrUnits := 0; ad_fiveBrUnits := 0; ad_sixBrUnits := 0; ad_unknownBrUnits := 0;
     ad_projectId := JsNull; ad_projectName := JsNull; ad_constructionType := JsNull;
     ad_extendedAffordabilityOnly := false |}.

(** [JSON.stringify] of a row, reduced to a constant: the stores of the
    examples are empty. *)
Definition stringifyAny {Rec : Type} (_ : Rec) : string := "{}".

(** Empty tables behind the change detector. *)
Definition emptyTable (Rec : Type) : Storage Rec :=
  {| currentCount := fun _ => Returned 0;
     currentSample := fun _ => Returned [] |}.

End HousingSeedExamples.


(* ===================================================================== *)
(** * Properties *)
(* ===================================================================== *)

(** ** Property identifiers *)

Module NormalizerFacts.
Import JS Normalizer.

Lemma filterString_allChars (p : ascii -> bool) (s : string) :
  allChars p (filterString p s) = true.
Proof.
  induction s as [|c r IH]; simpl; [reflexivity|].
  destruct (p c) eqn:Hc; simpl; [rewrite Hc|]; exact IH.
Qed.

(** [.replace(/[^0-9]/g, '')] keeps the characters of the text that are
    digits, all of them and in their order. *)
Lemma stripNonDigits_filter (text : string) :
  list_ascii_of_string (stripNonDigits text)
  = List.filter isDigit (list_ascii_of_string text).
Proof.
  unfold stripNonDigits.
  induction text as [|c r IH]; [reflexivity|].
  cbn [filterString list_ascii_of_string List.filter].
  destruct (isDigit c); cbn [list_ascii_of_string]; rewrite IH; reflexivity.
Qed.

Lemma length_list_ascii (text : string) :
  length (list_ascii_of_string text) = String.length text.
Proof. induction text as [|c r IH]; [reflexivity|]. cbn. rewrite IH. reflexivity. Qed.

(** The class [[0-9]]: the ten characters from ['0'] to ['9']. *)
Lemma isDigit_spec (c : ascii) :
  isDigit c = true <-> In c (list_ascii_of_string "0123456789").
Proof.
  destruct c as [[|] [|] [|] [|] [|] [|] [|] [|]];
    (split; [try discriminate; intros _; cbn; tauto
            |intros H; cbn in H; try reflexivity;
             repeat (destruct H as [H|H]; [discriminate H|]); destruct H]).
Qed.

(** The early exit [if (!bbl) return null] loses no identifier: the text
    of a falsy value holds fewer than nine digits. *)
Lemma falsy_few_digits (positiveDigits : float -> string) (v : JsVal) :
  truthy v = false ->
  (String.length (stripNonDigits (toString positiveDigits v)) < 9)%nat.
Proof.
  destruct v as [| |[|]|x|s]; simpl; try discriminate; try (intros _; vm_compute; lia).
  - unfold numberToString. intros H. apply negb_false_iff in H.
    destruct (isNaN x); [vm_compute; lia|]. simpl in H. rewrite H. vm_compute. lia.
  - intros H. apply negb_false_iff, String.eqb_eq in H. subst s. vm_compute. lia.
Qed.

(** What [normalizeBBL] returns is ten digits. *)
Lemma normalizeBBL_isTenDigits (positiveDigits : float -> string) (v : JsVal) (r : string) :
  normalizeBBL positiveDigits v = Some r -> isTenDigits r = true.
Proof.
  unfold normalizeBBL, isTenDigits, stripNonDigits.
  destruct (negb (truthy v)); [discriminate|].
  pose proof (filterString_allChars isDigit (toString positiveDigits v)) as Hd.
  destruct (String.length (filterString isDigit (toString positiveDigits v)) =? 10)%nat eqn:H10.
  - intros [= <-]. rewrite H10, Hd. reflexivity.
  - destruct (String.length (filterString isDigit (toString positiveDigits v)) =? 9)%nat
      eqn:H9; [|discriminate].
    intros [= <-]. apply Nat.eqb_eq in H9.
    change ("0" ++ filterString isDigit (toString positiveDigits v))%string
      with (String "0" (filterString isDigit (toString positiveDigits v))).
    cbn [String.length allChars]. rewrite H9, Hd. reflexivity.
Qed.

Lemma allChars_Forall (p : ascii -> bool) (text : string) :
  allChars p text = true -> Forall (fun c => p c = true) (list_ascii_of_string text).
Proof.
  induction text as [|c r IH]; cbn [allChars list_ascii_of_string]; intros H.
  - constructor.
  - apply andb_true_iff in H as [Hc Hr]. constructor; [exact Hc|exact (IH Hr)].
Qed.

(** C8: for every input value, with [digits] the characters of the text
    of the value that are among ['0'] to ['9'], all of them and in the
    order of the text: ten digits are returned as they are, nine digits
    are returned after one leading zero, any other count yields [null];
    and every identifier returned is exactly ten characters, all of them
    digits. *)
Theorem normalizeBBL_rule :
  forall (positiveDigits : float -> string) (v : JsVal),
    let digits :=
      List.filter (fun c => bool_decide (In c (list_ascii_of_string "0123456789")))
        (list_ascii_of_string (toString positiveDigits v)) in
    (length digits = 10%nat ->
     normalizeBBL positiveDigits v = Some (string_of_list_ascii digits))
    /\ (length digits = 9%nat ->
        normalizeBBL positiveDigits v = Some (String "0" (string_of_list_ascii digits)))
    /\ (length digits <> 10%nat -> length digits <> 9%nat ->
        normalizeBBL positiveDigits v = None)
    /\ (forall r, normalizeBBL positiveDigits v = Some r ->
                  String.length r = 10%nat
                  /\ Forall (fun c => In c (list_ascii_of_string "0123456789"))
                       (list_ascii_of_string r)).
Proof.
  intros positiveDigits v digits.
  set (numeric := stripNonDigits (toString positiveDigits v)).
  assert (Hdigits : digits = list_ascii_of_string numeric).
  { unfold digits, numeric. rewrite stripNonDigits_filter. apply List.filter_ext.
    intros c. destruct (isDigit c) eqn:Hc.
    - apply bool_decide_eq_true, isDigit_spec. exact Hc.
    - apply bool_decide_eq_false. intros Hin. apply isDigit_spec in Hin. congruence. }
  assert (Hlen : length digits = String.length numeric).
  { rewrite Hdigits. apply length_list_ascii. }
  assert (Htext : string_of_list_ascii digits = numeric).
  { rewrite Hdigits. apply string_of_list_ascii_of_string. }
  assert (Hfalsy : truthy v = false -> (length digits < 9)%nat).
  { intros Ht. rewrite Hlen. exact (falsy_few_digits positiveDigits v Ht). }
  rewrite Hlen in Hfalsy. rewrite Hlen, Htext. clear Hdigits Hlen Htext. clearbody digits.
  split; [|split; [|split]].
  - intros H10. unfold normalizeBBL. fold numeric.
    destruct (truthy v); [|specialize (Hfalsy eq_refl); lia].
    cbn [negb]. rewrite H10. reflexivity.
  - intros H9. unfold normalizeBBL. fold numeric.
    destruct (truthy v); [|specialize (Hfalsy eq_refl); lia].
    cbn [negb]. rewrite H9. reflexivity.
  - intros H10 H9. unfold normalizeBBL. fold numeric.
    destruct (negb (truthy v)); [reflexivity|].
    apply Nat.eqb_neq in H10, H9. rewrite H10, H9. reflexivity.
  - intros r Hr. apply normalizeBBL_isTenDigits in Hr. unfold isTenDigits in Hr.
    apply andb_true_iff in Hr as [Hl Hd]. apply Nat.eqb_eq in Hl. split; [exact Hl|].
    apply allChars_Forall in Hd. revert Hd. apply List.Forall_impl.
    intros c. apply isDigit_spec.
Qed.

Example normalizeBBL_ten (d : float -> string) :
  normalizeBBL d (JsString "1000123456") = Some "1000123456".
Proof. reflexivity. Qed.

Example normalizeBBL_nine_padded (d : float -> string) :
  normalizeBBL d (JsString "1-00012-345") = Some "0100012345".
Proof. reflexivity. Qed.

Example normalizeBBL_short (d : float -> string) :
  normalizeBBL d (JsString "12345") = None.
Proof. reflexivity. Qed.

Example normalizeBBL_null (d : float -> string) : normalizeBBL d JsNull = None.
Proof. reflexivity. Qed.

End NormalizerFacts.

(** ** Classifier *)

Module ClassifierFacts.
Import Classifier.

(** The physical classifier never answers [unknown] on an integer count. *)
Lemma physical_type_known (totalUnits : Z) (buildingClass : option string) :
  getPhysicalBuildingType totalUnits buildingClass <> unknown.
Proof.
  unfold getPhysicalBuildingType.
  destruct (match buildingClass with Some (String c _) => _ | _ => false end);
    [discriminate|].
  destruct (50 <=? totalUnits) eqn:H50; [discriminate|].
  destruct (10 <=? totalUnits) eqn:H10; [discriminate|].
  destruct (3 <=? totalUnits) eqn:H3; [discriminate|].
  destruct (totalUnits <=? 2) eqn:H2; [discriminate|]. lia.
Qed.

(** C2, as the code has it: with unit count 0, no overlay, job type
    "New Building" and no class code the classifier answers
    [one-two-family] (0 <= 2); with unit count 120 it answers
    [multifamily-elevator]; with an overlay and 5 affordable units it
    answers [affordable] whatever the other inputs are. *)
Theorem classifier_witness_inputs :
  (forall affordableUnits,
      classifyBuildingType 0 affordableUnits "New Building" false None = one_two_family)
  /\ (forall affordableUnits,
      classifyBuildingType 120 affordableUnits "New Building" false None
      = multifamily_elevator)
  /\ (forall totalUnits jobType buildingClass,
      classifyBuildingType totalUnits 5 jobType true buildingClass = affordable).
Proof.
  split; [|split]; intros; reflexivity.
Qed.

(** C2, the stated answer fails: the first witness input is classified
    [one-two-family], not [unknown]. *)
Lemma classifier_zero_units_not_unknown :
  classifyBuildingType 0 0 "New Building" false None = one_two_family
  /\ buildingTypeName (classifyBuildingType 0 0 "New Building" false None)
     = "one-two-family"
  /\ (buildingTypeName (classifyBuildingType 0 0 "New Building" false None)
      =? "unknown")%string = false.
Proof. repeat split. Qed.

(** The decision order: status before physical form. *)
Lemma classify_alteration (totalUnits affordableUnits : Z) (buildingClass : option string) :
  classifyBuildingType totalUnits affordableUnits "Alteration" false buildingClass
  = renovation.
Proof. reflexivity. Qed.

Lemma classify_mixed_use_prefix :
  classifyBuildingType 120 0 "New Building" false (Some "d7") = mixed_use.
Proof. reflexivity. Qed.

End ClassifierFacts.

(** ** Overlay merger *)

Module OverlayFacts.
Import JS Classifier Housing.

Lemma overlayLoop_map (m : gmap string AffordableData) (todo acc : list Building) (n : nat) :
  fst (overlayLoop m todo acc n) = acc ++ map (fun b => fst (overlayBuilding m b)) todo.
Proof.
  revert acc n. induction todo as [|b rest IH]; intros acc n; simpl.
  - rewrite app_nil_r. reflexivity.
  - destruct (overlayBuilding m b) as [b' overlaid] eqn:Hb. rewrite IH.
    rewrite <- app_assoc. reflexivity.
Qed.

Lemma overlayAffordableData_map (bs : list Building) (m : gmap string AffordableData) :
  overlayAffordableData bs m = map (fun b => fst (overlayBuilding m b)) bs.
Proof. unfold overlayAffordableData. rewrite overlayLoop_map. reflexivity. Qed.

(** The overlay keeps the identifier it was selected by. *)
Lemma applyOverlay_bbl (b : Building) (d : AffordableData) :
  bbl (applyOverlay b d) = bbl b.
Proof. reflexivity. Qed.

(** Overwriting twice from the same overlay record is overwriting once. *)
Lemma applyOverlay_twice (b : Building) (d : AffordableData) :
  applyOverlay (applyOverlay b d) d = applyOverlay b d.
Proof. reflexivity. Qed.

Lemma overlayBuilding_twice (m : gmap string AffordableData) (b : Building) :
  fst (overlayBuilding m (fst (overlayBuilding m b))) = fst (overlayBuilding m b).
Proof.
  unfold overlayBuilding at 2 3.
  destruct (lacksBbl b) eqn:Hl.
  - simpl. unfold overlayBuilding. rewrite Hl. reflexivity.
  - destruct (bbl b) as [p|] eqn:Hp.
    + destruct (m !! p) as [d|] eqn:Hd; simpl.
      * unfold overlayBuilding.
        assert (Hl' : lacksBbl (applyOverlay b d) = false).
        { unfold lacksBbl in *. rewrite applyOverlay_bbl, Hp. rewrite Hp in Hl. exact Hl. }
        rewrite Hl', applyOverlay_bbl, Hp, Hd. simpl. apply applyOverlay_twice.
      * unfold overlayBuilding. rewrite Hl, Hp, Hd. reflexivity.
    + simpl. unfold overlayBuilding. rewrite Hl, Hp. reflexivity.
Qed.

(** C3: merging the same overlay mapping a second time onto the merged
    records changes no field of any record. *)
Theorem overlayAffordableData_idempotent :
  forall (dcpBuildings : list Building) (housingNyMap : gmap string AffordableData),
    overlayAffordableData (overlayAffordableData dcpBuildings housingNyMap) housingNyMap
    = overlayAffordableData dcpBuildings housingNyMap.
Proof.
  intros bs m. rewrite !overlayAffordableData_map, map_map.
  apply map_ext. intros b. apply overlayBuilding_twice.
Qed.

(** A record that is overlaid is classified with the overlay present. *)
Lemma overlaid_is_affordable (b : Building) (d : AffordableData) :
  0 < ad_affordableUnits d -> buildingType (applyOverlay b d) = affordable.
Proof.
  intros H. simpl. unfold classifyBuildingType.
  apply Z.ltb_lt in H. rewrite H. reflexivity.
Qed.

(** Records with no identifier, or none in the mapping, are left alone. *)
Lemma overlay_without_match (m : gmap string AffordableData) (b : Building) :
  (lacksBbl b = true \/ (exists p, bbl b = Some p /\ m !! p = None)) ->
  overlayBuilding m b = (b, false).
Proof.
  unfold overlayBuilding. intros [H|[p [Hp Hm]]].
  - rewrite H. reflexivity.
  - rewrite Hp, Hm. destruct (lacksBbl b); reflexivity.
Qed.

End OverlayFacts.

(** ** Change detector *)

Module ChangeDetectorFacts.
Import JS ChangeDetector Examples.

(** *** The fingerprint *)

Lemma filterIndex_none {X : Type} (keep : nat -> bool) (idx : nat) (l : list X) :
  (forall i, keep i = false) -> filterIndex keep idx l = [].
Proof.
  intros Hk. revert idx. induction l as [|x r IH]; intros idx; simpl; [reflexivity|].
  rewrite Hk. apply IH.
Qed.

(** With a zero stride no index passes the test [idx % 0 === 0]. *)
Lemma zero_stride_selects_nothing (Rec : Type) (records : list Rec) :
  (length records <= 4)%nat -> sampleRecords Rec records = [].
Proof.
  intros Hlen. unfold sampleRecords.
  replace (length records / 5)%nat with 0%nat
    by (symmetry; apply Nat.div_small; lia).
  rewrite filterIndex_none; [reflexivity|]. intros i. reflexivity.
Qed.

(** C10: [calculateDataHash] returns a fingerprint for every array: the
    constant "empty" for the empty array, and otherwise a 32-bit number
    written in hexadecimal; for 1 to 4 records the stride is zero, the test
    [idx % 0 === 0] selects no sample and the summary holds the count, the
    first and the last record only; equal arrays get equal fingerprints. *)
Theorem calculateDataHash_total :
  forall (Rec : Type) (stringify : Rec -> string),
    calculateDataHash Rec stringify [] = "empty"
    /\ (forall (first : Rec) (rest : list Rec),
          exists n, 0 <= n < 2 ^ 32
                    /\ calculateDataHash Rec stringify (first :: rest) = toHex n)
    /\ (forall (first : Rec) (rest : list Rec),
          (length (first :: rest) <= 4)%nat ->
          sampleRecords Rec (first :: rest) = []
          /\ calculateDataHash Rec stringify (first :: rest)
             = hashString
                 (stringifySummary (length (first :: rest)) (stringify first)
                    (stringify (List.last (first :: rest) first)) []))
    /\ (forall records records' : list Rec,
          records = records' ->
          calculateDataHash Rec stringify records = calculateDataHash Rec stringify records').
Proof.
  intros Rec stringify. split; [reflexivity|]. split; [|split].
  - intros first rest. eexists. split; [|reflexivity].
    unfold toUint32. apply Z.mod_pos_bound. reflexivity.
  - intros first rest Hlen.
    pose proof (zero_stride_selects_nothing Rec (first :: rest) Hlen) as Hs.
    split; [exact Hs|]. unfold calculateDataHash. rewrite Hs. reflexivity.
  - intros records records' ->. reflexivity.
Qed.

(** C10 at three records of the example store. *)
Lemma calculateDataHash_total_witness :
  (length (firstn 3 (tenRows 5)) <= 4)%nat
  /\ sampleRecords _ (firstn 3 (tenRows 5)) = []
  /\ calculateDataHash _ stringifyRow (firstn 3 (tenRows 5)) = "a5658230".
Proof.
  split; [vm_compute; lia|].
  destruct (calculateDataHash_total _ stringifyRow) as (_ & _ & H & _).
  destruct (H (hd [] (tenRows 5)) (firstn 2 (tl (tenRows 5)))) as [Hs Hh].
  - vm_compute. lia.
  - split; [exact Hs|]. vm_compute. reflexivity.
Defined.

Lemma In_filterIndex {X : Type} (keep : nat -> bool) (idx : nat) (l : list X) (x : X) :
  In x (filterIndex keep idx l) -> In x l.
Proof.
  revert idx. induction l as [|y r IH]; intros idx; simpl; [tauto|].
  destruct (keep idx); simpl; intros H.
  - destruct H as [H|H]; [left; exact H|right; eapply IH; exact H].
  - right. eapply IH. exact H.
Qed.

(** The kept records are the records at the kept indices. *)
Lemma filterIndex_positions {X : Type} (keep : nat -> bool) (l : list X) (idx : nat) :
  map Some (filterIndex keep idx l)
  = map (fun j => nth_error l (j - idx)) (filterIndex keep idx (seq idx (length l))).
Proof.
  revert idx. induction l as [|x r IH]; intros idx; [reflexivity|].
  assert (Hshift :
    map (fun j => nth_error r (j - S idx)) (filterIndex keep (S idx) (seq (S idx) (length r)))
    = map (fun j => nth_error (x :: r) (j - idx))
        (filterIndex keep (S idx) (seq (S idx) (length r)))).
  { apply map_ext_in. intros j Hj. apply In_filterIndex, in_seq in Hj.
    replace (j - idx)%nat with (S (j - S idx)) by lia. reflexivity. }
  cbn [length seq filterIndex]. destruct (keep idx); cbn [map].
  - rewrite Nat.sub_diag. cbn [nth_error]. f_equal. rewrite IH. exact Hshift.
  - rewrite IH. exact Hshift.
Qed.

Lemma sampleRecords_positions (Rec : Type) (records : list Rec) :
  map Some (sampleRecords Rec records)
  = map (nth_error records) (sampleIndices (length records)).
Proof.
  unfold sampleRecords, sampleIndices. rewrite <- !firstn_map.
  rewrite filterIndex_positions. f_equal. apply map_ext. intros j.
  rewrite Nat.sub_0_r. reflexivity.
Qed.

Lemma map_Some_inj {X : Type} (l1 l2 : list X) : map Some l1 = map Some l2 -> l1 = l2.
Proof.
  revert l2. induction l1 as [|x r IH]; intros [|y r2]; simpl; try discriminate.
  - reflexivity.
  - intros [= -> H]. f_equal. apply IH. exact H.
Qed.

Lemma last_nth_error {X : Type} (l : list X) (d : X) :
  l <> [] -> nth_error l (length l - 1) = Some (List.last l d).
Proof.
  induction l as [|x r IH]; [congruence|]. intros _.
  destruct r as [|y r']; [reflexivity|].
  specialize (IH ltac:(discriminate)).
  replace (length (x :: y :: r') - 1)%nat with (S (length (y :: r') - 1))
    by (simpl; lia).
  exact IH.
Qed.

(** The fingerprint reads the count and the sampled positions only. *)
Lemma fingerprint_reads_samples (Rec : Type) (stringify : Rec -> string)
    (l1 l2 : list Rec) :
  length l1 = length l2 ->
  (forall i, sampledIndex (length l1) i = true -> nth_error l1 i = nth_error l2 i) ->
  calculateDataHash Rec stringify l1 = calculateDataHash Rec stringify l2.
Proof.
  intros Hlen Hagree.
  destruct l1 as [|a r1], l2 as [|b r2]; try discriminate; [reflexivity|].
  assert (Hfirst : a = b).
  { specialize (Hagree 0%nat eq_refl). simpl in Hagree. congruence. }
  subst b.
  assert (Hlast : List.last (a :: r1) a = List.last (a :: r2) a).
  { assert (Hs : sampledIndex (length (a :: r1)) (length (a :: r1) - 1) = true).
    { unfold sampledIndex. rewrite Nat.eqb_refl, orb_true_r. reflexivity. }
    specialize (Hagree _ Hs).
    rewrite (last_nth_error (a :: r1) a) in Hagree by discriminate.
    rewrite Hlen, (last_nth_error (a :: r2) a) in Hagree by discriminate. congruence. }
  assert (Hsamples : sampleRecords Rec (a :: r1) = sampleRecords Rec (a :: r2)).
  { apply map_Some_inj. rewrite !sampleRecords_positions, <- Hlen.
    apply map_ext_in. intros i Hi. apply Hagree. unfold sampledIndex.
    apply orb_true_iff. right. apply existsb_exists. exists i.
    split; [exact Hi|apply Nat.eqb_refl]. }
  unfold calculateDataHash. rewrite Hlast, Hsamples, Hlen. reflexivity.
Qed.

End ChangeDetectorFacts.

(** *** The detector *)

Module DetectorFacts.
Import JS ChangeDetector Examples ChangeDetectorFacts.

(** The verdict of the [catch] clause. *)
Lemma caught_verdict (Rec : Type) (stringify : Rec -> string) (db : Storage Rec)
    (tableName : string) (newRecords : list Rec) (hashData : bool) (message : string) :
  tryBlock Rec stringify db tableName newRecords hashData = Thrown message ->
  detectDataChanges Rec stringify db tableName newRecords hashData
  = {| hasChanges := true;
       reason := "Change detection failed - proceeding with update";
       error := Some message;
       stats := StatsEmpty |}.
Proof. unfold detectDataChanges. intros ->. reflexivity. Qed.

Lemma equal_counts_pass (n : nat) : (0 <? Z.abs (Z.of_nat n - Z.of_nat n)) = false.
Proof. rewrite Z.sub_diag. reflexivity. Qed.

(** The [try] block throws exactly when a storage query does. *)
Lemma tryBlock_throws (Rec : Type) (stringify : Rec -> string) (db : Storage Rec)
    (tableName : string) (newRecords : list Rec) (hashData : bool) (message : string) :
  tryBlock Rec stringify db tableName newRecords hashData = Thrown message
  <-> (currentCount Rec db tableName = Thrown message
       \/ (currentCount Rec db tableName = Returned (Z.of_nat (length newRecords))
           /\ hashData = true
           /\ currentSample Rec db tableName = Thrown message)).
Proof.
  unfold tryBlock, compareHashes. split.
  - destruct (currentCount Rec db tableName) as [current|m] eqn:Hc.
    + destruct (0 <? Z.abs (current - Z.of_nat (length newRecords))) eqn:Hd;
        [discriminate|].
      destruct hashData; [|discriminate].
      destruct (currentSample Rec db tableName) as [existing|m] eqn:Hs.
      * destruct (negb _); discriminate.
      * intros [= <-]. right. repeat split. f_equal. apply Z.ltb_ge in Hd. lia.
    + intros [= <-]. left. reflexivity.
  - intros [Hc|(Hc & -> & Hs)]; rewrite Hc; [reflexivity|].
    rewrite equal_counts_pass, Hs. reflexivity.
Qed.

(** C5: when a step of the comparison fails (the count query raises, or
    the sample query raises once the counts are equal and hashing is on)
    the detector returns the verdict of its catch clause, with
    [hasChanges = true] and the message of the error; nothing is thrown
    to the caller. *)
Theorem detectDataChanges_fails_open :
  forall (Rec : Type) (stringify : Rec -> string) (db : Storage Rec)
         (tableName : string) (newRecords : list Rec) (hashData : bool) (message : string),
    (currentCount Rec db tableName = Thrown message
     \/ (currentCount Rec db tableName = Returned (Z.of_nat (length newRecords))
         /\ hashData = true
         /\ currentSample Rec db tableName = Thrown message)) ->
    detectDataChanges Rec stringify db tableName newRecords hashData
    = {| hasChanges := true;
         reason := "Change detection failed - proceeding with update";
         error := Some message;
         stats := StatsEmpty |}.
Proof.
  intros Rec stringify db tableName newRecords hashData message H.
  apply caught_verdict, tryBlock_throws. exact H.
Qed.

(** C5 on a store that rejects the count query, and on one that rejects
    the sample query. *)
Lemma detectDataChanges_fails_open_witness :
  hasChanges
    (detectDataChanges _ stringifyRow unreachableStore "housing_buildings" (tenRows 5) true)
  = true
  /\ error
       (detectDataChanges _ stringifyRow halfReachableStore "housing_buildings"
          (tenRows 5) true)
     = Some "statement timeout".
Proof.
  split.
  - rewrite (detectDataChanges_fails_open _ stringifyRow unreachableStore
               "housing_buildings" (tenRows 5) true "connection refused").
    + reflexivity.
    + left. reflexivity.
  - rewrite (detectDataChanges_fails_open _ stringifyRow halfReachableStore
               "housing_buildings" (tenRows 5) true "statement timeout").
    + reflexivity.
    + right. repeat split.
Defined.

(** With equal counts and hashing on, the verdict is decided by the two
    fingerprints. *)
Lemma equal_counts_verdict (Rec : Type) (stringify : Rec -> string) (db : Storage Rec)
    (tableName : string) (newRecords existing : list Rec) :
  currentCount Rec db tableName = Returned (Z.of_nat (length newRecords)) ->
  currentSample Rec db tableName = Returned existing ->
  let n := Z.of_nat (length newRecords) in
  let existingHash := calculateDataHash Rec stringify existing in
  let newHash := calculateDataHash Rec stringify (firstn 1000 newRecords) in
  detectDataChanges Rec stringify db tableName newRecords true
  = if (existingHash =? newHash)%string
    then {| hasChanges := false;
            reason := "Data is identical to existing records";
            error := None;
            stats := StatsCounts n n |}
    else {| hasChanges := true;
            reason := "Data content has changed (hash mismatch)";
            error := None;
            stats := StatsHashes n n existingHash newHash |}.
Proof.
  intros Hc Hs. cbv zeta.
  unfold detectDataChanges, tryBlock, compareHashes.
  rewrite Hc, equal_counts_pass, Hs.
  destruct (_ =? _)%string; reflexivity.
Qed.

(** On a storage whose count can be read.  (1) On an empty store and a
    non-empty new set the verdict is "changed" with the reason "Table is
    empty - initial seed required".  (2) With equal counts the verdict is
    "changed", by hash mismatch, exactly when the fingerprints of the
    stored sample and of the first 1000 new records differ.  (3) The
    fingerprint reads the first record, the last record and the stride
    samples only: when the stored rows and the new records (at most 1000)
    agree at those positions, whatever the other records hold, the verdict
    is "unchanged". *)
Lemma readable_store_verdicts :
  forall (Rec : Type) (stringify : Rec -> string) (db : Storage Rec)
         (tableName : string) (newRecords : list Rec),
    (forall hashData,
        currentCount Rec db tableName = Returned 0 ->
        newRecords <> [] ->
        let v := detectDataChanges Rec stringify db tableName newRecords hashData in
        hasChanges v = true
        /\ reason v = "Table is empty - initial seed required"
        /\ error v = None)
    /\ (forall existing,
        currentCount Rec db tableName = Returned (Z.of_nat (length newRecords)) ->
        currentSample Rec db tableName = Returned existing ->
        let v := detectDataChanges Rec stringify db tableName newRecords true in
        (calculateDataHash Rec stringify existing
         <> calculateDataHash Rec stringify (firstn 1000 newRecords) ->
         hasChanges v = true /\ reason v = "Data content has changed (hash mismatch)")
        /\ (calculateDataHash Rec stringify existing
            = calculateDataHash Rec stringify (firstn 1000 newRecords) ->
            hasChanges v = false))
    /\ (forall existing,
        currentCount Rec db tableName = Returned (Z.of_nat (length newRecords)) ->
        currentSample Rec db tableName = Returned existing ->
        length existing = length newRecords ->
        (length newRecords <= 1000)%nat ->
        (forall i, sampledIndex (length existing) i = true ->
                   nth_error existing i = nth_error newRecords i) ->
        hasChanges (detectDataChanges Rec stringify db tableName newRecords true) = false).
Proof.
  intros Rec stringify db tableName newRecords.
  assert (Hsecond : forall existing,
    currentCount Rec db tableName = Returned (Z.of_nat (length newRecords)) ->
    currentSample Rec db tableName = Returned existing ->
    let v := detectDataChanges Rec stringify db tableName newRecords true in
    (calculateDataHash Rec stringify existing
     <> calculateDataHash Rec stringify (firstn 1000 newRecords) ->
     hasChanges v = true /\ reason v = "Data content has changed (hash mismatch)")
    /\ (calculateDataHash Rec stringify existing
        = calculateDataHash Rec stringify (firstn 1000 newRecords) ->
        hasChanges v = false)).
  { intros existing Hc Hs v. subst v.
    rewrite (equal_counts_verdict _ _ _ _ _ _ Hc Hs). cbv zeta.
    destruct (String.eqb_spec (calculateDataHash Rec stringify existing)
                (calculateDataHash Rec stringify (firstn 1000 newRecords))) as [He|Hne].
    - split; [intros Hn; contradiction|reflexivity].
    - split; [intros _; split; reflexivity|intros He; contradiction]. }
  split; [|split].
  - intros hashData Hc Hne v. subst v.
    unfold detectDataChanges, tryBlock. rewrite Hc.
    destruct newRecords as [|r rest]; [congruence|].
    replace (0 <? Z.abs (0 - Z.of_nat (length (r :: rest)))) with true
      by (symmetry; apply Z.ltb_lt; cbn [length]; lia).
    repeat split.
  - exact Hsecond.
  - intros existing Hc Hs Hlen Hcap Hagree.
    apply (Hsecond existing Hc Hs).
    rewrite firstn_all2 by exact Hcap.
    apply fingerprint_reads_samples; assumption.
Qed.

(** On the example store: an empty store and ten new rows, and ten
    stored rows against the same ten rows. *)
Example readable_store_run :
  reason (detectDataChanges _ stringifyRow (storeOf []) "housing_buildings" (tenRows 5) true)
  = "Table is empty - initial seed required"
  /\ hasChanges
       (detectDataChanges _ stringifyRow (storeOf (tenRows 5)) "housing_buildings"
          (tenRows 5) true)
     = false.
Proof. split; vm_compute; reflexivity. Qed.

(** On a readable store a change goes unseen when it is at no sampled
    position: the stored rows and the new rows have the same count and
    differ in one field of the row at index 1 (the samples of ten rows are
    0, 2, 4, 6, 8), and the detector reports no change. *)
Example unsampled_change_goes_undetected :
  length (tenRows 5) = length (tenRows 6)
  /\ nth 1 (tenRows 5) [] = [("id", CellInt 1); ("units", CellInt 5)]
  /\ nth 1 (tenRows 6) [] = [("id", CellInt 1); ("units", CellInt 6)]
  /\ firstn 1 (tenRows 5) = firstn 1 (tenRows 6)
  /\ skipn 2 (tenRows 5) = skipn 2 (tenRows 6)
  /\ sampleIndices 10 = [0; 2; 4; 6; 8]%nat
  /\ calculateDataHash _ stringifyRow (tenRows 5) = "9302ae62"
  /\ calculateDataHash _ stringifyRow (tenRows 6) = "9302ae62"
  /\ detectDataChanges _ stringifyRow (storeOf (tenRows 5)) "housing_buildings"
       (tenRows 6) true
     = {| hasChanges := false;
          reason := "Data is identical to existing records";
          error := None;
          stats := StatsCounts 10 10 |}.
Proof. repeat split; vm_compute; reflexivity. Qed.

(** The count step on a database: the array result of the driver of the
    repository makes it throw. *)
Lemma array_result_throws (Rec : Type) (parseCount : JsVal -> Z) (db : Database Rec)
    (tableName : string) (rows : list JsVal) :
  selectCount Rec db tableName = Returned (RowList rows) ->
  currentCount Rec (storageOf Rec parseCount db) tableName
  = Thrown "Cannot read properties of undefined (reading '0')".
Proof. intros H. cbn. rewrite H. reflexivity. Qed.

(** C6, where the code departs from the claim.  When the counting query
    resolves to an array of rows, as it does with the driver [initDb] sets
    up, [result.rows[0]] throws before the count is read: whatever the
    table and the new records hold, and with or without hashing, the
    detector returns the verdict of its [catch] clause.  It reports a
    change, but neither by the reason "Table is empty - initial seed
    required" nor by a hash mismatch, no fingerprint being computed; and
    no data, changed or not, gets the verdict "unchanged". *)
Theorem detectDataChanges_on_array_results :
  forall (Rec : Type) (stringify : Rec -> string) (parseCount : JsVal -> Z)
         (db : Database Rec) (tableName : string) (newRecords : list Rec)
         (hashData : bool) (rows : list JsVal),
    selectCount Rec db tableName = Returned (RowList rows) ->
    detectDataChanges Rec stringify (storageOf Rec parseCount db) tableName newRecords
      hashData
    = {| hasChanges := true;
         reason := "Change detection failed - proceeding with update";
         error := Some "Cannot read properties of undefined (reading '0')";
         stats := StatsEmpty |}.
Proof.
  intros Rec stringify parseCount db tableName newRecords hashData rows Hcount.
  apply caught_verdict, tryBlock_throws. left.
  exact (array_result_throws Rec parseCount db tableName rows Hcount).
Qed.

(** C6 on the example tables behind the driver of the repository: an
    empty table and ten new rows; ten stored rows and the same ten rows.
    Behind a driver that resolves to an object with a [rows] array the
    same two calls give "Table is empty - initial seed required" and
    "unchanged". *)
Lemma detectDataChanges_on_array_results_witness :
  reason (detectDataChanges _ stringifyRow (storageOf _ parseCountOf (postgresJsTable []))
            "housing_buildings" (tenRows 5) true)
  = "Change detection failed - proceeding with update"
  /\ hasChanges
       (detectDataChanges _ stringifyRow
          (storageOf _ parseCountOf (postgresJsTable (tenRows 5)))
          "housing_buildings" (tenRows 5) true)
     = true
  /\ reason (detectDataChanges _ stringifyRow
               (storageOf _ parseCountOf (rowsObjectTable []))
               "housing_buildings" (tenRows 5) true)
     = "Table is empty - initial seed required"
  /\ hasChanges
       (detectDataChanges _ stringifyRow
          (storageOf _ parseCountOf (rowsObjectTable (tenRows 5)))
          "housing_buildings" (tenRows 5) true)
     = false.
Proof.
  split; [|split; [|split]].
  - rewrite (detectDataChanges_on_array_results _ stringifyRow parseCountOf
               (postgresJsTable []) "housing_buildings" (tenRows 5) true
               [JsString "0"]); reflexivity.
  - rewrite (detectDataChanges_on_array_results _ stringifyRow parseCountOf
               (postgresJsTable (tenRows 5)) "housing_buildings" (tenRows 5) true
               [JsString "10"]); reflexivity.
  - vm_compute. reflexivity.
  - vm_compute. reflexivity.
Defined.

(** A change at a sampled position of the same rows is reported. *)
Example sampled_change_detected :
  let newRows := firstn 2 (tenRows 5)
                 ++ [[("id", CellInt 2); ("units", CellInt 6)]] ++ skipn 3 (tenRows 5) in
  hasChanges
    (detectDataChanges _ stringifyRow (storeOf (tenRows 5)) "housing_buildings" newRows true)
  = true.
Proof. vm_compute. reflexivity. Qed.

End DetectorFacts.

(** ** Intake of the construction feed *)

Module ProcessingFacts.
Import JS Housing Processing ChangeDetector Examples.

Section Intake.

Variable parseFloatString : string -> float.
Variable parseInt10 : JsVal -> float.
Variable Math_round : float -> float.
Variable buildingLiteral : gmap string JsVal -> float -> float -> float -> float -> Building.

Let process := processRecord parseFloatString parseInt10 Math_round buildingLiteral.
Let run := processDCPHousing parseFloatString parseInt10 Math_round buildingLiteral.

(** The buildings pushed and the records skipped by a run. *)
Lemma processDCPHousing_fold (records : list (gmap string JsVal))
    (buildings : list Building) (skipped : nat) :
  fold_left (processStep parseFloatString parseInt10 Math_round buildingLiteral)
    records (buildings, skipped)
  = (buildings ++ flat_map (fun r => match process r with Some b => [b] | None => [] end) records,
     (skipped + length (List.filter (fun r => match process r with Some _ => false | None => true end)
                          records))%nat).
Proof using Type.
  revert buildings skipped.
  induction records as [|r rest IH]; intros buildings skipped; cbn [fold_left flat_map List.filter].
  - rewrite app_nil_r, Nat.add_0_r. reflexivity.
  - unfold processStep at 2. fold process. destruct (process r) as [b|]; cbn [fst snd].
    + rewrite IH, <- app_assoc. reflexivity.
    + rewrite IH. cbn [length app]. f_equal. lia.
Qed.



(** The loop with the exceptions of the literal: it throws the error of
    the first record that passes the guards and whose literal throws, and
    otherwise returns what the loop on the values returns. *)
Lemma processLoop_cases (toISOString : JsVal -> option string)
    (records : list (gmap string JsVal)) :
  forall (buildings : list Building) (skipped : nat),
    ConstructionIntake.processLoop parseFloatString parseInt10 Math_round buildingLiteral
      toISOString records buildings skipped
    = match
        List.find
          (ConstructionIntake.throwing parseFloatString parseInt10 Math_round
             buildingLiteral toISOString) records
      with
      | Some record =>
          Thrown (default "" (ConstructionIntake.literalError toISOString record))
      | None =>
          Returned
            (fold_left (processStep parseFloatString parseInt10 Math_round buildingLiteral)
               records (buildings, skipped))
      end.
Proof using Type.
  induction records as [|r rest IH]; intros buildings skipped; [reflexivity|].
  cbn [ConstructionIntake.processLoop List.find fold_left].
  unfold ConstructionIntake.processRecord, ConstructionIntake.throwing, processStep at 2.
  fold process.
  destruct (process r) as [b|]; cbn [fst snd].
  - destruct (ConstructionIntake.literalError toISOString r) as [m|] eqn:He.
    + cbv beta iota. rewrite He. reflexivity.
    + apply IH.
  - apply IH.
Qed.

(** A latitude that parses to [Infinity] passes the coordinate guard. *)
Lemma infinite_latitude_passes (record : gmap string JsVal) :
  let lat := parseFloat parseFloatString (getProp record "Latitude") in
  let lon := parseFloat parseFloatString (getProp record "Longitude") in
  let year := parseInt10 (getProp record "CompltYear") in
  let units :=
    Math_round (orElse (parseFloat parseFloatString (getProp record "ClassANet")) 0%float) in
  lat = infinity ->
  isNaN lon = false -> isZero lon = false ->
  isNaN year || lt year 2014%float || gt year 2025%float = false ->
  le units 0%float = false ->
  process record = Some (buildingLiteral record infinity lon year units).
Proof using Type.
  cbv zeta. intros Hlat Hn Hz Hy Hu. unfold process, processRecord.
  rewrite Hlat, Hn, Hz, Hy, Hu. reflexivity.
Qed.

End Intake.

(** C7, where the code departs from the claim: a record whose latitude
    parses to [Infinity] (not a finite number) and whose other fields are
    valid is not dropped; it is pushed with latitude [Infinity], although
    [validators.isValidLatitude] rejects that value. *)
Theorem infinite_latitude_is_kept :
  forall (parseFloatString : string -> float) (parseInt10 : JsVal -> float)
         (Math_round : float -> float)
         (buildingLiteral : gmap string JsVal -> float -> float -> float -> float -> Building)
         (before after : list (gmap string JsVal)) (record : gmap string JsVal),
    let lat := parseFloat parseFloatString (getProp record "Latitude") in
    let lon := parseFloat parseFloatString (getProp record "Longitude") in
    let year := parseInt10 (getProp record "CompltYear") in
    let units :=
      Math_round (orElse (parseFloat parseFloatString (getProp record "ClassANet")) 0%float) in
    lat = infinity ->
    isNaN lon = false -> isZero lon = false ->
    isNaN year || lt year 2014%float || gt year 2025%float = false ->
    le units 0%float = false ->
    isFinite lat = false
    /\ isValidLatitude lat = false
    /\ processRecord parseFloatString parseInt10 Math_round buildingLiteral record
       = Some (buildingLiteral record infinity lon year units)
    /\ In (buildingLiteral record infinity lon year units)
         (fst (processDCPHousing parseFloatString parseInt10 Math_round buildingLiteral
                 (before ++ record :: after))).
Proof.
  intros pfs pi mr bl before after record lat lon year units Hlat Hn Hz Hy Hu.
  pose proof (infinite_latitude_passes pfs pi mr bl record Hlat Hn Hz Hy Hu) as Hkept.
  rewrite Hlat. repeat split; try reflexivity; try exact Hkept.
  unfold processDCPHousing. rewrite processDCPHousing_fold. cbn [fst app].
  apply in_flat_map. exists record. split.
  - apply in_or_app. right. left. reflexivity.
  - subst lon year units. rewrite Hkept. left. reflexivity.
Qed.

(** C7 on the example feature, alone in the feed: it is kept and nothing
    is skipped. *)
Lemma infinite_latitude_is_kept_witness :
  processDCPHousing noStringParsed parseIntOfNumber roundOfIntegral plainBuilding
    [infiniteLatitudeFeature]
  = ([plainBuilding infiniteLatitudeFeature infinity (-73.75)%float 2020%float 12%float],
     0%nat)
  /\ In (plainBuilding infiniteLatitudeFeature infinity (-73.75)%float 2020%float 12%float)
       (fst (processDCPHousing noStringParsed parseIntOfNumber roundOfIntegral plainBuilding
               ([] ++ infiniteLatitudeFeature :: []))).
Proof.
  split; [vm_compute; reflexivity|].
  apply (infinite_latitude_is_kept noStringParsed parseIntOfNumber roundOfIntegral
           plainBuilding [] [] infiniteLatitudeFeature); vm_compute; reflexivity.
Defined.



(** The guard does drop a record whose latitude is missing. *)
Example missing_latitude_dropped :
  processDCPHousing noStringParsed parseIntOfNumber roundOfIntegral plainBuilding
    [missingLatitudeFeature; infiniteLatitudeFeature]
  = ([plainBuilding infiniteLatitudeFeature infinity (-73.75)%float 2020%float 12%float],
     1%nat).
Proof. vm_compute. reflexivity. Qed.

End ProcessingFacts.

(** ** Order of binary64 numbers *)

Module FloatOrderFacts.
Import JS.

Lemma SFcompare_antisym (a b : spec_float) :
  SFcompare b a = option_map CompOpp (SFcompare a b).
Proof.
  destruct a as [sa|sa| |sa ma ea], b as [sb|sb| |sb mb eb]; cbn;
    try reflexivity; try (destruct sa; reflexivity); try (destruct sb; reflexivity);
    try (destruct sa, sb; reflexivity).
  destruct sa, sb; try reflexivity.
  - rewrite (Z.compare_antisym ea eb). destruct (ea ?= eb)%Z; cbn; try reflexivity.
    f_equal. change (PosDef.Pos.compare_cont Eq) with Pos.compare.
    rewrite (Pos.compare_antisym ma mb). destruct (ma ?= mb)%positive; reflexivity.
  - rewrite (Z.compare_antisym ea eb). destruct (ea ?= eb)%Z; cbn; try reflexivity.
    f_equal. change (PosDef.Pos.compare_cont Eq) with Pos.compare.
    rewrite (Pos.compare_antisym ma mb). reflexivity.
Qed.

Lemma SFcompare_lt_trans (a b c : spec_float) :
  SFcompare a b = Some Lt -> SFcompare b c = Some Lt -> SFcompare a c = Some Lt.
Proof.
  destruct a as [sa|sa| |sa ma ea], b as [sb|sb| |sb mb eb], c as [sc|sc| |sc mc ec];
    cbn; try discriminate;
    try (destruct sa; discriminate); try (destruct sb; discriminate);
    try (destruct sc; discriminate);
    try (destruct sa, sb; discriminate); try (destruct sb, sc; discriminate);
    try (destruct sa, sc; (discriminate || reflexivity));
    try (destruct sa, sb, sc; (discriminate || reflexivity)).
  all: change (PosDef.Pos.compare_cont Eq) with Pos.compare.
  all: destruct sa, sb, sc; try discriminate; try reflexivity.
  all: destruct (Z.compare_spec ea eb), (Z.compare_spec eb ec), (Z.compare_spec ea ec);
    subst; try discriminate; try reflexivity; try lia.
  all: destruct (Pos.compare_spec ma mb), (Pos.compare_spec mb mc), (Pos.compare_spec ma mc);
    subst; cbn; try discriminate; try reflexivity; try lia.
Qed.


(** Two numbers compare unless one of them is NaN. *)
Lemma SFcompare_defined (a b : spec_float) :
  a <> S754_nan -> b <> S754_nan -> exists c, SFcompare a b = Some c.
Proof.
  destruct a, b; cbn; intros Ha Hb; try congruence; eexists; reflexivity.
Qed.

Lemma nan_spec (x : float) : isNaN x = true <-> Prim2SF x = S754_nan.
Proof.
  unfold isNaN, is_nan. rewrite FloatAxioms.eqb_spec. unfold SFeqb.
  destruct (Prim2SF x) as [s|s| |s m e] eqn:Hx; cbn.
  - split; discriminate.
  - destruct s; split; discriminate.
  - split; reflexivity.
  - change (PosDef.Pos.compare_cont Eq) with Pos.compare.
    rewrite Z.compare_refl, Pos.compare_refl. destruct s; split; discriminate.
Qed.

Lemma ltb_trans (a b c : float) :
  PrimFloat.ltb a b = true -> PrimFloat.ltb b c = true -> PrimFloat.ltb a c = true.
Proof.
  rewrite !FloatAxioms.ltb_spec. unfold SFltb. intros Hab Hbc.
  destruct (SFcompare (Prim2SF a) (Prim2SF b)) as [[| |]|] eqn:H1; try discriminate.
  destruct (SFcompare (Prim2SF b) (Prim2SF c)) as [[| |]|] eqn:H2; try discriminate.
  rewrite (SFcompare_lt_trans _ _ _ H1 H2). reflexivity.
Qed.

Lemma ltb_asym (a b : float) : PrimFloat.ltb a b = true -> PrimFloat.ltb b a = false.
Proof.
  rewrite !FloatAxioms.ltb_spec. unfold SFltb.
  rewrite (SFcompare_antisym (Prim2SF a) (Prim2SF b)).
  destruct (SFcompare (Prim2SF a) (Prim2SF b)) as [[| |]|]; cbn; congruence.
Qed.


Lemma ltb_irrefl (a : float) : PrimFloat.ltb a a = false.
Proof.
  destruct (PrimFloat.ltb a a) eqn:H; [|reflexivity].
  pose proof (ltb_asym a a H). congruence.
Qed.

Lemma leb_not_gt (a b : float) : PrimFloat.leb a b = true -> PrimFloat.ltb b a = false.
Proof.
  rewrite FloatAxioms.leb_spec, FloatAxioms.ltb_spec. unfold SFleb, SFltb.
  rewrite (SFcompare_antisym (Prim2SF a) (Prim2SF b)).
  destruct (SFcompare (Prim2SF a) (Prim2SF b)) as [[| |]|]; cbn; congruence.
Qed.

(** Outside NaN, [a < b] fails exactly when [b <= a]. *)
Lemma not_lt_leb (a b : float) :
  isNaN a = false -> isNaN b = false ->
  PrimFloat.ltb a b = false -> PrimFloat.leb b a = true.
Proof.
  intros Ha Hb. rewrite FloatAxioms.leb_spec, FloatAxioms.ltb_spec. unfold SFleb, SFltb.
  rewrite (SFcompare_antisym (Prim2SF a) (Prim2SF b)).
  destruct (SFcompare_defined (Prim2SF a) (Prim2SF b)) as [c Hc].
  - intros H. apply nan_spec in H. congruence.
  - intros H. apply nan_spec in H. congruence.
  - rewrite Hc. destruct c; cbn; congruence.
Qed.

(** NaN is below and above nothing. *)
Lemma nan_not_lt (a b : float) : isNaN a = true -> PrimFloat.ltb a b = false.
Proof.
  intros H. apply nan_spec in H. rewrite FloatAxioms.ltb_spec. unfold SFltb.
  rewrite H. reflexivity.
Qed.

Lemma nan_not_gt (a b : float) : isNaN a = true -> PrimFloat.ltb b a = false.
Proof.
  intros H. apply nan_spec in H. rewrite FloatAxioms.ltb_spec. unfold SFltb.
  rewrite H. destruct (Prim2SF b); reflexivity.
Qed.

Lemma leb_not_nan (a b : float) : PrimFloat.leb a b = true -> isNaN a = false /\ isNaN b = false.
Proof.
  rewrite FloatAxioms.leb_spec. unfold SFleb. intros H.
  split.
  - destruct (isNaN a) eqn:Ha; [|reflexivity]. apply nan_spec in Ha.
    rewrite Ha in H. discriminate.
  - destruct (isNaN b) eqn:Hb; [|reflexivity]. apply nan_spec in Hb.
    rewrite Hb in H. destruct (Prim2SF a); discriminate.
Qed.

Lemma isZero_spec (x : float) : isZero x = true -> exists s, Prim2SF x = S754_zero s.
Proof.
  unfold isZero. rewrite FloatAxioms.eqb_spec. unfold SFeqb.
  change (Prim2SF 0%float) with (S754_zero false).
  destruct (Prim2SF x) as [s|s| |s m e]; cbn; try discriminate.
  - intros _. exists s. reflexivity.
  - destruct s; discriminate.
  - destruct s; discriminate.
Qed.

(** A number at least as large as a positive one is not zero. *)
Lemma above_positive_nonzero (a x : float) :
  PrimFloat.ltb 0%float a = true -> PrimFloat.leb a x = true -> isZero x = false.
Proof.
  intros Ha Hx. destruct (isZero x) eqn:Hz; [|reflexivity].
  apply isZero_spec in Hz as [s Hs].
  rewrite FloatAxioms.ltb_spec in Ha. rewrite FloatAxioms.leb_spec in Hx.
  unfold SFltb, SFleb in *. rewrite Hs in Hx.
  change (Prim2SF 0%float) with (S754_zero false) in Ha.
  destruct (Prim2SF a) as [sa|sa| |sa ma ea]; cbn in *; try discriminate;
    destruct sa; discriminate.
Qed.

End FloatOrderFacts.

(** ** Geometry simplifier *)

Module GeometryFacts.
Import Geometry.


Section AnyArithmetic.

Context {num : Type} {A : Arith num}.

Implicit Types (points : list (@Point num)) (tolerance : num).

(** Base case: at most two points are returned as they are. *)
Lemma simplifyLine_short (fuel : nat) points tolerance :
  (length points <= 2)%nat -> simplifyLine fuel points tolerance = Some points.
Proof using Type.
  intros H. apply Nat.leb_le in H. destruct fuel; simpl; rewrite H; reflexivity.
Qed.

(** One unfolding of the recursive case. *)
Lemma simplifyLine_step (fuel : nat) points tolerance :
  (2 < length points)%nat ->
  simplifyLine (S fuel) points tolerance
  = let p1 := at_ points 0 in
    let p2 := at_ points (length points - 1) in
    let len := lineLength p1 p2 in
    if n_eq len n_zero then Some [p1]
    else
      let '(maxDist, maxIndex) := farthest points p1 p2 len in
      if n_gt maxDist tolerance then
        match simplifyLine fuel (firstn (maxIndex + 1) points) tolerance with
        | Some leftPart =>
            match simplifyLine fuel (skipn maxIndex points) tolerance with
            | Some rightPart => Some (removelast leftPart ++ rightPart)
            | None => None
            end
        | None => None
        end
      else Some [p1; p2].
Proof using Type.
  intros H. apply Nat.leb_gt in H. cbn [simplifyLine]. rewrite H. reflexivity.
Qed.

(** The scan returns its initial state or a scanned index with its distance. *)
Lemma scan_result points (p1 p2 : Point) (len : num) (indices : list nat)
    (st : num * nat) :
  fold_left (scanStep points p1 p2 len) indices st = st
  \/ (exists i, In i indices
        /\ fold_left (scanStep points p1 p2 len) indices st
           = (perpendicular p1 p2 len (at_ points i), i)).
Proof using Type.
  revert st. induction indices as [|i rest IH]; intros st; cbn [fold_left].
  - left. reflexivity.
  - destruct (IH (scanStep points p1 p2 len st i)) as [Hsame|[j [Hj Hres]]].
    + rewrite Hsame. unfold scanStep. destruct st as [d k].
      destruct (n_gt _ d).
      * right. exists i. split; [left; reflexivity|reflexivity].
      * left. reflexivity.
    + right. exists j. split; [right; exact Hj|exact Hres].
Qed.

(** The farthest index is 0 with distance zero (no interior point was
    farther than zero) or the index of an interior point. *)
Lemma farthest_result points (p1 p2 : Point) (len : num) :
  farthest points p1 p2 len = (n_zero, 0%nat)
  \/ (exists i, (1 <= i <= length points - 2)%nat
        /\ farthest points p1 p2 len = (perpendicular p1 p2 len (at_ points i), i)).
Proof using Type.
  unfold farthest.
  destruct (scan_result points p1 p2 len (seq 1 (length points - 2)) (n_zero, 0%nat))
    as [H|[i [Hi H]]].
  - left. exact H.
  - right. exists i. split; [apply in_seq in Hi; lia|exact H].
Qed.

(** When the tolerance is not negative, a recursion splits strictly
    inside the list. *)
Lemma split_index_interior points tolerance (p1 p2 : Point) (len maxDist : num)
    (maxIndex : nat) :
  n_gt n_zero tolerance = false ->
  farthest points p1 p2 len = (maxDist, maxIndex) ->
  n_gt maxDist tolerance = true ->
  (1 <= maxIndex <= length points - 2)%nat.
Proof using Type.
  intros Htol Hfar Hgt.
  destruct (farthest_result points p1 p2 len) as [H0|[i [Hi H]]].
  - rewrite H0 in Hfar. injection Hfar as <- <-. congruence.
  - rewrite H in Hfar. injection Hfar as <- <-. exact Hi.
Qed.


(** More fuel does not change a result. *)
Lemma simplifyLine_more_fuel (fuel : nat) :
  forall points tolerance out,
    simplifyLine fuel points tolerance = Some out ->
    simplifyLine (S fuel) points tolerance = Some out.
Proof using Type.
  induction fuel as [|fuel IH]; intros points tolerance out.
  - simpl. destruct (length points <=? 2)%nat; [|discriminate]. intros H. exact H.
  - destruct (Nat.le_gt_cases (length points) 2) as [Hs|Hl].
    + rewrite !simplifyLine_short by exact Hs. intros H. exact H.
    + rewrite (simplifyLine_step (S fuel)), (simplifyLine_step fuel) by exact Hl. cbv zeta.
      destruct (n_eq _ n_zero); [intros H; exact H|].
      destruct (farthest points _ _ _) as [maxDist maxIndex].
      destruct (n_gt maxDist tolerance); [|intros H; exact H].
      destruct (simplifyLine fuel (firstn (maxIndex + 1) points) tolerance)
        as [leftPart|] eqn:Hleft; [|discriminate].
      destruct (simplifyLine fuel (skipn maxIndex points) tolerance)
        as [rightPart|] eqn:Hright; [|discriminate].
      rewrite (IH _ _ _ Hleft), (IH _ _ _ Hright). intros H. exact H.
Qed.

Lemma simplifyLine_fuel_mono (fuel fuel' : nat) points tolerance out :
  (fuel <= fuel')%nat ->
  simplifyLine fuel points tolerance = Some out ->
  simplifyLine fuel' points tolerance = Some out.
Proof using Type.
  intros Hle H. induction Hle as [|m Hle IH]; [exact H|].
  apply simplifyLine_more_fuel. exact IH.
Qed.

(** With a tolerance that is not negative the recursion ends: a call
    stack as deep as the list is long is enough. *)
Lemma simplifyLine_returns_within (fuel : nat) :
  forall points tolerance,
    n_gt n_zero tolerance = false ->
    (length points <= fuel + 2)%nat ->
    exists out, simplifyLine fuel points tolerance = Some out.
Proof using Type.
  induction fuel as [|fuel IH]; intros points tolerance Htol Hlen.
  - exists points. apply simplifyLine_short. lia.
  - destruct (Nat.le_gt_cases (length points) 2) as [Hs|Hl].
    + exists points. apply simplifyLine_short. exact Hs.
    + rewrite simplifyLine_step by exact Hl. cbv zeta.
      destruct (n_eq _ n_zero); [eexists; reflexivity|].
      destruct (farthest points _ _ _) as [maxDist maxIndex] eqn:Hfar.
      destruct (n_gt maxDist tolerance) eqn:Hgt; [|eexists; reflexivity].
      pose proof (split_index_interior _ _ _ _ _ _ _ Htol Hfar Hgt) as Hi.
      destruct (IH (firstn (maxIndex + 1) points) tolerance Htol) as [leftPart Hleft].
      { rewrite length_firstn. lia. }
      destruct (IH (skipn maxIndex points) tolerance Htol) as [rightPart Hright].
      { rewrite length_skipn. lia. }
      rewrite Hleft, Hright. eexists. reflexivity.
Qed.

Lemma simplifyLine_returns points tolerance :
  n_gt n_zero tolerance = false ->
  exists out, simplifyLine (length points) points tolerance = Some out.
Proof using Type.
  intros Htol. apply simplifyLine_returns_within; [exact Htol|lia].
Qed.

(** Coincident endpoints, as the code tests them. *)
Lemma zero_length_collapses (fuel : nat) points tolerance :
  (2 < length points)%nat ->
  n_eq (lineLength (at_ points 0) (at_ points (length points - 1))) n_zero = true ->
  simplifyLine (S fuel) points tolerance = Some [at_ points 0].
Proof using Type.
  intros Hl Hz. rewrite simplifyLine_step by exact Hl. cbv zeta. rewrite Hz. reflexivity.
Qed.


End AnyArithmetic.

End GeometryFacts.

(** *** Binary64 *)

Module FloatGeometryFacts.
Import Geometry GeometryFacts Examples.

Lemma finite_or_zero (x : float) :
  finiteCoordinate x = true ->
  (exists s, Prim2SF x = S754_zero s) \/ (exists s m e, Prim2SF x = S754_finite s m e).
Proof.
  unfold finiteCoordinate, is_nan, is_infinity.
  rewrite !FloatAxioms.eqb_spec, FloatAxioms.abs_spec.
  change (Prim2SF infinity) with (S754_infinity false).
  destruct (Prim2SF x) as [s|s| |s m e]; intros H.
  - left. exists s. reflexivity.
  - destruct s; discriminate H.
  - discriminate H.
  - right. exists s, m, e. reflexivity.
Qed.

(** [x - x] is [+0] for every finite [x]. *)
Lemma float_sub_self (x : float) :
  finiteCoordinate x = true -> (x - x)%float = 0%float.
Proof.
  intros Hf. rewrite <- (SF2Prim_Prim2SF (x - x)), FloatAxioms.sub_spec.
  destruct (finite_or_zero x Hf) as [[s H]|[s [m [e H]]]]; rewrite H.
  - destruct s; reflexivity.
  - unfold SF64sub, SFsub. rewrite Z.min_id, Z.sub_diag. reflexivity.
Qed.

(** Identical finite endpoints give a zero-length baseline. *)
Lemma float_coincident_length (x y : float) :
  finiteCoordinate x = true -> finiteCoordinate y = true ->
  n_eq (lineLength (x, y) (x, y)) n_zero = true.
Proof.
  intros Hx Hy. unfold lineLength. cbn [n_eq n_sqrt n_add n_sq n_sub n_zero float_arith].
  rewrite (float_sub_self x Hx), (float_sub_self y Hy). reflexivity.
Qed.

(** With tolerance -1 the scan of three collinear points ends at index 0
    and the second recursive call receives the whole list again. *)
Lemma collinear_split :
  farthest collinearPoints (at_ collinearPoints 0) (at_ collinearPoints 2)
    (lineLength (at_ collinearPoints 0) (at_ collinearPoints 2))
  = (0%float, 0%nat)
  /\ n_eq (lineLength (at_ collinearPoints 0) (at_ collinearPoints 2)) n_zero = false
  /\ n_gt 0%float (-1)%float = true
  /\ firstn (0 + 1) collinearPoints = [(0, 0)%float]
  /\ skipn 0 collinearPoints = collinearPoints.
Proof. repeat split; vm_compute; reflexivity. Qed.

Lemma collinear_diverges (fuel : nat) :
  simplifyLine fuel collinearPoints (-1)%float = None.
Proof.
  induction fuel as [|fuel IH]; [reflexivity|].
  destruct collinear_split as (Hfar & Hlen & Hgt & _ & _).
  rewrite simplifyLine_step by (vm_compute; lia). cbv zeta.
  change (length collinearPoints - 1)%nat with 2%nat.
  rewrite Hlen, Hfar. cbv beta iota. rewrite Hgt.
  unfold collinearPoints in *. cbn [firstn skipn Nat.add]. rewrite IH.
  match goal with |- match ?call with _ => _ end = _ => destruct call end; reflexivity.
Qed.

End FloatGeometryFacts.

(** *** Square rings on binary64 *)

Module SquareFacts.
Import Geometry GeometryFacts FloatOrderFacts.







End SquareFacts.

(** *** The simplifier, claim by claim *)

Module SimplifierFacts.
Import Geometry GeometryFacts FloatGeometryFacts SquareFacts Examples.




(** C9, as the code has it: for every tolerance that is not negative, a
    recursion splits at an index strictly between the endpoints, both
    sub-lists are strictly shorter than the list, and the function returns
    with a call stack no deeper than the list is long. *)
Theorem simplifyLine_terminates :
  forall (num : Type) (A : Arith num) (points : list (num * num)) (tolerance : num),
    n_gt n_zero tolerance = false ->
    (forall maxDist maxIndex,
        farthest points (at_ points 0) (at_ points (length points - 1))
          (lineLength (at_ points 0) (at_ points (length points - 1)))
        = (maxDist, maxIndex) ->
        n_gt maxDist tolerance = true ->
        (1 <= maxIndex <= length points - 2)%nat
        /\ (length (firstn (maxIndex + 1) points) < length points)%nat
        /\ (length (skipn maxIndex points) < length points)%nat)
    /\ (exists out, forall fuel, (length points <= fuel)%nat ->
                                 simplifyLine fuel points tolerance = Some out).
Proof.
  intros num A points tolerance Htol. split.
  - intros maxDist maxIndex Hfar Hgt.
    pose proof (split_index_interior _ _ _ _ _ _ _ Htol Hfar Hgt) as Hi.
    rewrite length_firstn, length_skipn. unfold Point in *. lia.
  - destruct (simplifyLine_returns points tolerance Htol) as [out Hout].
    exists out. intros fuel Hfuel. exact (simplifyLine_fuel_mono _ _ _ _ _ Hfuel Hout).
Qed.

(** C9 on the zigzag with tolerance one half. *)
Lemma simplifyLine_terminates_witness :
  exists out, forall fuel, (length zigzag <= fuel)%nat ->
                           simplifyLine fuel zigzag 0.5%float = Some out.
Proof.
  apply (simplifyLine_terminates float float_arith zigzag 0.5%float).
  vm_compute. reflexivity.
Defined.

(** C9, the stated guarantee fails: under tolerance -1 the scan of three
    collinear points stops at index 0, which is an endpoint; the second
    recursive call receives a list as long as the input, and no depth of
    the call stack is enough. *)
Lemma negative_tolerance_never_returns :
  farthest collinearPoints (at_ collinearPoints 0) (at_ collinearPoints 2)
    (lineLength (at_ collinearPoints 0) (at_ collinearPoints 2))
  = (0%float, 0%nat)
  /\ n_gt 0%float (-1)%float = true
  /\ length (skipn 0 collinearPoints) = length collinearPoints
  /\ (forall fuel, simplifyLine fuel collinearPoints (-1)%float = None).
Proof.
  destruct collinear_split as (Hfar & _ & Hgt & _ & _).
  split; [exact Hfar|]. split; [exact Hgt|]. split; [reflexivity|].
  exact collinear_diverges.
Qed.

(** Runs on binary64. *)
Example unit_square_collapses :
  simplifyLine 1 unitSquare 2%float = Some [(0, 0); (0, 1)]%float.
Proof. vm_compute. reflexivity. Qed.

Example zigzag_is_kept :
  simplifyLine 5 zigzag 0.5%float = Some zigzag.
Proof. vm_compute. reflexivity. Qed.

Example zigzag_flattened :
  simplifyLine 5 zigzag 4%float = Some [(0, 0); (4, 0)]%float.
Proof. vm_compute. reflexivity. Qed.

End SimplifierFacts.

(** ** Deduplicator *)

Module DeduplicatorFacts.
Import JS Classifier Housing Normalizer Examples.

(** *** Keys *)

Lemma append_inj_length (a b c d : string) :
  String.length a = String.length b ->
  (a ++ c)%string = (b ++ d)%string -> a = b /\ c = d.
Proof.
  revert b. induction a as [|x a IH]; intros [|y b] Hlen; try discriminate.
  - intros H. split; [reflexivity|exact H].
  - injection Hlen as Hlen. change (String x a ++ c)%string with (String x (a ++ c)).
    change (String y b ++ d)%string with (String y (b ++ d)).
    intros [= -> H]. destruct (IH b Hlen H) as [-> ->]. split; reflexivity.
Qed.

Lemma showZ_inj (y y' : Z) : showZ y = showZ y' -> y = y'.
Proof.
  unfold showZ. intros H.
  apply DecimalZ.to_int_inj.
  pose proof (DecimalString.NilEmpty.isi (Z.to_int y)) as H1.
  pose proof (DecimalString.NilEmpty.isi (Z.to_int y')) as H2.
  rewrite H in H1. congruence.
Qed.

(** On ten-character identifiers the key determines identifier and year. *)
Lemma groupKey_inj (p q : string) (y y' : Z) :
  String.length p = String.length q ->
  groupKey p y = groupKey q y' -> p = q /\ y = y'.
Proof.
  unfold groupKey. intros Hlen H.
  destruct (append_inj_length _ _ _ _ Hlen H) as [-> Hrest].
  split; [reflexivity|].
  change ("-" ++ showZ y)%string with (String "-" (showZ y)) in Hrest.
  change ("-" ++ showZ y')%string with (String "-" (showZ y')) in Hrest.
  injection Hrest as Hrest. apply showZ_inj. exact Hrest.
Qed.

Lemma invariant_some (b : Building) (p : string) :
  bblInvariant b = true -> bbl b = Some p -> String.length p = 10%nat /\ lacksBbl b = false.
Proof.
  unfold bblInvariant, lacksBbl, isTenDigits. intros Hinv Hp. rewrite Hp in *.
  apply andb_true_iff in Hinv as [Hlen _]. apply Nat.eqb_eq in Hlen.
  split; [exact Hlen|]. destruct p; [discriminate|reflexivity].
Qed.

Lemma lacksBbl_inGroup (b : Building) (p : string) (y : Z) :
  bblInvariant b = true -> inGroup p y b = true -> lacksBbl b = false.
Proof.
  unfold inGroup. intros Hinv H. destruct (bbl b) as [q|] eqn:Hq; [|discriminate].
  apply (invariant_some b q Hinv Hq).
Qed.

(** Under the invariant, being filed under the key of ([p], [y]) is being
    in the group of ([p], [y]). *)
Lemma filed_iff_inGroup (b : Building) (p : string) (y : Z) :
  bblInvariant b = true -> String.length p = 10%nat ->
  negb (lacksBbl b) && (keyOf b =? groupKey p y)%string = inGroup p y b.
Proof.
  intros Hinv Hp. unfold keyOf, inGroup.
  destruct (bbl b) as [q|] eqn:Hq.
  - destruct (invariant_some b q Hinv Hq) as [Hlen Hl]. rewrite Hl. cbn [negb andb].
    destruct (String.eqb_spec (groupKey q (completionYear b)) (groupKey p y)) as [He|Hne].
    + destruct (groupKey_inj q p _ _ ltac:(congruence) He) as [H1 H2].
      rewrite H1, H2, String.eqb_refl, Z.eqb_refl. reflexivity.
    + symmetry. apply andb_false_iff.
      destruct (String.eqb_spec q p) as [->|]; [|left; reflexivity].
      right. apply Z.eqb_neq. intros Hy. apply Hne. rewrite Hy. reflexivity.
  - unfold lacksBbl. rewrite Hq. reflexivity.
Qed.

(** *** The tie-break is a total preorder and [reduce] finds a maximum *)

Lemma ascii_compare_trans (a b c : ascii) (r : comparison) :
  Ascii.compare a b = r -> Ascii.compare b c = r -> Ascii.compare a c = r.
Proof.
  unfold Ascii.compare. destruct r; intros H1 H2.
  - apply N.compare_eq_iff in H1. apply N.compare_eq_iff in H2.
    apply N.compare_eq_iff. congruence.
  - exact (N.lt_trans _ _ _ H1 H2).
  - apply N.compare_gt_iff in H1. apply N.compare_gt_iff in H2.
    apply N.compare_gt_iff. exact (N.lt_trans _ _ _ H2 H1).
Qed.

Lemma string_leb_refl (s : string) : String.leb s s = true.
Proof.
  unfold String.leb. replace (String.compare s s) with Eq; [reflexivity|].
  induction s as [|c s IH]; [reflexivity|]. simpl.
  unfold Ascii.compare. rewrite N.compare_refl. exact IH.
Qed.

Lemma string_leb_trans (a b c : string) :
  String.leb a b = true -> String.leb b c = true -> String.leb a c = true.
Proof.
  unfold String.leb. revert b c.
  induction a as [|x a IH]; intros [|y b] [|z c]; simpl; try reflexivity; try discriminate.
  destruct (Ascii.compare x y) eqn:Hxy; try discriminate;
    destruct (Ascii.compare y z) eqn:Hyz; try discriminate; intros H1 H2.
  - rewrite (ascii_compare_trans x y z Eq Hxy Hyz). exact (IH b c H1 H2).
  - apply Ascii.compare_eq_iff in Hxy. subst y. rewrite Hyz. reflexivity.
  - apply Ascii.compare_eq_iff in Hyz. subst z. rewrite Hxy. reflexivity.
  - rewrite (ascii_compare_trans x y z Lt Hxy Hyz). reflexivity.
Qed.

Lemma string_not_ltb_leb (a b : string) : String.ltb a b = false -> String.leb b a = true.
Proof.
  unfold String.ltb, String.leb. rewrite (String.compare_antisym b a).
  destruct (String.compare a b); simpl; congruence.
Qed.

Lemma string_ltb_leb (a b : string) : String.ltb a b = true -> String.leb a b = true.
Proof.
  unfold String.ltb, String.leb. destruct (String.compare a b); congruence.
Qed.

Lemma noBetter_refl (a : Building) : noBetter a a.
Proof.
  right. split; [reflexivity|]. right. split; [reflexivity|apply string_leb_refl].
Qed.

Lemma noBetter_trans (a b c : Building) : noBetter a b -> noBetter b c -> noBetter a c.
Proof.
  unfold noBetter.
  intros [Hab|[Hab Hab']] [Hbc|[Hbc Hbc']]; try (left; lia).
  right. split; [lia|].
  destruct Hab' as [[Ha Hb]|[Hab' Hjab]], Hbc' as [[Hb' Hc]|[Hbc' Hjbc]].
  - congruence.
  - left. split; congruence.
  - left. split; congruence.
  - right. split; [congruence|]. eapply string_leb_trans; eassumption.
Qed.

(** The two outcomes of a comparison in the callback. *)
Local Ltac keeps_best :=
  repeat split; [left; reflexivity | apply noBetter_refl | ].

Local Ltac takes_current :=
  repeat split; [right; reflexivity | | apply noBetter_refl].

Local Ltac tied_on tie :=
  right; split; [congruence|]; right; split; [congruence|apply tie; assumption].

(** The callback returns one of its arguments, and none of them beats it. *)
Lemma preferBuilding_choice (best current : Building) :
  (preferBuilding best current = best \/ preferBuilding best current = current)
  /\ noBetter best (preferBuilding best current)
  /\ noBetter current (preferBuilding best current).
Proof.
  unfold preferBuilding.
  destruct (totalUnits best <? totalUnits current) eqn:H1.
  { apply Z.ltb_lt in H1. takes_current. left. exact H1. }
  destruct (totalUnits current <? totalUnits best) eqn:H2.
  { apply Z.ltb_lt in H2. keeps_best. left. exact H2. }
  apply Z.ltb_ge in H1, H2.
  assert (Hu : totalUnits best = totalUnits current) by lia.
  destruct (hasAffordableOverlay current) eqn:Hc, (hasAffordableOverlay best) eqn:Hb;
    cbn [andb negb].
  - destruct (String.ltb (jobNumber best) (jobNumber current)) eqn:Hj.
    + takes_current. tied_on string_ltb_leb.
    + keeps_best. tied_on string_not_ltb_leb.
  - takes_current. right. split; [exact Hu|]. left. split; assumption.
  - keeps_best. right. split; [congruence|]. left. split; assumption.
  - destruct (String.ltb (jobNumber best) (jobNumber current)) eqn:Hj.
    + takes_current. tied_on string_ltb_leb.
    + keeps_best. tied_on string_not_ltb_leb.
Qed.

Lemma fold_prefer_maximal (rest : list Building) :
  forall first,
    In (fold_left preferBuilding rest first) (first :: rest)
    /\ (forall x, In x (first :: rest) -> noBetter x (fold_left preferBuilding rest first)).
Proof.
  induction rest as [|current rest IH]; intros first; cbn [fold_left].
  - split; [left; reflexivity|]. intros x [<-|[]]. apply noBetter_refl.
  - destruct (IH (preferBuilding first current)) as [Hin Hmax].
    destruct (preferBuilding_choice first current) as (Hchoice & Hfirst & Hcurrent).
    split.
    + destruct Hin as [Hin|Hin]; [|right; right; exact Hin].
      rewrite <- Hin. destruct Hchoice as [-> | ->]; [left|right; left]; reflexivity.
    + intros x [<-|[<-|Hx]].
      * eapply noBetter_trans; [exact Hfirst|]. apply Hmax. left. reflexivity.
      * eapply noBetter_trans; [exact Hcurrent|]. apply Hmax. left. reflexivity.
      * apply Hmax. right. exact Hx.
Qed.

(** [reduce] on a non-empty group returns a member that no member beats. *)
Lemma reduceBest_maximal (group : list Building) :
  group <> [] ->
  exists best, reduceBest group = Some best
               /\ In best group
               /\ (forall x, In x group -> noBetter x best).
Proof.
  destruct group as [|first rest]; [congruence|]. intros _.
  exists (fold_left preferBuilding rest first).
  destruct (fold_prefer_maximal rest first) as [Hin Hmax].
  split; [reflexivity|]. split; assumption.
Qed.

(** *** Grouping *)

Lemma groupStep_cases (U : list Building) (G : list (string * list Building))
    (b : Building) :
  groupStep (U, G) b
  = if lacksBbl b then (U ++ [b], G) else (U, pushToGroup (keyOf b) b G).
Proof.
  unfold groupStep, keyOf, lacksBbl.
  destruct (bbl b) as [p|]; [destruct (p =? "")%string|]; reflexivity.
Qed.

Lemma grouping_unique (bs : list Building) :
  forall U G, fst (fold_left groupStep bs (U, G)) = U ++ List.filter lacksBbl bs.
Proof.
  induction bs as [|b bs IH]; intros U G; cbn [fold_left List.filter].
  - rewrite app_nil_r. reflexivity.
  - rewrite groupStep_cases. destruct (lacksBbl b); rewrite IH.
    + rewrite <- app_assoc. reflexivity.
    + reflexivity.
Qed.

Lemma groupOf_push (k k' : string) (b : Building) (G : list (string * list Building)) :
  groupOf k (pushToGroup k' b G)
  = if (k' =? k)%string then groupOf k G ++ [b] else groupOf k G.
Proof.
  induction G as [|[k0 g0] rest IH]; cbn [pushToGroup groupOf].
  - destruct (k' =? k)%string; reflexivity.
  - destruct (String.eqb_spec k0 k') as [->|Hne]; cbn [groupOf].
    + destruct (k' =? k)%string; reflexivity.
    + rewrite IH. destruct (String.eqb_spec k0 k) as [->|Hne'].
      * destruct (String.eqb_spec k' k) as [->|_]; [contradiction|reflexivity].
      * reflexivity.
Qed.

Lemma grouping_groupOf (bs : list Building) (k : string) :
  forall U G,
    groupOf k (snd (fold_left groupStep bs (U, G)))
    = groupOf k G
      ++ List.filter (fun b => negb (lacksBbl b) && (keyOf b =? k)%string) bs.
Proof.
  induction bs as [|b bs IH]; intros U G; cbn [fold_left List.filter].
  - rewrite app_nil_r. reflexivity.
  - rewrite groupStep_cases. destruct (lacksBbl b); rewrite IH; cbn [negb andb].
    + reflexivity.
    + rewrite groupOf_push. destruct (keyOf b =? k)%string.
      * rewrite <- app_assoc. reflexivity.
      * reflexivity.
Qed.

Lemma push_keys (k k' : string) (b : Building) (G : list (string * list Building)) :
  In k' (map fst (pushToGroup k b G)) <-> k' = k \/ In k' (map fst G).
Proof.
  induction G as [|[k0 g0] rest IH]; cbn [pushToGroup map fst In].
  - intuition.
  - destruct (String.eqb_spec k0 k) as [->|Hne]; cbn [map fst In].
    + intuition.
    + rewrite IH. intuition.
Qed.

Lemma push_distinct (k : string) (b : Building) (G : list (string * list Building)) :
  distinctKeys G -> distinctKeys (pushToGroup k b G).
Proof.
  induction G as [|[k0 g0] rest IH]; cbn [pushToGroup distinctKeys].
  - intros _. split; [intros []|exact I].
  - intros [Hk0 Hrest]. destruct (String.eqb_spec k0 k) as [->|Hne]; cbn [distinctKeys].
    + split; assumption.
    + split; [|exact (IH Hrest)]. rewrite push_keys. intros [->|Hin]; contradiction.
Qed.

Lemma push_nonempty (k : string) (b : Building) (G : list (string * list Building)) :
  Forall (fun kg => snd kg <> []) G -> Forall (fun kg => snd kg <> []) (pushToGroup k b G).
Proof.
  induction G as [|[k0 g0] rest IH]; cbn [pushToGroup]; intros H.
  - constructor; [discriminate|constructor].
  - inversion H as [|? ? Hg Hrest]; subst.
    destruct (k0 =? k)%string; constructor; cbn [snd] in *.
    + destruct g0; discriminate.
    + exact Hrest.
    + exact Hg.
    + exact (IH Hrest).
Qed.

Lemma grouping_wellformed (bs : list Building) :
  forall U G,
    distinctKeys G -> Forall (fun kg => snd kg <> []) G ->
    distinctKeys (snd (fold_left groupStep bs (U, G)))
    /\ Forall (fun kg => snd kg <> []) (snd (fold_left groupStep bs (U, G))).
Proof.
  induction bs as [|b bs IH]; intros U G Hd Hn; cbn [fold_left].
  - split; assumption.
  - rewrite groupStep_cases. destruct (lacksBbl b).
    + apply IH; assumption.
    + apply IH; [apply push_distinct|apply push_nonempty]; assumption.
Qed.

Lemma groupOf_member (G : list (string * list Building)) (k : string) (g : list Building) :
  distinctKeys G -> In (k, g) G -> groupOf k G = g.
Proof.
  induction G as [|[k0 g0] rest IH]; cbn [distinctKeys groupOf In]; [tauto|].
  intros [Hk0 Hrest] Hin. destruct Hin as [Heq|Hin].
  - injection Heq as -> ->. rewrite String.eqb_refl. reflexivity.
  - destruct (String.eqb_spec k0 k) as [->|_]; [|exact (IH Hrest Hin)].
    exfalso. apply Hk0. apply in_map_iff. exists (k, g). split; [reflexivity|exact Hin].
Qed.

Lemma groupOf_key (G : list (string * list Building)) (k : string) :
  groupOf k G <> [] -> In k (map fst G).
Proof.
  induction G as [|[k0 g0] rest IH]; cbn [groupOf map fst In]; [congruence|].
  destruct (String.eqb_spec k0 k) as [->|_]; [left; reflexivity|].
  intros H. right. exact (IH H).
Qed.

(** *** The second loop *)

Lemma emitGroups_survivors (G : list (string * list Building)) :
  Forall (fun kg => snd kg <> []) G ->
  forall U, exists S,
    emitGroups U G = Some (U ++ S)
    /\ Forall2 (fun kg s => reduceBest (snd kg) = Some s) G S.
Proof.
  induction G as [|[k g] rest IH]; intros Hn U.
  - exists []. split; [rewrite app_nil_r; reflexivity|constructor].
  - inversion Hn as [|? ? Hg Hrest]; subst. cbn [snd] in Hg.
    destruct g as [|first others]; [congruence|].
    destruct (IH Hrest (U ++ [fold_left preferBuilding others first])) as [S [HS HF]].
    exists (fold_left preferBuilding others first :: S). split.
    + cbn [emitGroups]. destruct others as [|second others'].
      * cbn [fold_left] in HS. rewrite HS, <- app_assoc. reflexivity.
      * cbn [reduceBest]. rewrite HS, <- app_assoc. reflexivity.
    + constructor; [reflexivity|exact HF].
Qed.

Lemma filter_none {X : Type} (P : X -> bool) (l : list X) :
  (forall x, In x l -> P x = false) -> List.filter P l = [].
Proof.
  induction l as [|x l IH]; intros H; cbn [List.filter]; [reflexivity|].
  rewrite (H x (or_introl eq_refl)). apply IH. intros y Hy. apply H. right. exact Hy.
Qed.

Lemma filter_twice {X : Type} (P : X -> bool) (l : list X) :
  List.filter P (List.filter P l) = List.filter P l.
Proof.
  induction l as [|x l IH]; cbn [List.filter]; [reflexivity|].
  destruct (P x) eqn:Hx; cbn [List.filter]; [rewrite Hx, IH|rewrite IH]; reflexivity.
Qed.

Lemma no_survivor_of_absent_key (P : Building -> bool) (k0 : string)
    (G : list (string * list Building)) (S : list Building) :
  Forall2 (fun kg s => reduceBest (snd kg) = Some s) G S ->
  (forall kg s, In kg G -> reduceBest (snd kg) = Some s -> P s = (fst kg =? k0)%string) ->
  ~ In k0 (map fst G) ->
  List.filter P S = [].
Proof.
  intros HF. induction HF as [|[k g] s G' S' Hs HF IH]; intros HP Hout; [reflexivity|].
  cbn [List.filter map fst In] in *.
  rewrite (HP (k, g) s (or_introl eq_refl) Hs). cbn [fst].
  destruct (String.eqb_spec k k0) as [->|Hne]; [exfalso; apply Hout; left; reflexivity|].
  apply IH; [|tauto]. intros kg s' Hkg. apply HP. right. exact Hkg.
Qed.

(** Among the survivors, those of the key [k0] are one record. *)
Lemma one_survivor_per_key (P : Building -> bool) (k0 : string)
    (G : list (string * list Building)) (S : list Building) :
  Forall2 (fun kg s => reduceBest (snd kg) = Some s) G S ->
  distinctKeys G ->
  (forall kg s, In kg G -> reduceBest (snd kg) = Some s -> P s = (fst kg =? k0)%string) ->
  In k0 (map fst G) ->
  exists g0 s0, In (k0, g0) G /\ reduceBest g0 = Some s0 /\ List.filter P S = [s0].
Proof.
  intros HF. induction HF as [|[k g] s G' S' Hs HF IH]; intros Hd HP Hin.
  - destruct Hin.
  - cbn [distinctKeys] in Hd. destruct Hd as [Hk Hd].
    pose proof (HP (k, g) s (or_introl eq_refl) Hs) as HPs. cbn [fst snd] in *.
    assert (HP' : forall kg s', In kg G' -> reduceBest (snd kg) = Some s' ->
                                P s' = (fst kg =? k0)%string).
    { intros kg s' Hkg. apply HP. right. exact Hkg. }
    cbn [List.filter]. rewrite HPs.
    destruct (String.eqb_spec k k0) as [->|Hne].
    + exists g, s. split; [left; reflexivity|]. split; [exact Hs|].
      f_equal. exact (no_survivor_of_absent_key P k0 G' S' HF HP' Hk).
    + cbn [map fst In] in Hin. destruct Hin as [Heq|Hin]; [congruence|].
      destruct (IH Hd HP' Hin) as (g0 & s0 & Hg0 & Hs0 & Hfilter).
      exists g0, s0. split; [right; exact Hg0|]. split; assumption.
Qed.

Lemma survivor_has_group (G : list (string * list Building)) (S : list Building)
    (s : Building) :
  Forall2 (fun kg s => reduceBest (snd kg) = Some s) G S ->
  In s S -> exists kg, In kg G /\ reduceBest (snd kg) = Some s.
Proof.
  intros HF. induction HF as [|kg s' G' S' Hs HF IH]; intros Hin; [destruct Hin|].
  destruct Hin as [<-|Hin].
  - exists kg. split; [left; reflexivity|exact Hs].
  - destruct (IH Hin) as [kg' [Hkg' Hs']]. exists kg'. split; [right; exact Hkg'|exact Hs'].
Qed.

(** A survivor is an input record filed under the key of its group. *)
Lemma survivor_is_filed (bs : list Building) (kg : string * list Building) (s : Building) :
  let G := snd (fold_left groupStep bs ([], [])) in
  distinctKeys G -> In kg G -> reduceBest (snd kg) = Some s ->
  In s bs /\ lacksBbl s = false /\ keyOf s = fst kg.
Proof.
  cbv zeta. intros Hd Hkg Hs. destruct kg as [k g]. cbn [fst snd] in *.
  pose proof (groupOf_member _ k g Hd Hkg) as Hg.
  rewrite grouping_groupOf in Hg. cbn [groupOf app] in Hg.
  assert (Hin : In s g).
  { destruct g as [|first rest]; [discriminate|].
    injection Hs as <-. apply (fold_prefer_maximal rest first). }
  rewrite <- Hg in Hin. apply filter_In in Hin as [Hin Hfiled].
  apply andb_true_iff in Hfiled as [Hl Hk].
  apply negb_true_iff in Hl. apply String.eqb_eq in Hk.
  split; [exact Hin|]. split; assumption.
Qed.

(** C1: on construction records whose identifier, when present, is ten
    digits, the deduplicator returns; the records lacking an identifier
    are in the output as they were, in their order; and for each
    (identifier, year) key of a record with an identifier the output holds
    exactly one record of that key, which is a member of the key's group
    that no member beats under the tie-break: more units, then an
    affordability overlay, then the greater job identifier. *)
Theorem deduplicateBuildings_one_survivor :
  forall buildings : list Building,
    Forall (fun b => bblInvariant b = true) buildings ->
    exists out,
      deduplicateBuildings buildings = Some out
      /\ List.filter lacksBbl out = List.filter lacksBbl buildings
      /\ (forall r, In r buildings -> bbl r = None -> In r out)
      /\ (forall r p, In r buildings -> bbl r = Some p ->
            exists survivor,
              List.filter (inGroup p (completionYear r)) out = [survivor]
              /\ In survivor (List.filter (inGroup p (completionYear r)) buildings)
              /\ (forall x, In x (List.filter (inGroup p (completionYear r)) buildings) ->
                            noBetter x survivor)).
Proof.
  intros bs Hinv. rewrite List.Forall_forall in Hinv. unfold deduplicateBuildings.
  pose proof (grouping_unique bs [] []) as HU.
  pose proof (fun k => grouping_groupOf bs k [] []) as HG.
  destruct (grouping_wellformed bs [] [] I (List.Forall_nil _)) as [Hd Hn].
  pose proof (fun kg s => survivor_is_filed bs kg s Hd) as Hfiled.
  destruct (fold_left groupStep bs ([], [])) as [U G]. cbn [fst snd app groupOf] in *.
  destruct (emitGroups_survivors G Hn U) as [S [Hemit HF]].
  exists (U ++ S). split; [exact Hemit|].
  assert (Hpass : List.filter lacksBbl (U ++ S) = List.filter lacksBbl bs).
  { rewrite List.filter_app, HU, filter_twice.
    rewrite (filter_none lacksBbl S); [apply app_nil_r|].
    intros s Hs. destruct (survivor_has_group G S s HF Hs) as [kg [Hkg Hbest]].
    apply (Hfiled kg s Hkg Hbest). }
  split; [exact Hpass|]. split.
  { intros r Hr Hnone.
    assert (Hin : In r (List.filter lacksBbl (U ++ S))).
    { rewrite Hpass. apply filter_In. split; [exact Hr|].
      unfold lacksBbl. rewrite Hnone. reflexivity. }
    apply filter_In in Hin. apply Hin. }
  intros r p Hr Hp.
  destruct (invariant_some r p (Hinv r Hr) Hp) as [Hlen Hlr].
  set (y := completionYear r). set (k0 := groupKey p y).
  assert (Hgroup : groupOf k0 G = List.filter (inGroup p y) bs).
  { rewrite HG. apply filter_ext_in. intros b Hb.
    apply filed_iff_inGroup; [exact (Hinv b Hb)|exact Hlen]. }
  assert (Hkey : In k0 (map fst G)).
  { apply groupOf_key. rewrite Hgroup. intros Hempty.
    assert (Hin : In r (List.filter (inGroup p y) bs)).
    { apply filter_In. split; [exact Hr|]. unfold inGroup. rewrite Hp.
      rewrite String.eqb_refl. apply Z.eqb_refl. }
    rewrite Hempty in Hin. destruct Hin. }
  destruct (one_survivor_per_key (inGroup p y) k0 G S HF Hd) as (g0 & s0 & Hg0 & Hs0 & Hone).
  { intros kg s Hkg Hbest. destruct (Hfiled kg s Hkg Hbest) as (Hs & Hl & Hk).
    rewrite <- (filed_iff_inGroup s p y (Hinv s Hs) Hlen), Hl, Hk. reflexivity. }
  { exact Hkey. }
  pose proof (groupOf_member G k0 g0 Hd Hg0) as Hg0'. rewrite Hgroup in Hg0'.
  exists s0. split.
  - rewrite List.filter_app, Hone, HU.
    rewrite (filter_none (inGroup p y)); [reflexivity|].
    intros x Hx. apply filter_In in Hx as [Hx Hlx].
    destruct (inGroup p y x) eqn:Hgx; [|reflexivity].
    rewrite (lacksBbl_inGroup x p y (Hinv x Hx) Hgx) in Hlx. discriminate.
  - rewrite Hg0'.
    destruct (reduceBest_maximal g0) as (best & Hbest & Hin & Hmax).
    { intros ->. discriminate. }
    rewrite Hs0 in Hbest. injection Hbest as <-. split; assumption.
Qed.

(** C1 on the scenario. *)
Lemma deduplicateBuildings_one_survivor_witness :
  exists out,
    deduplicateBuildings scenario = Some out
    /\ List.filter lacksBbl out = List.filter lacksBbl scenario.
Proof.
  destruct (deduplicateBuildings_one_survivor scenario) as (out & Hout & Hpass & _).
  - repeat constructor.
  - exists out. split; assumption.
Defined.

(** The scenario run: the record without identifier first, then one
    survivor per key in the order the keys were first met; of the two jobs
    on parcel 1000123456 completed in 2020 the 45-unit job with the overlay
    survives. *)
Example scenario_deduplicated :
  deduplicateBuildings scenario
  = Some [ construction "J050" None 2020 7 false;
           construction "J101" (Some "1000123456") 2020 45 true;
           construction "J102" (Some "1000123456") 2021 45 false;
           construction "J201" (Some "3000500012") 2019 10 false ].
Proof. vm_compute. reflexivity. Qed.

(** The survivor of the scenario is reclassified [affordable] by the merge. *)
Example scenario_survivor_affordable :
  classifyBuildingType 45 5 "New Building" true None = affordable.
Proof. reflexivity. Qed.

End DeduplicatorFacts.

(** ** The line simplifier keeps a subsequence of its input *)

Module SubsequenceFacts.
Import Geometry GeometryFacts Examples.

Lemma removelast_sublist_of_snoc {X : Type} (s l : list X) (x : X) :
  sublist s (l ++ [x]) -> sublist (removelast s) l.
Proof.
  intros H.
  destruct (decide (s = [])) as [->|Hne]; [apply sublist_nil_l|].
  rewrite (app_removelast_last x Hne) in H.
  apply sublist_app_l in H as (k1 & k2 & Hk & H1 & H2).
  assert (Hk2 : k2 <> []).
  { intros ->. apply sublist_nil_r in H2. discriminate. }
  rewrite (app_removelast_last x Hk2) in Hk.
  rewrite app_assoc in Hk. apply app_inj_tail in Hk as [-> _].
  apply sublist_inserts_r. exact H1.
Qed.

Lemma singleton_sublist {X : Type} (x : X) (l : list X) : In x l -> sublist [x] l.
Proof.
  induction l as [|y l IH]; intros Hin; [destruct Hin|].
  destruct Hin as [->|Hin].
  - apply sublist_skip, sublist_nil_l.
  - apply sublist_cons, IH, Hin.
Qed.

Section AnyArithmetic.

Context {num : Type} {A : Arith num}.

Lemma split_index_in_range (points : list (@Point num)) (p1 p2 : Point) (len maxDist : num)
    (maxIndex : nat) :
  (2 < length points)%nat ->
  farthest points p1 p2 len = (maxDist, maxIndex) ->
  (maxIndex <= length points - 2)%nat.
Proof using Type.
  intros Hl Hfar.
  destruct (farthest_result points p1 p2 len) as [H0|[i [Hi H]]]; rewrite Hfar in *.
  - injection H0 as _ ->. lia.
  - injection H as _ ->. lia.
Qed.

Lemma simplifyLine_sublist (fuel : nat) :
  forall (points : list (@Point num)) (tolerance : num) out,
    simplifyLine fuel points tolerance = Some out -> sublist out points.
Proof using Type.
  induction fuel as [|fuel IH]; intros points tolerance out.
  - simpl. destruct (length points <=? 2)%nat; [|discriminate]. intros [= <-]. reflexivity.
  - destruct (Nat.le_gt_cases (length points) 2) as [Hs|Hl].
    + rewrite simplifyLine_short by exact Hs. intros [= <-]. reflexivity.
    + rewrite simplifyLine_step by exact Hl. cbv zeta.
      destruct points as [|p rest]; [simpl in Hl; lia|].
      assert (Hlast : In (at_ (p :: rest) (length (p :: rest) - 1)) rest).
      { unfold at_. cbn [length]. rewrite Nat.sub_succ, Nat.sub_0_r.
        destruct rest as [|q rest']; [simpl in Hl; lia|].
        change (nth (length (q :: rest')) (p :: q :: rest') origin)
          with (nth (length rest') (q :: rest') origin).
        apply nth_In. cbn [length]. lia. }
      destruct (n_eq _ n_zero).
      { intros [= <-]. apply sublist_skip, sublist_nil_l. }
      destruct (farthest (p :: rest) _ _ _) as [maxDist maxIndex] eqn:Hfar.
      destruct (n_gt maxDist tolerance).
      2:{ intros [= <-]. apply sublist_skip, singleton_sublist, Hlast. }
      destruct (simplifyLine fuel (firstn (maxIndex + 1) (p :: rest)) tolerance)
        as [leftPart|] eqn:Hleft; [|discriminate].
      destruct (simplifyLine fuel (skipn maxIndex (p :: rest)) tolerance)
        as [rightPart|] eqn:Hright; [|discriminate].
      intros [= <-]. apply IH in Hleft. apply IH in Hright.
      pose proof (split_index_in_range _ _ _ _ _ _ Hl Hfar) as Hi.
      assert (Hi' : (maxIndex < length (p :: rest))%nat) by lia.
      assert (Hall : sublist (removelast leftPart ++ rightPart)
                       (firstn maxIndex (p :: rest) ++ skipn maxIndex (p :: rest))).
      { apply sublist_app; [|exact Hright].
        destruct (lookup_lt_is_Some_2 (p :: rest) maxIndex Hi') as [x Hx].
        rewrite Nat.add_1_r, (take_S_r _ _ _ Hx) in Hleft.
        exact (removelast_sublist_of_snoc _ _ _ Hleft). }
      rewrite firstn_skipn in Hall. exact Hall.
Qed.

End AnyArithmetic.

(** X2: whatever the arithmetic and the tolerance, what [simplifyLine]
    returns is its input with some points left out: no point is added,
    changed or moved before another. *)
Theorem simplifyLine_keeps_a_subsequence :
  forall (num : Type) (A : Arith num) (fuel : nat) (points : list (num * num))
         (tolerance : num) (out : list (num * num)),
    simplifyLine fuel points tolerance = Some out -> sublist out points.
Proof.
  intros num A fuel points tolerance out. apply simplifyLine_sublist.
Qed.

(** X2 on the zigzag flattened under tolerance 4. *)
Lemma simplifyLine_keeps_a_subsequence_witness :
  sublist [(0, 0); (4, 0)]%float zigzag.
Proof.
  apply (simplifyLine_keeps_a_subsequence float float_arith 5 zigzag 4%float).
  vm_compute. reflexivity.
Defined.

End SubsequenceFacts.

(** ** GeoJSON geometries *)

Module GeoJSONFacts.
Import Geometry GeometryFacts FloatGeometryFacts GeoJSON ChangeDetector Examples.

Section AnyArithmetic.

Context {num : Type} {A : Arith num}.

Lemma simplifyRings_cons (fuel : nat) (ring : list (num * num)) rings tolerance :
  simplifyRings fuel (ring :: rings) tolerance
  = match simplifyLine fuel ring tolerance with
    | Some r =>
        match simplifyRings fuel rings tolerance with
        | Some rs => Some (r :: rs)
        | None => None
        end
    | None => None
    end.
Proof using Type.
  unfold simplifyRings. cbn [mapM].
  destruct (simplifyLine fuel ring tolerance); [|reflexivity].
  cbn. destruct (mapM _ rings); reflexivity.
Qed.

Lemma simplifyRings_within (fuel : nat) (rings : list (list (num * num))) tolerance out :
  simplifyRings fuel rings tolerance = Some out -> Forall2 sublist out rings.
Proof using Type.
  intros H. apply mapM_Some_1 in H.
  induction H as [|ring r rings out Hr _ IH]; constructor; [|exact IH].
  exact (SubsequenceFacts.simplifyLine_sublist _ _ _ _ Hr).
Qed.

Lemma simplifyRings_returns (rings : list (list (num * num))) tolerance :
  n_gt n_zero tolerance = false ->
  exists out, forall fuel,
    (list_max (map (@length _) rings) <= fuel)%nat ->
    simplifyRings fuel rings tolerance = Some out.
Proof using Type.
  intros Htol. induction rings as [|ring rings IH].
  - exists []. intros fuel _. reflexivity.
  - destruct IH as [outs Houts].
    destruct (simplifyLine_returns ring tolerance Htol) as [out Hout].
    exists (out :: outs). intros fuel Hfuel.
    assert (Hboth : (length ring <= fuel)%nat
                    /\ (list_max (map (@length _) rings) <= fuel)%nat).
    { cbn [map] in Hfuel. unfold list_max in *. cbn [fold_right] in Hfuel. lia. }
    rewrite simplifyRings_cons.
    rewrite (simplifyLine_fuel_mono (length ring) fuel ring tolerance out (proj1 Hboth) Hout).
    rewrite (Houts fuel (proj2 Hboth)). reflexivity.
Qed.

Lemma mapM_cons {X Y : Type} (f : X -> option Y) (x : X) (l : list X) :
  mapM f (x :: l)
  = match f x with
    | Some y => match mapM f l with Some k => Some (y :: k) | None => None end
    | None => None
    end.
Proof using Type.
  cbn [mapM]. destruct (f x); [|reflexivity]. cbn. destruct (mapM f l); reflexivity.
Qed.

Lemma simplifyGeometry_within (fuel : nat) (geometry : Geom num) tolerance out :
  simplifyGeometry fuel geometry tolerance = Some out -> simplifiedFrom geometry out.
Proof using Type.
  destruct geometry as [|p|rings|polygons|t]; cbn [simplifyGeometry].
  - intros [= <-]. exact I.
  - intros [= <-]. reflexivity.
  - destruct (simplifyRings fuel rings tolerance) as [rs|] eqn:H; [|discriminate].
    intros [= <-]. exact (simplifyRings_within _ _ _ _ H).
  - destruct (mapM _ polygons) as [ps|] eqn:H; [|discriminate].
    intros [= <-]. cbn [simplifiedFrom]. apply mapM_Some_1 in H.
    induction H as [|polygon p polygons ps Hp _ IH]; constructor; [|exact IH].
    exact (simplifyRings_within _ _ _ _ Hp).
  - intros [= <-]. reflexivity.
Qed.

Lemma simplifyGeometry_returns (geometry : Geom num) tolerance :
  n_gt n_zero tolerance = false ->
  exists out, forall fuel,
    (longestRing geometry <= fuel)%nat ->
    simplifyGeometry fuel geometry tolerance = Some out.
Proof using Type.
  intros Htol. destruct geometry as [|p|rings|polygons|t]; cbn [simplifyGeometry longestRing].
  - eexists. intros fuel _. reflexivity.
  - eexists. intros fuel _. reflexivity.
  - destruct (simplifyRings_returns rings tolerance Htol) as [out Hout].
    exists (GeoPolygon out). intros fuel Hfuel. rewrite (Hout fuel Hfuel). reflexivity.
  - assert (H : exists out, forall fuel,
                 (list_max (map (fun polygon => list_max (map (@length _) polygon)) polygons)
                  <= fuel)%nat ->
                 mapM (fun polygon => simplifyRings fuel polygon tolerance) polygons
                 = Some out).
    { induction polygons as [|polygon polygons IH].
      - exists []. intros fuel _. reflexivity.
      - destruct IH as [outs Houts].
        destruct (simplifyRings_returns polygon tolerance Htol) as [out Hout].
        exists (out :: outs). intros fuel Hfuel.
        assert (Hboth : (list_max (map (@length _) polygon) <= fuel)%nat
                        /\ (list_max (map (fun polygon => list_max (map (@length _) polygon))
                                        polygons) <= fuel)%nat).
        { cbn [map] in Hfuel. unfold list_max in *. cbn [fold_right] in Hfuel. lia. }
        rewrite mapM_cons, (Hout fuel (proj1 Hboth)), (Houts fuel (proj2 Hboth)).
        reflexivity. }
    destruct H as [out Hout]. exists (GeoMultiPolygon out).
    intros fuel Hfuel. rewrite (Hout fuel Hfuel). reflexivity.
  - eexists. intros fuel _. reflexivity.
Qed.

(** *** Centroid *)

Variable n_one : num.

Lemma processRing_app (totals : num * num * num) (r1 r2 : list (num * num)) :
  processRing n_one totals (r1 ++ r2) = processRing n_one (processRing n_one totals r1) r2.
Proof using Type. unfold processRing. apply fold_left_app. Qed.

Lemma processPolygons_outer (polygons : list (list (list (num * num)))) :
  forall totals,
    processPolygons n_one totals polygons
    = if hasRinglessPolygon (GeoMultiPolygon polygons) then Thrown "TypeError"
      else Returned (processRing n_one totals (outerRings polygons)).
Proof using Type.
  induction polygons as [|polygon polygons IH]; intros totals.
  - reflexivity.
  - cbn [processPolygons hasRinglessPolygon existsb].
    destruct polygon as [|outer holes]; [reflexivity|].
    cbn [orb]. rewrite IH. cbn [hasRinglessPolygon].
    destruct (existsb _ polygons); [reflexivity|].
    unfold outerRings. cbn [map concat hd]. rewrite processRing_app. reflexivity.
Qed.

Lemma calculateCentroid_cases (geometry : Geom num) :
  calculateCentroid n_one geometry
  = match geometry with
    | GeoMissing => Returned None
    | GeoPoint coordinates => Returned (Some coordinates)
    | _ =>
        if hasRinglessPolygon geometry then Thrown "TypeError"
        else Returned (meanPosition
                         (processRing n_one (n_zero, n_zero, n_zero)
                            (centroidVertices geometry)))
    end.
Proof using Type.
  destruct geometry as [|p|rings|polygons|t]; cbn [calculateCentroid]; try reflexivity.
  - destruct rings; reflexivity.
  - rewrite processPolygons_outer.
    destruct (hasRinglessPolygon (GeoMultiPolygon polygons)); reflexivity.
Qed.

End AnyArithmetic.

(** A closed ring collapses to its first position, whatever the tolerance. *)
Lemma closed_ring_collapses (fuel : nat) (ring : list (float * float)) (tolerance : float) :
  closedFiniteRing ring -> simplifyLine (S fuel) ring tolerance = Some [at_ ring 0].
Proof.
  intros [[Hl Hsame] [Hx Hy]].
  apply zero_length_collapses; [exact Hl|]. unfold Point in *. rewrite <- Hsame.
  destruct (at_ ring 0) as [x y]. apply float_coincident_length; assumption.
Qed.

Lemma closed_rings_collapse (fuel : nat) (rings : list (list (float * float)))
    (tolerance : float) :
  Forall closedFiniteRing rings ->
  simplifyRings (S fuel) rings tolerance = Some (map (fun ring => [at_ ring 0]) rings).
Proof.
  intros H. induction H as [|ring rings Hring _ IH]; [reflexivity|].
  rewrite simplifyRings_cons, (closed_ring_collapses fuel ring tolerance Hring), IH.
  reflexivity.
Qed.

(** X4: for every arithmetic and every tolerance that is not negative
    (the seed script passes 0.0001), [simplifyGeometry] returns, with a call
    stack no deeper than the longest ring; the result has the type of the
    input, a Point or a geometry of another type is returned as it is, and
    a Polygon or MultiPolygon keeps its polygons and rings one for one,
    each ring reduced to a subsequence of its positions. *)
Theorem simplifyGeometry_keeps_shape :
  forall (num : Type) (A : Arith num) (geometry : Geom num) (tolerance : num),
    n_gt n_zero tolerance = false ->
    exists out,
      (forall fuel, (longestRing geometry <= fuel)%nat ->
                    simplifyGeometry fuel geometry tolerance = Some out)
      /\ simplifiedFrom geometry out.
Proof.
  intros num A geometry tolerance Htol.
  destruct (simplifyGeometry_returns geometry tolerance Htol) as [out Hout].
  exists out. split; [exact Hout|].
  apply (simplifyGeometry_within (longestRing geometry) geometry tolerance).
  apply Hout. lia.
Qed.

(** X4 on a polygon made of the zigzag and a closed ring, at the seed
    tolerance. *)
Lemma simplifyGeometry_keeps_shape_witness :
  exists out,
    simplifyGeometry 5 (GeoPolygon [zigzag; Examples.closedRing]) seedTolerance = Some out
    /\ simplifiedFrom (GeoPolygon [zigzag; Examples.closedRing]) out.
Proof.
  destruct (simplifyGeometry_keeps_shape float float_arith
              (GeoPolygon [zigzag; Examples.closedRing]) seedTolerance)
    as [out [Hout Hshape]]; [vm_compute; reflexivity|].
  exists out. split; [apply Hout; vm_compute; lia|exact Hshape].
Defined.

(** X5: on binary64, a Polygon or MultiPolygon whose rings are closed (the
    last position repeats the first, as GeoJSON requires of a ring) comes
    out of [simplifyGeometry] with every ring cut down to one position,
    its first, whatever the tolerance. *)
Theorem simplifyGeometry_collapses_closed_rings :
  forall (fuel : nat) (geometry : Geom float) (tolerance : float),
    everyRing closedFiniteRing geometry ->
    simplifyGeometry (S fuel) geometry tolerance = Some (firstPositions geometry).
Proof.
  intros fuel geometry tolerance H.
  destruct geometry as [|p|rings|polygons|t];
    cbn [simplifyGeometry firstPositions everyRing] in *; try reflexivity.
  - rewrite (closed_rings_collapse fuel rings tolerance H). reflexivity.
  - assert (Hall : mapM (fun polygon => simplifyRings (S fuel) polygon tolerance) polygons
                   = Some (map (map (fun ring => [at_ ring 0])) polygons)).
    { induction H as [|polygon polygons Hp _ IH]; [reflexivity|].
      rewrite mapM_cons, (closed_rings_collapse fuel polygon tolerance Hp), IH.
      reflexivity. }
    rewrite Hall. reflexivity.
Qed.

(** X5 on a triangle given as a closed ring of four positions. *)
Lemma simplifyGeometry_collapses_closed_rings_witness :
  simplifyGeometry 1 (GeoPolygon [Examples.closedRing]) seedTolerance
  = Some (GeoPolygon [[(0, 0)%float]]).
Proof.
  apply (simplifyGeometry_collapses_closed_rings 0 (GeoPolygon [Examples.closedRing])
           seedTolerance).
  constructor; [|constructor].
  split; [split; [vm_compute; lia|reflexivity]|split; reflexivity].
Defined.

End GeoJSONFacts.

(** ** Intake of the capital projects feed *)

Module CapitalFacts.
Import JS Processing Geometry GeometryFacts GeoJSON GeoJSONFacts ChangeDetector.
Import CapitalProjects CapitalExamples.

Lemma orValue_truthy (a b : JsVal) : truthy b = true -> truthy (orValue a b) = true.
Proof.
  intros Hb. unfold orValue. destruct (truthy a) eqn:Ha; [exact Ha|exact Hb].
Qed.

Lemma correctAllocation_outside (x : float) : inCorrectedBand (correctAllocation x) = false.
Proof.
  unfold correctAllocation, inCorrectedBand.
  destruct (le 99e9%float x && le x 101e9%float) eqn:H; [reflexivity|exact H].
Qed.

Section Intake.

Variable parseFloatString : string -> float.
Variable parseIntString : string -> float.
Variable randomSuffix : nat -> string.

Lemma yearOf_throws (v : JsVal) :
  (exists year, yearOf parseIntString v = Returned year)
  \/ (yearOf parseIntString v = Thrown "TypeError"
      /\ truthy v && match v with JsString _ => false | _ => true end = true).
Proof using Type.
  unfold yearOf. destruct (truthy v); [|left; eexists; reflexivity].
  destruct v; first [left; eexists; reflexivity|right; split; reflexivity].
Qed.

Lemma yearOf_returns (v : JsVal) (year : option float) :
  yearOf parseIntString v = Returned year ->
  truthy v && match v with JsString _ => false | _ => true end = false.
Proof using Type.
  unfold yearOf. destruct (truthy v); [|reflexivity]. destruct v; (discriminate || reflexivity).
Qed.

(** A feature that yields a project. *)
Lemma processFeature_returned (fuel index : nat) (feature : Feature) (project : Project) :
  processFeature parseFloatString parseIntString randomSuffix fuel index feature
  = Some (Returned project) ->
  wellFormed feature project.
Proof using Type.
  unfold processFeature.
  destruct (yearOf parseIntString (getProp (properties feature) "mindate"));
    [|discriminate].
  destruct (yearOf parseIntString (getProp (properties feature) "maxdate"));
    [|discriminate].
  destruct (calculateCentroid 1%float (geometry feature)); [|discriminate].
  destruct (simplifyGeometry fuel (geometry feature) seedTolerance) as [out|] eqn:Hout;
    [|discriminate].
  intros [= <-]. unfold wellFormed.
  cbn [id maprojid description allocateTotal projectGeometry geometrySimplified].
  split; [apply orValue_truthy; reflexivity|].
  split; [apply orValue_truthy; reflexivity|].
  split; [apply orValue_truthy; reflexivity|].
  split; [apply correctAllocation_outside|].
  split; [reflexivity|].
  exact (simplifyGeometry_within fuel (geometry feature) seedTolerance out Hout).
Qed.

(** What one feature yields, given call stack enough for its rings. *)
Lemma processFeature_cases (fuel index : nat) (feature : Feature) :
  (longestRing (geometry feature) <= fuel)%nat ->
  if malformedFeature feature
  then processFeature parseFloatString parseIntString randomSuffix fuel index feature
       = Some (Thrown "TypeError")
  else exists project,
      processFeature parseFloatString parseIntString randomSuffix fuel index feature
      = Some (Returned project).
Proof using Type.
  intros Hfuel. unfold malformedFeature, processFeature.
  destruct (yearOf_throws (getProp (properties feature) "mindate"))
    as [[fiscalYear Hmin]|[Hmin Hbad]]; rewrite Hmin;
    [apply yearOf_returns in Hmin; rewrite Hmin|rewrite Hbad; reflexivity].
  destruct (yearOf_throws (getProp (properties feature) "maxdate"))
    as [[completionYear Hmax]|[Hmax Hbad]]; rewrite Hmax;
    [apply yearOf_returns in Hmax; rewrite Hmax|rewrite Hbad; reflexivity].
  cbn [orb]. rewrite calculateCentroid_cases.
  destruct (simplifyGeometry_returns (geometry feature) seedTolerance) as [out Hout];
    [vm_compute; reflexivity|].
  rewrite (Hout fuel Hfuel).
  destruct (geometry feature) as [|p|rings|polygons|t] eqn:Hg.
  - cbn [hasRinglessPolygon]. eexists. reflexivity.
  - cbn [hasRinglessPolygon]. eexists. reflexivity.
  - destruct (hasRinglessPolygon (GeoPolygon rings)); [reflexivity|eexists; reflexivity].
  - destruct (hasRinglessPolygon (GeoMultiPolygon polygons));
      [reflexivity|eexists; reflexivity].
  - cbn [hasRinglessPolygon]. eexists. reflexivity.
Qed.

Lemma processFrom_returned (fuel : nat) (features : list Feature) :
  forall (index : nat) (acc out : list Project),
    processFrom parseFloatString parseIntString randomSuffix fuel index features acc
    = Some (Returned out) ->
    exists projects, out = acc ++ projects /\ Forall2 wellFormed features projects.
Proof using Type.
  induction features as [|feature rest IH]; intros index acc out; cbn [processFrom].
  - intros [= <-]. exists []. split; [rewrite app_nil_r; reflexivity|constructor].
  - destruct (processFeature _ _ _ fuel index feature) as [[project|message]|] eqn:Hf;
      [|discriminate|discriminate].
    intros H. apply IH in H as [projects [-> HF]].
    exists (project :: projects). split; [rewrite <- app_assoc; reflexivity|].
    constructor; [exact (processFeature_returned _ _ _ _ Hf)|exact HF].
Qed.

(** The allocation stored for a feature: the parsed amount, or the
    constant [100e6] in place of an amount from [99e9] to [101e9]. *)
Lemma processFeature_allocation (fuel index : nat) (feature : Feature) (project : Project) :
  processFeature parseFloatString parseIntString randomSuffix fuel index feature
  = Some (Returned project) ->
  allocateTotal project
  = (let parsed := amountOf parseFloatString (properties feature) "allocate_total" in
     if inCorrectedBand parsed then 100e6%float else parsed).
Proof using Type.
  unfold processFeature.
  destruct (yearOf parseIntString (getProp (properties feature) "mindate"));
    [|discriminate].
  destruct (yearOf parseIntString (getProp (properties feature) "maxdate"));
    [|discriminate].
  destruct (calculateCentroid 1%float (geometry feature)); [|discriminate].
  destruct (simplifyGeometry fuel (geometry feature) seedTolerance); [|discriminate].
  intros [= <-]. reflexivity.
Qed.

Lemma processFrom_allocations (fuel : nat) (features : list Feature) :
  forall (index : nat) (acc out : list Project),
    processFrom parseFloatString parseIntString randomSuffix fuel index features acc
    = Some (Returned out) ->
    exists projects,
      out = acc ++ projects
      /\ Forall2
           (fun feature project =>
              allocateTotal project
              = (let parsed :=
                   amountOf parseFloatString (properties feature) "allocate_total" in
                 if inCorrectedBand parsed then 100e6%float else parsed))
           features projects.
Proof using Type.
  induction features as [|feature rest IH]; intros index acc out; cbn [processFrom].
  - intros [= <-]. exists []. split; [rewrite app_nil_r; reflexivity|constructor].
  - destruct (processFeature _ _ _ fuel index feature) as [[project|message]|] eqn:Hf;
      [|discriminate|discriminate].
    intros H. apply IH in H as [projects [-> HF]].
    exists (project :: projects). split; [rewrite <- app_assoc; reflexivity|].
    constructor; [exact (processFeature_allocation _ _ _ _ Hf)|exact HF].
Qed.

Lemma processFrom_cases (fuel : nat) (features : list Feature) :
  (longestFeatureRing features <= fuel)%nat ->
  forall (index : nat) (acc : list Project),
    if existsb malformedFeature features
    then processFrom parseFloatString parseIntString randomSuffix fuel index features acc
         = Some (Thrown "TypeError")
    else exists out,
        processFrom parseFloatString parseIntString randomSuffix fuel index features acc
        = Some (Returned out).
Proof using Type.
  induction features as [|feature rest IH]; intros Hfuel index acc;
    cbn [processFrom existsb].
  - eexists. reflexivity.
  - assert (Hboth : (longestRing (geometry feature) <= fuel)%nat
                    /\ (longestFeatureRing rest <= fuel)%nat).
    { unfold longestFeatureRing, list_max in *. cbn [map fold_right] in Hfuel. lia. }
    pose proof (processFeature_cases fuel index feature (proj1 Hboth)) as Hf.
    destruct (malformedFeature feature); cbn [orb].
    + rewrite Hf. reflexivity.
    + destruct Hf as [project ->]. apply IH. exact (proj2 Hboth).
Qed.

End Intake.

Lemma missing_none (features : list Feature) (projects : list Project) :
  Forall2 wellFormed features projects -> missingRequiredFields projects = [].
Proof.
  intros H. induction H as [|feature project features projects Hw _ IH]; [reflexivity|].
  unfold missingRequiredFields in *. cbn [List.filter].
  destruct Hw as (-> & -> & -> & _). exact IH.
Qed.

(** X8: given call stack enough for the longest ring, [processCapitalProjects]
    never runs on for ever at the tolerance 0.0001: it throws a [TypeError]
    when some feature carries a completion or start date that is truthy
    but not a string, or a polygon with no ring, so that one such feature
    loses the whole feed; otherwise it returns one project per feature. *)
Theorem processCapitalProjects_throws_or_returns :
  forall (parseFloatString parseIntString : string -> float) (randomSuffix : nat -> string)
         (fuel : nat) (features : list Feature),
    (longestFeatureRing features <= fuel)%nat ->
    if existsb malformedFeature features
    then processCapitalProjects parseFloatString parseIntString randomSuffix fuel features
         = Some (Thrown "TypeError")
    else exists projects,
        processCapitalProjects parseFloatString parseIntString randomSuffix fuel features
        = Some (Returned projects)
        /\ length projects = length features.
Proof.
  intros pf pi rs fuel features Hfuel. unfold processCapitalProjects.
  pose proof (processFrom_cases pf pi rs fuel features Hfuel 0%nat []) as H.
  destruct (existsb malformedFeature features); [exact H|].
  destruct H as [out Hout]. exists out. split; [exact Hout|].
  apply processFrom_returned in Hout as [projects [-> HF]].
  cbn [app]. symmetry. exact (Forall2_length _ _ _ HF).
Qed.

(** X8 on two sound features, and on the same two followed by a polygon
    with no ring. *)
Lemma processCapitalProjects_throws_or_returns_witness :
  (exists projects,
      processCapitalProjects digitsValue digitsValue fixedSuffix 4
        [triangleFeature; bareFeature] = Some (Returned projects)
      /\ length projects = 2%nat)
  /\ processCapitalProjects digitsValue digitsValue fixedSuffix 4
       [triangleFeature; bareFeature; ringlessFeature] = Some (Thrown "TypeError").
Proof.
  split.
  - apply (processCapitalProjects_throws_or_returns digitsValue digitsValue fixedSuffix 4
             [triangleFeature; bareFeature]).
    vm_compute. lia.
  - apply (processCapitalProjects_throws_or_returns digitsValue digitsValue fixedSuffix 4
             [triangleFeature; bareFeature; ringlessFeature]).
    vm_compute. lia.
Defined.

(** X9: the projects [processCapitalProjects] returns stand one for one
    for the features, each with the geometry of its feature and a
    simplified geometry made of subsequences of its rings; [id],
    [maprojid] and [description] are truthy in every one of them, so the
    check of [main] for projects missing required fields selects nothing;
    the allocation stored is the parsed amount, except that every amount
    from 99 to 101 billion is replaced by the constant 100 million; so no
    stored allocation lies between 99 and 101 billion. *)
Theorem processed_projects_are_well_formed :
  forall (parseFloatString parseIntString : string -> float) (randomSuffix : nat -> string)
         (fuel : nat) (features : list Feature) (projects : list Project),
    processCapitalProjects parseFloatString parseIntString randomSuffix fuel features
    = Some (Returned projects) ->
    map projectGeometry projects = map geometry features
    /\ Forall2 (fun feature project =>
                  simplifiedFrom (geometry feature) (geometrySimplified project))
         features projects
    /\ missingRequiredFields projects = []
    /\ Forall2
         (fun feature project =>
            allocateTotal project
            = (let parsed :=
                 amountOf parseFloatString (properties feature) "allocate_total" in
               if inCorrectedBand parsed then 100e6%float else parsed))
         features projects
    /\ Forall (fun project => inCorrectedBand (allocateTotal project) = false) projects.
Proof.
  intros pf pi rs fuel features projects H. unfold processCapitalProjects in H.
  pose proof (processFrom_allocations pf pi rs fuel features 0%nat [] projects H)
    as [allocated [Hsame Hallocated]].
  cbn [app] in Hsame. subst allocated.
  apply processFrom_returned in H as [out [Hout HF]]. cbn [app] in Hout. subst out.
  split; [|split; [|split; [|split]]].
  - clear Hallocated. induction HF as [|f p fs ps Hw _ IH]; [reflexivity|].
    cbn [map]. rewrite IH. destruct Hw as (_ & _ & _ & _ & -> & _). reflexivity.
  - clear Hallocated. induction HF as [|f p fs ps Hw _ IH]; constructor; [apply Hw|exact IH].
  - exact (missing_none _ _ HF).
  - exact Hallocated.
  - clear Hallocated. induction HF as [|f p fs ps Hw _ IH]; constructor; [apply Hw|exact IH].
Qed.

(** X9 on a triangle allocated 100 billion and a project with no attribute. *)
Lemma processed_projects_are_well_formed_witness :
  exists projects,
    processCapitalProjects digitsValue digitsValue fixedSuffix 4
      [triangleFeature; bareFeature] = Some (Returned projects)
    /\ map allocateTotal projects = [100e6; 0]%float
    /\ map fiscalYear projects = [Some 2019%float; None]
    /\ missingRequiredFields projects = []
    /\ Forall (fun project => inCorrectedBand (allocateTotal project) = false) projects.
Proof.
  eexists. split; [vm_compute; reflexivity|]. split; [vm_compute; reflexivity|].
  split; [vm_compute; reflexivity|].
  pose proof (processed_projects_are_well_formed digitsValue digitsValue fixedSuffix 4
                [triangleFeature; bareFeature]) as H.
  split; apply H; vm_compute; reflexivity.
Defined.

End CapitalFacts.

(** ** Intake of the affordable housing feed *)

Module HousingNYFacts.
Import JS Normalizer NormalizerFacts Processing FloatOrderFacts HousingNY HousingNYExamples.

Lemma climbs_not_above (e s d : Affordable) :
  climbs e s ->
  gt (affordableUnits d) (affordableUnits e) = false ->
  gt (affordableUnits d) (affordableUnits s) = false.
Proof.
  unfold gt, climbs. intros [->|Hes] Hd; [exact Hd|].
  destruct (PrimFloat.ltb (affordableUnits s) (affordableUnits d)) eqn:Hsd; [|reflexivity].
  rewrite (ltb_trans _ _ _ Hes Hsd) in Hd. discriminate.
Qed.

Lemma climbs_self_not_above (d s : Affordable) :
  climbs d s -> gt (affordableUnits d) (affordableUnits s) = false.
Proof.
  unfold gt, climbs. intros [->|Hds]; [apply ltb_irrefl|apply ltb_asym; exact Hds].
Qed.

Lemma climbs_trans (a b c : Affordable) : climbs a b -> climbs b c -> climbs a c.
Proof.
  unfold climbs. intros [->|Hab] [->|Hbc]; [left; reflexivity|right; exact Hbc|right; exact Hab|].
  right. exact (ltb_trans _ _ _ Hab Hbc).
Qed.

(** The entry left by a run over the candidates of one key. *)
Lemma bestOf_spec (candidates : list Affordable) :
  forall current : option Affordable,
    match bestOf current candidates with
    | None => current = None /\ candidates = []
    | Some stored =>
        (current = Some stored \/ In stored candidates)
        /\ (forall e, current = Some e -> climbs e stored)
        /\ Forall (fun d => gt (affordableUnits d) (affordableUnits stored) = false) candidates
    end.
Proof.
  induction candidates as [|d rest IH]; intros current.
  - destruct current as [e|]; cbn.
    + split; [left; reflexivity|]. split; [|constructor].
      intros e' [= <-]. unfold climbs. left. reflexivity.
    + split; reflexivity.
  - unfold bestOf. cbn [fold_left].
    set (next := match current with
                 | None => Some d
                 | Some existing =>
                     if gt (affordableUnits d) (affordableUnits existing)
                     then Some d else Some existing
                 end).
    specialize (IH next). unfold bestOf in IH.
    destruct (fold_left _ rest next) as [stored|] eqn:Hfold.
    2:{ destruct IH as [Hnext _]. subst next.
        destruct current as [e|]; [destruct (gt _ _)|]; discriminate. }
    destruct IH as (Hin & Hclimb & Hall).
    subst next. destruct current as [e|].
    + destruct (gt (affordableUnits d) (affordableUnits e)) eqn:Hgt.
      * pose proof (Hclimb d eq_refl) as Hd. split; [|split].
        -- destruct Hin as [[= <-]|Hin]; [right; left; reflexivity|right; right; exact Hin].
        -- intros e' [= <-]. apply (climbs_trans e d stored); [unfold climbs; right; exact Hgt|exact Hd].
        -- constructor; [exact (climbs_self_not_above d stored Hd)|exact Hall].
      * pose proof (Hclimb e eq_refl) as He. split; [|split].
        -- destruct Hin as [[= <-]|Hin]; [left; reflexivity|right; right; exact Hin].
        -- intros e' [= <-]. exact He.
        -- constructor; [exact (climbs_not_above e stored d He Hgt)|exact Hall].
    + pose proof (Hclimb d eq_refl) as Hd. split; [|split].
      * destruct Hin as [[= <-]|Hin]; [right; left; reflexivity|right; right; exact Hin].
      * intros e' [=].
      * constructor; [exact (climbs_self_not_above d stored Hd)|exact Hall].
Qed.

Section Intake.

Variable positiveDigits : float -> string.
Variable parseInt10 : JsVal -> float.
Variable getFullYear : JsVal -> float.

Lemma normalizeBBL_ten_digits (v : JsVal) (r : string) :
  normalizeBBL positiveDigits v = Some r -> isTenDigits r = true.
Proof using Type.
  apply normalizeBBL_isTenDigits.
Qed.

Lemma accepted_key_ten_digits (record : gmap string JsVal) (bbl : string) (d : Affordable) :
  acceptRecord positiveDigits parseInt10 getFullYear record = Some (bbl, d) ->
  isTenDigits bbl = true.
Proof using Type.
  unfold acceptRecord.
  destruct (normalizeBBL positiveDigits (getProp record "bbl")) as [key|] eqn:Hkey;
    [|discriminate].
  destruct (key =? "")%string; [discriminate|].
  destruct (negb _); [discriminate|].
  destruct (_ || _); [discriminate|].
  destruct (isZero _); [discriminate|].
  intros [= <- _]. exact (normalizeBBL_ten_digits _ _ Hkey).
Qed.

Lemma keepBetter_lookup (m : gmap string Affordable) (key bbl : string) (d : Affordable) :
  keepBetter m key d !! bbl
  = if (key =? bbl)%string then bestOf (m !! bbl) [d] else m !! bbl.
Proof using Type.
  unfold keepBetter, bestOf. cbn [fold_left].
  destruct (String.eqb_spec key bbl) as [->|Hne].
  - destruct (m !! bbl) as [e|] eqn:He.
    + destruct (gt _ _); [apply lookup_insert_eq|exact He].
    + apply lookup_insert_eq.
  - destruct (m !! key) as [e|].
    + destruct (gt _ _); [apply lookup_insert_ne; exact Hne|reflexivity].
    + apply lookup_insert_ne. exact Hne.
Qed.

(** The entry of each key depends on the accepted records of that key only. *)
Lemma fold_lookup (records : list (gmap string JsVal)) (bbl : string) :
  forall m : gmap string Affordable,
    fold_left (housingNyStep positiveDigits parseInt10 getFullYear) records m !! bbl
    = bestOf (m !! bbl) (acceptedUnder positiveDigits parseInt10 getFullYear bbl records).
Proof using Type.
  induction records as [|record rest IH]; intros m; [reflexivity|].
  cbn [fold_left]. rewrite IH. unfold acceptedUnder. cbn [flat_map].
  unfold housingNyStep at 1.
  destruct (acceptRecord positiveDigits parseInt10 getFullYear record) as [[key d]|];
    [|reflexivity].
  rewrite keepBetter_lookup. destruct (key =? bbl)%string; reflexivity.
Qed.

Lemma accepted_has_record (records : list (gmap string JsVal)) (bbl : string)
    (d : Affordable) :
  In d (acceptedUnder positiveDigits parseInt10 getFullYear bbl records) ->
  exists record,
    In record records
    /\ acceptRecord positiveDigits parseInt10 getFullYear record = Some (bbl, d).
Proof using Type.
  unfold acceptedUnder. intros H. apply in_flat_map in H as [record [Hin Hd]].
  exists record. split; [exact Hin|].
  destruct (acceptRecord positiveDigits parseInt10 getFullYear record) as [[key d']|];
    [|destruct Hd].
  destruct (String.eqb_spec key bbl) as [->|_]; [|destruct Hd].
  destruct Hd as [->|[]]. reflexivity.
Qed.

End Intake.

(** X10: the map [processHousingNY] returns.  An identifier has no entry
    exactly when the feed holds no accepted record for it.  Otherwise the
    identifier is ten digits, the entry is the data of one of the accepted
    records of that identifier, and no accepted record of that identifier
    has more affordable units than the entry (a count that is [NaN] is
    more than nothing, and nothing is more than it). *)
Theorem processHousingNY_keeps_most_affordable :
  forall (positiveDigits : float -> string) (parseInt10 getFullYear : JsVal -> float)
         (records : list (gmap string JsVal)) (bbl : string),
    match processHousingNY positiveDigits parseInt10 getFullYear records !! bbl with
    | None => acceptedUnder positiveDigits parseInt10 getFullYear bbl records = []
    | Some stored =>
        isTenDigits bbl = true
        /\ In stored (acceptedUnder positiveDigits parseInt10 getFullYear bbl records)
        /\ Forall (fun d => gt (affordableUnits d) (affordableUnits stored) = false)
             (acceptedUnder positiveDigits parseInt10 getFullYear bbl records)
    end.
Proof.
  intros pd pi gy records bbl. unfold processHousingNY.
  rewrite fold_lookup, lookup_empty.
  pose proof (bestOf_spec (acceptedUnder pd pi gy bbl records) None) as H.
  destruct (bestOf None (acceptedUnder pd pi gy bbl records)) as [stored|].
  - destruct H as ([Hcur|Hin] & _ & Hall); [discriminate|].
    split; [|split; assumption].
    destruct (accepted_has_record pd pi gy records bbl stored Hin) as [record [_ Hacc]].
    exact (accepted_key_ten_digits pd pi gy record bbl stored Hacc).
  - apply H.
Qed.

(** X11: the filter on the completion year lets through a record whose
    completion date cannot be read: the year of an invalid date is [NaN],
    which is neither below 2014 nor above 2025.  Such a record, with an
    identifier and a unit count other than zero, is accepted and stored. *)
Theorem unreadable_date_is_not_filtered :
  forall (positiveDigits : float -> string) (parseInt10 getFullYear : JsVal -> float)
         (record : gmap string JsVal) (bbl : string),
    let totalUnits :=
      parseInt10
        (orValue (orValue (getProp record "all_counted_units") (getProp record "total_units"))
           (JsNumber 0%float)) in
    normalizeBBL positiveDigits (getProp record "bbl") = Some bbl ->
    truthy (getProp record "building_completion_date") = true ->
    isNaN (getFullYear (getProp record "building_completion_date")) = true ->
    isZero totalUnits = false ->
    acceptRecord positiveDigits parseInt10 getFullYear record
    = Some (bbl, affordableLiteral parseInt10 record totalUnits)
    /\ processHousingNY positiveDigits parseInt10 getFullYear [record] !! bbl
       = Some (affordableLiteral parseInt10 record totalUnits).
Proof.
  intros pd pi gy record bbl totalUnits Hbbl Hdate Hnan Hunits.
  assert (Hacc : acceptRecord pd pi gy record
                 = Some (bbl, affordableLiteral pi record totalUnits)).
  { unfold acceptRecord. rewrite Hbbl.
    pose proof (normalizeBBL_ten_digits pd _ _ Hbbl) as Hten.
    destruct (String.eqb_spec bbl "") as [->|_]; [discriminate Hten|].
    rewrite Hdate. cbn [negb]. unfold lt, gt.
    rewrite (nan_not_lt _ _ Hnan), (nan_not_gt _ _ Hnan). cbn [orb].
    fold totalUnits. rewrite Hunits. reflexivity. }
  split; [exact Hacc|].
  unfold processHousingNY. cbn [fold_left]. unfold housingNyStep. rewrite Hacc.
  unfold keepBetter. rewrite lookup_empty. apply lookup_insert_eq.
Qed.

(** X11 on a record dated "unknown". *)
Lemma unreadable_date_is_not_filtered_witness :
  processHousingNY noDigits parseIntOf leadingYear
    [housingNyRecord "1000123456" "unknown" "40"] !! "1000123456"
  = Some (affordableLiteral parseIntOf (housingNyRecord "1000123456" "unknown" "40")
            100%float).
Proof.
  apply (unreadable_date_is_not_filtered noDigits parseIntOf leadingYear
           (housingNyRecord "1000123456" "unknown" "40") "1000123456");
    vm_compute; reflexivity.
Defined.

(** A run on three records of one parcel and one of another. *)
Example processHousingNY_run :
  affordableUnits
  <$> (processHousingNY noDigits parseIntOf leadingYear
         [housingNyRecord "1000123456" "2019-05-01" "40";
          housingNyRecord "1000123456" "2020-05-01" "60";
          housingNyRecord "1-00012-345" "2021-05-01" "70";
          housingNyRecord "1000123456" "2013-05-01" "90"] !! "1000123456")
  = Some 60%float.
Proof. vm_compute. reflexivity. Qed.

End HousingNYFacts.

(** ** Validation *)

Module ValidationFacts.
Import JS Normalizer Housing Processing ChangeDetector FloatOrderFacts Validation.
Import Examples CapitalExamples HousingNYExamples.

(** *** The validators against the guards of the intake *)

Lemma valid_latitude_guard (lat : float) :
  isValidLatitude lat = true -> isNaN lat = false /\ isZero lat = false.
Proof.
  unfold isValidLatitude. intros H.
  repeat (apply andb_true_iff in H as [H ?]).
  split; apply negb_true_iff; assumption.
Qed.

Lemma valid_longitude_guard (pfs : string -> float) (v : JsVal) :
  isValidLongitude pfs v = true ->
  isNaN (parseFloat pfs v) = false /\ isZero (parseFloat pfs v) = false.
Proof.
  unfold isValidLongitude. intros H.
  repeat (apply andb_true_iff in H as [H ?]).
  split; apply negb_true_iff; assumption.
Qed.

Lemma year_in_range_guard (pi : JsVal -> float) (v : JsVal) :
  isYearInRange pi 2014%float 2025%float v = true ->
  isNaN (pi v) || lt (pi v) 2014%float || gt (pi v) 2025%float = false.
Proof.
  unfold isYearInRange, le, lt, gt. intros H.
  apply andb_true_iff in H as [H Hmax]. apply andb_true_iff in H as [Hnan Hmin].
  apply negb_true_iff in Hnan. rewrite Hnan.
  rewrite (leb_not_gt _ _ Hmin), (leb_not_gt _ _ Hmax). reflexivity.
Qed.

(** *** The sample *)

Lemma firstn_min_length {X : Type} (n : nat) (l : list X) :
  firstn (Nat.min n (length l)) l = firstn n l.
Proof.
  destruct (Nat.le_ge_cases n (length l)) as [H|H].
  - rewrite Nat.min_l by exact H. reflexivity.
  - rewrite Nat.min_r by exact H. rewrite firstn_all. symmetry. apply firstn_all2. exact H.
Qed.

Lemma flat_map_nil {X Y : Type} (f : X -> list Y) (l : list X) :
  flat_map f l = [] <-> Forall (fun x => f x = []) l.
Proof.
  induction l as [|x l IH]; cbn [flat_map].
  - split; [constructor|reflexivity].
  - split.
    + intros H. apply app_eq_nil in H as [Hx Hl]. constructor; [exact Hx|apply IH, Hl].
    + intros H. inversion H as [|? ? Hx Hl]; subst. rewrite Hx. apply IH, Hl.
Qed.

Lemma positive_length {X : Type} (l : list X) : (0 <? length l)%nat = false <-> l = [].
Proof.
  destruct l; cbn; split; congruence.
Qed.

Lemma missingFieldsFrom_length (inherited : string -> bool) (fields : list string)
    (sample : list (gmap string JsVal)) :
  forall i,
    length (missingFieldsFrom inherited i fields sample)
    = length (incomplete inherited fields sample).
Proof.
  unfold incomplete.
  induction sample as [|record rest IH]; intros i; cbn [missingFieldsFrom List.filter];
    [reflexivity|].
  destruct (missingFields inherited fields record); cbn [length]; rewrite IH; reflexivity.
Qed.

Lemma thresholds_agree (failures samplesToCheck : nat) :
  (samplesToCheck <= 200)%nat -> (failures <= samplesToCheck)%nat ->
  gt (failureRate failures samplesToCheck) 10%float
  = aboveTenPerCent failures samplesToCheck.
Proof.
  intros Hn Hk.
  assert (Hall : thresholdsAgree 200 = true) by (vm_compute; reflexivity).
  unfold thresholdsAgree in Hall.
  assert (Hin : In samplesToCheck (seq 0 201)) by (apply in_seq; lia).
  pose proof (proj1 (forallb_forall _ _) Hall samplesToCheck Hin) as Hrow.
  assert (Hin' : In failures (seq 0 (S samplesToCheck))) by (apply in_seq; lia).
  pose proof (proj1 (forallb_forall _ _) Hrow failures Hin') as Hcell.
  apply eqb_prop. exact Hcell.
Qed.

Lemma incomplete_length (inherited : string -> bool) (fields : list string)
    (sample : list (gmap string JsVal)) :
  (length (incomplete inherited fields sample) <= length sample)%nat.
Proof. unfold incomplete. apply filter_length_le. Qed.

Lemma validateDataTypes_returns (records : list (gmap string JsVal))
    (fieldValidators : list (string * (JsVal -> gmap string JsVal -> Outcome bool)))
    (datasetName : string) (sampleSize : nat) :
  validateDataTypes records fieldValidators datasetName sampleSize = Returned (JsBool true)
  <-> records <> []
      /\ Forall (fun record => typeErrorsOf fieldValidators record = [])
           (firstn sampleSize records).
Proof.
  unfold validateDataTypes. destruct records as [|r rest].
  - split; [discriminate|]. intros [H _]. congruence.
  - rewrite firstn_min_length.
    set (errors := flat_map (typeErrorsOf fieldValidators) (firstn sampleSize (r :: rest))).
    rewrite <- flat_map_nil. fold errors.
    destruct (0 <? length errors)%nat eqn:Hpos.
    + split; [discriminate|]. intros [_ H]. rewrite H in Hpos. discriminate.
    + apply positive_length in Hpos. split; [|reflexivity].
      intros _. split; [discriminate|exact Hpos].
Qed.

Lemma no_type_error (pfs : string -> float) (pi : JsVal -> float)
    (record : gmap string JsVal) :
  typeErrorsOf (housingFieldValidators pfs pi) record = [] ->
  isValidLatitudeValue pfs (getProp record "Latitude") = true
  /\ isValidLongitude pfs (getProp record "Longitude") = true
  /\ isYearInRange pi 2014%float 2025%float (getProp record "CompltYear") = true
  /\ isNumber pfs (getProp record "ClassANet") = true.
Proof.
  unfold typeErrorsOf, housingFieldValidators. cbn [List.filter fst snd].
  destruct (isValidLatitudeValue pfs _); [|discriminate].
  destruct (isValidLongitude pfs _); [|discriminate].
  destruct (isYearInRange pi _ _ _); [|discriminate].
  destruct (isNumber pfs _); [|discriminate].
  intros _. repeat split.
Qed.

Lemma validated_record_guards (pfs : string -> float) (pi : JsVal -> float)
    (mr : float -> float)
    (bl : gmap string JsVal -> float -> float -> float -> float -> Building)
    (record : gmap string JsVal) :
  isValidLatitudeValue pfs (getProp record "Latitude") = true ->
  isValidLongitude pfs (getProp record "Longitude") = true ->
  isYearInRange pi 2014%float 2025%float (getProp record "CompltYear") = true ->
  processRecord pfs pi mr bl record
  = let totalUnits := mr (orElse (parseFloat pfs (getProp record "ClassANet")) 0%float) in
    if le totalUnits 0%float then None
    else Some (bl record (parseFloat pfs (getProp record "Latitude"))
                 (parseFloat pfs (getProp record "Longitude"))
                 (pi (getProp record "CompltYear")) totalUnits).
Proof.
  intros Hlat Hlon Hyear. unfold processRecord.
  destruct (valid_latitude_guard _ Hlat) as [Hn1 Hz1].
  destruct (valid_longitude_guard _ _ Hlon) as [Hn2 Hz2].
  rewrite Hn1, Hn2, Hz1, Hz2. cbn [orb].
  rewrite (year_in_range_guard _ _ Hyear). reflexivity.
Qed.

(** X12: [validateDataTypes] looks at the first [sampleSize] records only,
    and admits no failure among them: on an array that is not empty it
    returns exactly when every validator returns [true] on every one of
    those records; whatever the later records hold changes nothing. *)
Theorem validateDataTypes_checks_the_sample_only :
  forall (records : list (gmap string JsVal))
         (fieldValidators : list (string * (JsVal -> gmap string JsVal -> Outcome bool)))
         (datasetName : string) (sampleSize : nat),
    validateDataTypes records fieldValidators datasetName sampleSize = Returned (JsBool true)
    <-> records <> []
        /\ Forall (fun record =>
                     Forall (fun entry =>
                               snd entry (getProp record (fst entry)) record = Returned true)
                       fieldValidators)
             (firstn sampleSize records).
Proof.
  intros records fv name sampleSize. rewrite validateDataTypes_returns.
  assert (Hrec : forall record,
             typeErrorsOf fv record = []
             <-> Forall (fun entry =>
                           snd entry (getProp record (fst entry)) record = Returned true) fv).
  { intros record. unfold typeErrorsOf.
    induction fv as [|entry fv IH]; cbn [List.filter map].
    - split; [constructor|reflexivity].
    - destruct (snd entry (getProp record (fst entry)) record) as [[|]|m] eqn:He.
      + rewrite IH. split; [intros H; constructor; [exact He|exact H]|].
        intros H. inversion H; assumption.
      + split; [discriminate|]. intros H. inversion H as [|? ? Hx _]. congruence.
      + split; [discriminate|]. intros H. inversion H as [|? ? Hx _]. congruence. }
  split; intros [Hne H]; (split; [exact Hne|]);
    (eapply List.Forall_impl; [|exact H]); intros record; apply Hrec.
Qed.

(** X13: the check of [main] on the construction feed against the intake.
    When [validateDataTypes] returns with the four validators of [main],
    none of the first [sampleSize] records is skipped by
    [processDCPHousing] for its coordinates or its year: each is skipped
    exactly when its rounded unit count is not positive, and otherwise
    reaches the object literal, which pushes the building or throws.  The
    validators do not look at [DateComplt], [DatePermit] or [Bldg_Class],
    so a validated record can still make the intake throw. *)
Theorem validated_sample_passes_the_guards :
  forall (parseFloatString : string -> float) (parseInt10 : JsVal -> float)
         (Math_round : float -> float)
         (buildingLiteral : gmap string JsVal -> float -> float -> float -> float -> Building)
         (toISOString : JsVal -> option string)
         (records : list (gmap string JsVal)) (datasetName : string) (sampleSize : nat),
    validateDataTypes records (housingFieldValidators parseFloatString parseInt10)
      datasetName sampleSize = Returned (JsBool true) ->
    Forall
      (fun record =>
         let totalUnits :=
           Math_round
             (orElse (parseFloat parseFloatString (getProp record "ClassANet")) 0%float) in
         ConstructionIntake.processRecord parseFloatString parseInt10 Math_round
           buildingLiteral toISOString record
         = if le totalUnits 0%float then Returned None
           else
             match ConstructionIntake.literalError toISOString record with
             | Some message => Thrown message
             | None =>
                 Returned
                   (Some (buildingLiteral record
                            (parseFloat parseFloatString (getProp record "Latitude"))
                            (parseFloat parseFloatString (getProp record "Longitude"))
                            (parseInt10 (getProp record "CompltYear")) totalUnits))
             end)
      (firstn sampleSize records).
Proof.
  intros pfs pi mr bl iso records name sampleSize H.
  apply validateDataTypes_returns in H as [_ H].
  eapply List.Forall_impl; [|exact H]. intros record Hrec. cbv zeta.
  destruct (no_type_error pfs pi record Hrec) as (Hlat & Hlon & Hyear & _).
  unfold ConstructionIntake.processRecord.
  rewrite (validated_record_guards pfs pi mr bl record Hlat Hlon Hyear). cbv zeta.
  destruct (le _ 0%float); reflexivity.
Qed.

(** X13 on a feed of a sound feature whose completion date is the text
    "pending", followed by one with an old year, with a sample of one
    record: the feed is validated and its first record throws. *)
Lemma validated_sample_passes_the_guards_witness :
  validateDataTypes [ValidationExamples.pendingFeature; ValidationExamples.oldFeature]
    (housingFieldValidators noStringParsed parseIntOfNumber) "DCP Housing Database" 1
  = Returned (JsBool true)
  /\ ConstructionIntake.processRecord noStringParsed parseIntOfNumber roundOfIntegral
       plainBuilding DemolitionExamples.noDate ValidationExamples.pendingFeature
     = Thrown "RangeError".
Proof.
  split; [reflexivity|].
  apply (List.Forall_inv
           (validated_sample_passes_the_guards noStringParsed parseIntOfNumber
              roundOfIntegral plainBuilding DemolitionExamples.noDate
              [ValidationExamples.pendingFeature; ValidationExamples.oldFeature]
              "DCP Housing Database" 1 eq_refl)).
Defined.

(** X14: [validateRequiredFields] at its default threshold of ten per
    cent, on a sample of at most 200 records (the scripts pass 20, 30 and
    50): it returns exactly when at most one tenth of the first
    [sampleSize] records lack a required field; the division and the
    comparison on binary64 agree with the exact ones on every such
    sample.  The later records are not looked at. *)
Theorem validateRequiredFields_tolerates_a_tenth :
  forall (inheritedProperty : string -> bool) (toFixed1 positiveDigits : float -> string)
         (records : list (gmap string JsVal)) (requiredFields : list string)
         (datasetName : string) (sampleSize : nat),
    records <> [] ->
    (sampleSize <= 200)%nat ->
    validateRequiredFields inheritedProperty toFixed1 positiveDigits records requiredFields
      datasetName sampleSize 10%float = Returned (JsBool true)
    <-> (10 * length (incomplete inheritedProperty requiredFields (firstn sampleSize records))
         <= length (firstn sampleSize records))%nat.
Proof.
  intros inh tf pd records fields name sampleSize Hne Hsize.
  unfold validateRequiredFields. destruct records as [|r rest]; [congruence|].
  rewrite firstn_min_length, missingFieldsFrom_length.
  set (sample := firstn sampleSize (r :: rest)).
  assert (Hlen : Nat.min sampleSize (length (r :: rest)) = length sample).
  { unfold sample. rewrite length_firstn. reflexivity. }
  rewrite Hlen.
  pose proof (incomplete_length inh fields sample) as Hk.
  assert (Hn : (length sample <= 200)%nat).
  { unfold sample. rewrite length_firstn. lia. }
  destruct (0 <? length (incomplete inh fields sample))%nat eqn:Hpos.
  - rewrite (thresholds_agree _ _ Hn Hk). unfold aboveTenPerCent.
    destruct (length sample <? 10 * length (incomplete inh fields sample))%nat eqn:Hab.
    + apply Nat.ltb_lt in Hab. split; [discriminate|lia].
    + apply Nat.ltb_ge in Hab. split; [intros _; exact Hab|reflexivity].
  - apply Nat.ltb_ge in Hpos. split; [intros _; lia|reflexivity].
Qed.

(** X14 on ten records, one of them without its identifier. *)
Lemma validateRequiredFields_tolerates_a_tenth_witness :
  validateRequiredFields ValidationExamples.noInherited ValidationExamples.unreadFixed
    noDigits
    (ValidationExamples.featureWithoutBBL :: repeat ValidationExamples.soundFeature 9)
    ["Job_Number"; "CompltYear"; "BBL"] "DCP Housing Database" 50 10%float
  = Returned (JsBool true).
Proof.
  apply (validateRequiredFields_tolerates_a_tenth ValidationExamples.noInherited
           ValidationExamples.unreadFixed noDigits
           (ValidationExamples.featureWithoutBBL :: repeat ValidationExamples.soundFeature 9)
           ["Job_Number"; "CompltYear"; "BBL"] "DCP Housing Database" 50).
  - discriminate.
  - lia.
  - vm_compute. lia.
Defined.

Lemma validateProcessedRecords_returned {Rec : Type} (records : list Rec)
    (validations : list (list Rec -> Outcome JsVal)) (datasetName : string) (v : JsVal) :
  validateProcessedRecords records validations datasetName = Returned v ->
  records <> []
  /\ Forall (fun validation => exists u, validation records = Returned u) validations.
Proof.
  unfold validateProcessedRecords. destruct records as [|r rest]; [discriminate|].
  destruct (0 <? length (validationErrors (r :: rest) validations))%nat eqn:Hpos;
    [discriminate|].
  intros _. split; [discriminate|].
  apply positive_length in Hpos. unfold validationErrors in Hpos.
  rewrite flat_map_nil in Hpos. eapply List.Forall_impl; [|exact Hpos].
  intros validation H. cbn beta in H.
  destruct (validation (r :: rest)) as [u|m]; [exists u; reflexivity|discriminate].
Qed.

(** X15: [validateProcessedRecords] returns exactly when the array is not
    empty and every validation returns; an empty array is refused before
    any validation is called, also where the validation handed to it
    accepts an empty array, as the one for the demolitions does; and when
    it throws on an array that is not empty, its message counts and
    quotes, in order, the message of every validation that threw. *)
Theorem validateProcessedRecords_outcome :
  forall (Rec : Type) (records : list Rec) (validations : list (list Rec -> Outcome JsVal))
         (datasetName : string),
    (validateProcessedRecords records validations datasetName = Returned (JsBool true)
     <-> records <> []
         /\ Forall (fun validation => exists v, validation records = Returned v) validations)
    /\ validateProcessedRecords [] validations datasetName
       = Thrown (datasetName ++ ": No processed records to validate")%string
    /\ (records <> [] -> validationErrors records validations <> [] ->
        validateProcessedRecords records validations datasetName
        = Thrown (datasetName ++ ": " ++ showNat (length (validationErrors records validations))
                  ++ " validation error(s): "
                  ++ joinWith "; " (validationErrors records validations))%string).
Proof.
  intros Rec records validations name. split; [|split; [reflexivity|]].
  - unfold validateProcessedRecords. destruct records as [|r rest].
    { split; [discriminate|]. intros [H _]. congruence. }
    assert (Herr : validationErrors (r :: rest) validations = []
                   <-> Forall (fun validation => exists v, validation (r :: rest) = Returned v)
                         validations).
    { unfold validationErrors. rewrite flat_map_nil. apply Forall_iff. intros validation.
      destruct (validation (r :: rest)) as [v|m].
      - split; [intros _; exists v; reflexivity|reflexivity].
      - split; [discriminate|]. intros [v Hv]. discriminate. }
    rewrite <- Herr.
    destruct (0 <? length (validationErrors (r :: rest) validations))%nat eqn:Hpos.
    + split; [discriminate|]. intros [_ H]. rewrite H in Hpos. discriminate.
    + apply positive_length in Hpos. split; [|reflexivity].
      intros _. split; [discriminate|exact Hpos].
  - intros Hne Herr. unfold validateProcessedRecords.
    destruct records as [|r rest]; [congruence|].
    destruct (validationErrors (r :: rest) validations); [congruence|]. reflexivity.
Qed.

(** X15 on the demolitions check of [main], handed an empty array. *)
Lemma validateProcessedRecords_outcome_witness :
  validateProcessedRecords (@nil nat) [fun _ => Returned JsUndefined] "Demolitions"
  = Thrown "Demolitions: No processed records to validate"
  /\ validateProcessedRecords [1%nat] [fun _ => Returned JsUndefined] "Demolitions"
     = Returned (JsBool true).
Proof.
  destruct (validateProcessedRecords_outcome nat [1%nat] [fun _ => Returned JsUndefined]
              "Demolitions") as (Hiff & _ & _).
  destruct (validateProcessedRecords_outcome nat [] [fun _ => Returned JsUndefined]
              "Demolitions") as (_ & Hempty & _).
  split; [exact Hempty|]. apply Hiff. split; [discriminate|].
  constructor; [exists JsUndefined; reflexivity|constructor].
Defined.

(** X16: [validators.isValidBBL] against [normalizeBBL].  A value the
    validator accepts is falsy or already holds ten digits, which the
    normalizer returns as they are; a value with nine digits is an
    identifier for the normalizer, which pads it, and is refused by the
    validator. *)
Theorem isValidBBL_refuses_nine_digits :
  forall (positiveDigits : float -> string) (value : JsVal),
    (isValidBBL positiveDigits value = true ->
     truthy value = false
     \/ normalizeBBL positiveDigits value
        = Some (stripNonDigits (toString positiveDigits value)))
    /\ (String.length (stripNonDigits (toString positiveDigits value)) = 9%nat ->
        isValidBBL positiveDigits value = false
        /\ normalizeBBL positiveDigits value
           = Some ("0" ++ stripNonDigits (toString positiveDigits value))%string).
Proof.
  intros pd value. unfold isValidBBL, normalizeBBL. split.
  - destruct (truthy value); cbn [negb]; [|left; reflexivity].
    intros H. right. rewrite H. reflexivity.
  - intros H9.
    assert (Ht : truthy value = true).
    { destruct (truthy value) eqn:Ht; [reflexivity|].
      pose proof (NormalizerFacts.falsy_few_digits pd value Ht) as Hfew. lia. }
    rewrite Ht, H9. cbn [negb]. split; reflexivity.
Qed.

(** X16 on a nine-digit identifier written with dashes. *)
Lemma isValidBBL_refuses_nine_digits_witness :
  isValidBBL noDigits (JsString "1-00012-345") = false
  /\ normalizeBBL noDigits (JsString "1-00012-345") = Some "0100012345".
Proof.
  apply (isValidBBL_refuses_nine_digits noDigits (JsString "1-00012-345")).
  reflexivity.
Defined.

End ValidationFacts.

(** ** The deduplicator on arbitrary records *)

Module DeduplicatorLaws.
Import JS Classifier Housing Normalizer Examples DeduplicatorFacts.

Lemma push_fresh (k : string) (b : Building) (G : list (string * list Building)) :
  ~ In k (map fst G) -> pushToGroup k b G = G ++ [(k, [b])].
Proof.
  induction G as [|[k0 g0] rest IH]; cbn [pushToGroup map fst In app]; intros H.
  - reflexivity.
  - destruct (String.eqb_spec k0 k) as [->|_]; [tauto|].
    rewrite IH by tauto. reflexivity.
Qed.

Lemma push_length (k : string) (b : Building) (G : list (string * list Building)) :
  (length (pushToGroup k b G) <= S (length G))%nat.
Proof.
  induction G as [|[k0 g0] rest IH]; cbn [pushToGroup length]; [lia|].
  destruct (k0 =? k)%string; cbn [length]; lia.
Qed.

(** There are at most as many groups as records with an identifier. *)
Lemma grouping_length (bs : list Building) :
  forall U G,
    (length (snd (fold_left groupStep bs (U, G)))
     <= length G + length (List.filter (fun b => negb (lacksBbl b)) bs))%nat.
Proof.
  induction bs as [|b bs IH]; intros U G; cbn [fold_left List.filter length snd]; [lia|].
  rewrite groupStep_cases. destruct (lacksBbl b); cbn [negb].
  - apply IH.
  - etransitivity; [apply IH|]. pose proof (push_length (keyOf b) b G). cbn [length]. lia.
Qed.

Lemma filter_split_length {X : Type} (P : X -> bool) (l : list X) :
  (length (List.filter P l) + length (List.filter (fun x => negb (P x)) l) = length l)%nat.
Proof.
  induction l as [|x l IH]; cbn [List.filter length]; [reflexivity|].
  destruct (P x); cbn [negb length]; lia.
Qed.

Lemma distinctKeys_NoDup (G : list (string * list Building)) :
  distinctKeys G -> List.NoDup (map fst G).
Proof.
  induction G as [|[k g] rest IH]; cbn [distinctKeys map fst].
  - intros _. constructor.
  - intros [Hk Hrest]. constructor; [exact Hk|exact (IH Hrest)].
Qed.

(** The survivors carry the keys of the groups, in the order of the groups. *)
Lemma survivor_keys (bs : list Building) (G' : list (string * list Building))
    (S : list Building) :
  let G := snd (fold_left groupStep bs ([], [])) in
  distinctKeys G ->
  (forall kg, In kg G' -> In kg G) ->
  Forall2 (fun kg s => reduceBest (snd kg) = Some s) G' S ->
  map keyOf S = map fst G'
  /\ Forall (fun s => lacksBbl s = false) S
  /\ (forall s, In s S -> In s bs).
Proof.
  cbv zeta. intros Hd Hsub HF.
  induction HF as [|kg s G'' S' Hs HF IH].
  - split; [reflexivity|]. split; [constructor|]. intros s [].
  - destruct (survivor_is_filed bs kg s Hd (Hsub kg (or_introl eq_refl)) Hs)
      as (Hin & Hl & Hk).
    destruct IH as (Hkeys & Hall & Hins).
    { intros kg' Hkg'. apply Hsub. right. exact Hkg'. }
    split; [cbn [map]; rewrite Hk, Hkeys; reflexivity|].
    split; [constructor; assumption|].
    intros s' [<-|Hs']; [exact Hin|exact (Hins s' Hs')].
Qed.

(** Records without identifier only extend [uniqueBuildings]. *)
Lemma grouping_of_unfiled (bs : list Building) :
  Forall (fun b => lacksBbl b = true) bs ->
  forall U G, fold_left groupStep bs (U, G) = (U ++ bs, G).
Proof.
  intros H. induction H as [|b bs Hb _ IH]; intros U G; cbn [fold_left].
  - rewrite app_nil_r. reflexivity.
  - rewrite groupStep_cases, Hb, IH, <- app_assoc. reflexivity.
Qed.

(** Records with identifiers and pairwise different keys open one group each. *)
Lemma grouping_of_distinct (bs : list Building) :
  Forall (fun b => lacksBbl b = false) bs ->
  forall U G,
    List.NoDup (map fst G ++ map keyOf bs) ->
    fold_left groupStep bs (U, G) = (U, G ++ map (fun b => (keyOf b, [b])) bs).
Proof.
  intros H. induction H as [|b bs Hb _ IH]; intros U G Hnd; cbn [fold_left map].
  - rewrite app_nil_r. reflexivity.
  - rewrite groupStep_cases, Hb.
    cbn [map] in Hnd.
    assert (Hfresh : ~ In (keyOf b) (map fst G)).
    { apply NoDup_remove_2 in Hnd. intros Hin. apply Hnd. apply in_or_app. left. exact Hin. }
    rewrite (push_fresh _ _ _ Hfresh), IH.
    + rewrite <- app_assoc. reflexivity.
    + replace (map fst (G ++ [(keyOf b, [b])]) ++ map keyOf bs)
        with (map fst G ++ keyOf b :: map keyOf bs); [exact Hnd|].
      rewrite List.map_app, <- List.app_assoc. reflexivity.
Qed.

Lemma emit_singletons (S : list Building) :
  forall U, emitGroups U (map (fun b => (keyOf b, [b])) S) = Some (U ++ S).
Proof.
  induction S as [|s S IH]; intros U; cbn [map emitGroups].
  - rewrite app_nil_r. reflexivity.
  - rewrite IH, <- app_assoc. reflexivity.
Qed.

Lemma filter_all {X : Type} (P : X -> bool) (l : list X) :
  Forall (fun x => P x = true) l -> List.filter P l = l.
Proof.
  intros H. induction H as [|x l Hx _ IH]; cbn [List.filter]; [reflexivity|].
  rewrite Hx, IH. reflexivity.
Qed.

Lemma filter_lacking (bs : list Building) :
  Forall (fun b => lacksBbl b = true) (List.filter lacksBbl bs).
Proof.
  apply List.Forall_forall. intros b Hb. apply filter_In in Hb. apply Hb.
Qed.

(** The shape of the output: the records without identifier, then one
    survivor per group, under the keys of the groups. *)
Lemma deduplicate_structure (bs : list Building) :
  exists S,
    deduplicateBuildings bs = Some (List.filter lacksBbl bs ++ S)
    /\ map keyOf S = map fst (snd (fold_left groupStep bs ([], [])))
    /\ List.NoDup (map keyOf S)
    /\ Forall (fun s => lacksBbl s = false) S
    /\ (forall s, In s S -> In s bs)
    /\ (length S <= length (List.filter (fun b => negb (lacksBbl b)) bs))%nat.
Proof.
  unfold deduplicateBuildings.
  pose proof (grouping_unique bs [] []) as HU.
  pose proof (grouping_length bs [] []) as HL.
  destruct (grouping_wellformed bs [] [] I (List.Forall_nil _)) as [Hd Hn].
  pose proof (fun S => survivor_keys bs (snd (fold_left groupStep bs ([], []))) S Hd
                         (fun kg H => H)) as HS.
  destruct (fold_left groupStep bs ([], [])) as [U G]. cbn [fst snd app length] in *.
  destruct (emitGroups_survivors G Hn U) as [S [Hemit HF]].
  destruct (HS S HF) as (Hkeys & Hfiled & Hins).
  exists S. rewrite <- HU. split; [exact Hemit|]. split; [exact Hkeys|].
  split; [rewrite Hkeys; exact (distinctKeys_NoDup G Hd)|].
  split; [exact Hfiled|]. split; [exact Hins|].
  rewrite <- (Forall2_length _ _ _ HF). exact HL.
Qed.

(** X17: [deduplicateBuildings] on any array of construction records,
    whatever their identifiers: it returns (no group is ever empty); every
    record of the output is a record of the input and the output is not
    longer than the input; no two records of the output that carry an
    identifier are filed under the same key; and the output is a fixed
    point: deduplicating it again returns it unchanged, in the same order. *)
Theorem deduplicateBuildings_laws :
  forall buildings : list Building,
    exists out,
      deduplicateBuildings buildings = Some out
      /\ (forall b, In b out -> In b buildings)
      /\ (length out <= length buildings)%nat
      /\ List.NoDup (map keyOf (List.filter (fun b => negb (lacksBbl b)) out))
      /\ deduplicateBuildings out = Some out.
Proof.
  intros bs.
  destruct (deduplicate_structure bs) as (S & Hout & _ & Hnd & Hfiled & Hins & Hlen).
  set (U := List.filter lacksBbl bs) in *.
  exists (U ++ S). split; [exact Hout|].
  assert (HUl : Forall (fun b => lacksBbl b = true) U) by apply filter_lacking.
  assert (Hkeyed : List.filter (fun b => negb (lacksBbl b)) (U ++ S) = S).
  { rewrite List.filter_app, (filter_none (fun b => negb (lacksBbl b)) U).
    - cbn [app]. apply filter_all. eapply List.Forall_impl; [|exact Hfiled].
      intros s Hs. cbn beta. rewrite Hs. reflexivity.
    - intros b Hb. rewrite List.Forall_forall in HUl. rewrite (HUl b Hb). reflexivity. }
  split; [|split; [|split]].
  - intros b Hb. apply in_app_or in Hb as [Hb|Hb].
    + apply filter_In in Hb. apply Hb.
    + exact (Hins b Hb).
  - rewrite length_app. pose proof (filter_split_length lacksBbl bs). fold U in H. lia.
  - rewrite Hkeyed. exact Hnd.
  - unfold deduplicateBuildings. rewrite fold_left_app.
    rewrite (grouping_of_unfiled U HUl [] []). cbn [app].
    rewrite (grouping_of_distinct S Hfiled U []).
    + cbn [app]. apply emit_singletons.
    + cbn [map app]. exact Hnd.
Qed.

(** Under the invariant, every identifier of the input is the identifier
    of a record of the output. *)
Lemma identifier_survives (bs : list Building) (out : list Building) (b : Building)
    (p : string) :
  Forall (fun b => bblInvariant b = true) bs ->
  deduplicateBuildings bs = Some out ->
  In b bs -> bbl b = Some p ->
  exists s, In s out /\ bbl s = Some p.
Proof.
  intros Hinv Hout Hb Hp. rewrite List.Forall_forall in Hinv.
  destruct (deduplicate_structure bs) as (S & Hout' & Hkeys & _ & Hfiled & Hins & _).
  rewrite Hout in Hout'. injection Hout' as ->.
  destruct (invariant_some b p (Hinv b Hb) Hp) as [Hlen Hl].
  assert (Hkey : In (keyOf b) (map keyOf S)).
  { rewrite Hkeys. apply groupOf_key. rewrite grouping_groupOf. cbn [groupOf app].
    intros Hempty.
    assert (Hin : In b (List.filter
                          (fun b0 => negb (lacksBbl b0) && (keyOf b0 =? keyOf b)%string) bs)).
    { apply filter_In. split; [exact Hb|]. rewrite Hl, String.eqb_refl. reflexivity. }
    rewrite Hempty in Hin. destruct Hin. }
  apply in_map_iff in Hkey as [s [Hks Hs]].
  exists s. split; [apply in_or_app; right; exact Hs|].
  rewrite List.Forall_forall in Hfiled. specialize (Hfiled s Hs).
  unfold keyOf in Hks. rewrite Hp in Hks.
  destruct (bbl s) as [q|] eqn:Hq.
  - destruct (invariant_some s q (Hinv s (Hins s Hs)) Hq) as [Hlenq _].
    destruct (groupKey_inj q p _ _ ltac:(congruence) Hks) as [-> _]. reflexivity.
  - unfold lacksBbl in Hfiled. rewrite Hq in Hfiled. discriminate.
Qed.

End DeduplicatorLaws.

(** ** The merge and the deduplication in the pipeline *)

Module PipelineFacts.
Import JS Classifier Housing Processing ChangeDetector Examples OverlayFacts.
Import ProcessingFacts Pipeline PipelineExamples.

Lemma overlayBuilding_cases (m : gmap string AffordableData) (b : Building) :
  (overlayMatches m b = false /\ overlayBuilding m b = (b, false))
  \/ (overlayMatches m b = true
      /\ exists d, overlayBuilding m b = (applyOverlay b d, true)).
Proof.
  unfold overlayMatches, overlayBuilding.
  destruct (lacksBbl b); cbn [negb andb]; [left; split; reflexivity|].
  destruct (bbl b) as [p|]; [|left; split; reflexivity].
  destruct (m !! p) as [d|] eqn:Hd.
  - right. split; [apply bool_decide_eq_true; eexists; reflexivity|].
    exists d. reflexivity.
  - left. split; [|reflexivity]. apply bool_decide_eq_false. intros [d Hd']. discriminate.
Qed.

Lemma overlaidCount_counts (m : gmap string AffordableData) (todo : list Building) :
  forall done n,
    snd (overlayLoop m todo done n) = (n + length (List.filter (overlayMatches m) todo))%nat.
Proof.
  induction todo as [|b rest IH]; intros done n; cbn [overlayLoop List.filter].
  - cbn [snd length]. lia.
  - destruct (overlayBuilding_cases m b) as [[Hm Hb]|[Hm [d Hb]]]; rewrite Hb, Hm, IH;
      cbn [length]; lia.
Qed.

(** X18: [overlayAffordableData] returns one record per record, in order.
    A record whose identifier has an entry in the mapping comes out
    flagged with the overlay and the source "dcp-affordable"; any other
    record comes out as it was.  No record changes its job number, its
    identifier, its completion year or its unit count, so the key under
    which the deduplicator files it is the same before and after; and
    the counter [overlaidCount] is the number of records with an entry. *)
Theorem overlayAffordableData_keeps_identity :
  forall (dcpBuildings : list Building) (housingNyMap : gmap string AffordableData),
    Forall2
      (fun before after =>
         jobNumber after = jobNumber before
         /\ bbl after = bbl before
         /\ completionYear after = completionYear before
         /\ totalUnits after = totalUnits before
         /\ keyOf after = keyOf before
         /\ if overlayMatches housingNyMap before
            then hasAffordableOverlay after = true /\ dataSource after = "dcp-affordable"
            else after = before)
      dcpBuildings (overlayAffordableData dcpBuildings housingNyMap)
    /\ snd (overlayLoop housingNyMap dcpBuildings [] 0)
       = length (List.filter (overlayMatches housingNyMap) dcpBuildings).
Proof.
  intros bs m. split; [|rewrite overlaidCount_counts; reflexivity].
  rewrite overlayAffordableData_map.
  induction bs as [|b bs IH]; cbn [map]; constructor; [|exact IH].
  destruct (overlayBuilding_cases m b) as [[Hm Hb]|[Hm [d Hb]]]; rewrite Hb, Hm; cbn [fst].
  - repeat split.
  - repeat split.
Qed.

(** X19: the merge before the deduplication.  On records that enter the
    merge without overlay, as [processDCPHousing] builds them, two merged
    records with the same identifier carry the same overlay flag; so the
    choice the deduplicator makes between them never rests on the
    overlay: it is decided by the unit count and then by the job number. *)
Theorem overlay_never_breaks_a_tie :
  forall (dcpBuildings : list Building) (housingNyMap : gmap string AffordableData)
         (x y : Building),
    Forall (fun b => hasAffordableOverlay b = false) dcpBuildings ->
    In x (overlayAffordableData dcpBuildings housingNyMap) ->
    In y (overlayAffordableData dcpBuildings housingNyMap) ->
    bbl x = bbl y ->
    hasAffordableOverlay x = hasAffordableOverlay y
    /\ preferBuilding x y = preferByUnitsThenJob x y.
Proof.
  intros bs m x y Hplain Hx Hy Hbbl.
  assert (Hflag : forall z, In z (overlayAffordableData bs m) ->
                            hasAffordableOverlay z = overlayMatches m z).
  { intros z Hz. rewrite overlayAffordableData_map in Hz.
    apply in_map_iff in Hz as [b [<- Hb]].
    rewrite List.Forall_forall in Hplain. specialize (Hplain b Hb).
    destruct (overlayBuilding_cases m b) as [[Hm Hov]|[Hm [d Hov]]]; rewrite Hov; cbn [fst].
    - rewrite Hplain, Hm. reflexivity.
    - unfold overlayMatches in *. unfold lacksBbl in *.
      rewrite applyOverlay_bbl. cbn [hasAffordableOverlay applyOverlay].
      symmetry. exact Hm. }
  assert (Hsame : hasAffordableOverlay x = hasAffordableOverlay y).
  { rewrite (Hflag x Hx), (Hflag y Hy). unfold overlayMatches, lacksBbl.
    rewrite Hbbl. reflexivity. }
  split; [exact Hsame|].
  unfold preferBuilding, preferByUnitsThenJob. rewrite Hsame.
  destruct (hasAffordableOverlay y); cbn [andb negb]; reflexivity.
Qed.

(** X19 on the two jobs of parcel 1000123456 of the scenario, merged with a
    mapping that holds the parcel. *)
Lemma overlay_never_breaks_a_tie_witness :
  preferBuilding
    (fst (overlayBuilding {["1000123456" := plainOverlay]}
            (construction "J100" (Some "1000123456") 2020 40 false)))
    (fst (overlayBuilding {["1000123456" := plainOverlay]}
            (construction "J102" (Some "1000123456") 2021 45 false)))
  = preferByUnitsThenJob
      (fst (overlayBuilding {["1000123456" := plainOverlay]}
              (construction "J100" (Some "1000123456") 2020 40 false)))
      (fst (overlayBuilding {["1000123456" := plainOverlay]}
              (construction "J102" (Some "1000123456") 2021 45 false))).
Proof.
  apply (overlay_never_breaks_a_tie
           [construction "J100" (Some "1000123456") 2020 40 false;
            construction "J102" (Some "1000123456") 2021 45 false]
           {["1000123456" := plainOverlay]}).
  - repeat constructor.
  - left. reflexivity.
  - right. left. reflexivity.
  - reflexivity.
Defined.

Lemma processDCPHousing_count (pfs : string -> float) (pi : JsVal -> float)
    (mr : float -> float)
    (bl : gmap string JsVal -> float -> float -> float -> float -> Building)
    (records : list (gmap string JsVal)) :
  (length (fst (processDCPHousing pfs pi mr bl records)) <= length records)%nat.
Proof.
  unfold processDCPHousing. rewrite processDCPHousing_fold. cbn [fst app].
  induction records as [|r rest IH]; [reflexivity|].
  cbn [flat_map]. rewrite length_app. destruct (processRecord pfs pi mr bl r); cbn [length]; lia.
Qed.

(** When the intake returns, its buildings are those of the loop on the
    values. *)
Lemma intake_returned (pfs : string -> float) (pi : JsVal -> float) (mr : float -> float)
    (bl : gmap string JsVal -> float -> float -> float -> float -> Building)
    (iso : JsVal -> option string) (records : list (gmap string JsVal))
    (buildings : list Building) (skipped : nat) :
  ConstructionIntake.processDCPHousing pfs pi mr bl iso records
  = Returned (buildings, skipped) ->
  processDCPHousing pfs pi mr bl records = (buildings, skipped).
Proof.
  unfold ConstructionIntake.processDCPHousing. rewrite processLoop_cases.
  destruct (List.find _ records); [discriminate|]. intros [= H]. exact H.
Qed.

Lemma omap_filter_length {X Y : Type} (f : X -> option Y) (l : list X) :
  (length (omap f l) + length (List.filter (fun x => bool_decide (f x = None)) l)
   = length l)%nat.
Proof.
  induction l as [|x l IH]; [reflexivity|].
  cbn [omap list_omap List.filter]. destruct (f x) as [y|].
  - rewrite bool_decide_eq_false_2 by discriminate. cbn [length].
    change (omap f l) with (omap f l) in *. lia.
  - rewrite bool_decide_eq_true_2 by reflexivity. cbn [length].
    change (omap f l) with (omap f l) in *. lia.
Qed.

(** X20: [processDCPHousing] on every feed.  It throws when some record
    passes the three guards and has an object literal that throws (a
    completion or permit date that is truthy and not a date, a building
    class that is truthy and not a string): the error is that of the first
    such record, and the buildings processed before it are lost with it.
    Otherwise it returns, and accounts for every record of the feed: a
    record is either pushed, in the order of the feed, or counted in
    [skipped]; the buildings and the skipped records add up to the feed. *)
Theorem processDCPHousing_accounts_for_every_record :
  forall (parseFloatString : string -> float) (parseInt10 : JsVal -> float)
         (Math_round : float -> float)
         (buildingLiteral : gmap string JsVal -> float -> float -> float -> float -> Building)
         (toISOString : JsVal -> option string)
         (records : list (gmap string JsVal)),
    let run :=
      ConstructionIntake.processDCPHousing parseFloatString parseInt10 Math_round
        buildingLiteral toISOString in
    let process := processRecord parseFloatString parseInt10 Math_round buildingLiteral in
    match
      List.find
        (ConstructionIntake.throwing parseFloatString parseInt10 Math_round buildingLiteral
           toISOString) records
    with
    | Some record =>
        exists building message,
          In record records
          /\ process record = Some building
          /\ ConstructionIntake.literalError toISOString record = Some message
          /\ run records = Thrown message
    | None =>
        run records
        = Returned
            (omap process records,
             length (List.filter (fun record => bool_decide (process record = None)) records))
        /\ (length (omap process records)
            + length (List.filter (fun record => bool_decide (process record = None)) records)
            = length records)%nat
    end.
Proof.
  intros pfs pi mr bl iso records run process. subst run.
  unfold ConstructionIntake.processDCPHousing. rewrite processLoop_cases.
  destruct (List.find _ records) as [record|] eqn:Hfind.
  - apply find_some in Hfind as [Hin Hthrows].
    unfold ConstructionIntake.throwing in Hthrows. fold process in Hthrows.
    destruct (process record) as [building|] eqn:Hp; [|discriminate].
    destruct (ConstructionIntake.literalError iso record) as [message|] eqn:He;
      [|discriminate].
    exists building, message. repeat split; assumption.
  - rewrite processDCPHousing_fold. cbn [app Nat.add]. fold process.
    assert (H1 : flat_map (fun r => match process r with Some b => [b] | None => [] end)
                   records
                 = omap process records).
    { clear Hfind. induction records as [|r rest IH]; [reflexivity|].
      cbn [flat_map omap list_omap]. rewrite IH. destruct (process r); reflexivity. }
    assert (H2 : List.filter
                   (fun r => match process r with Some _ => false | None => true end) records
                 = List.filter (fun record => bool_decide (process record = None)) records).
    { apply filter_ext. intros r. destruct (process r) as [b|].
      - symmetry. apply bool_decide_eq_false. discriminate.
      - symmetry. apply bool_decide_eq_true. reflexivity. }
    rewrite H1, H2. split; [reflexivity|]. apply omap_filter_length.
Qed.

(** The intake on a feed of a sound feature and a feature with no
    latitude, and on the same feed followed by a feature whose building
    class is the number 7. *)
Example processDCPHousing_run :
  ConstructionIntake.processDCPHousing noStringParsed parseIntOfNumber roundOfIntegral
    plainBuilding DemolitionExamples.noDate
    [ValidationExamples.soundFeature; missingLatitudeFeature]
  = Returned ([plainBuilding ValidationExamples.soundFeature 40.75%float (-73.75)%float
                 2020%float 12%float], 1%nat)
  /\ ConstructionIntake.processDCPHousing noStringParsed parseIntOfNumber roundOfIntegral
       plainBuilding DemolitionExamples.noDate
       [ValidationExamples.soundFeature; missingLatitudeFeature;
        ValidationExamples.numberedClassFeature]
     = Thrown "TypeError".
Proof. split; vm_compute; reflexivity. Qed.

End PipelineFacts.

(** ** Demolitions *)

Module DemolitionFacts.
Import JS Normalizer Processing ChangeDetector FloatOrderFacts Housing Demolitions.
Import DeduplicatorFacts DeduplicatorLaws Examples ValidationExamples HousingNYExamples.

Section Intake.

Variable parseFloatString : string -> float.
Variable parseInt10 : JsVal -> float.
Variable Math_round : float -> float.
Variable positiveDigits : float -> string.
Variable toISOString : JsVal -> option string.

(** What the loop guarantees of a demolition it pushed. *)
Lemma pushed_demolition (record : gmap string JsVal) (d : Demolition) :
  processDemolition parseFloatString parseInt10 Math_round positiveDigits toISOString record
  = Pushed d ->
  isDemolition record = true /\ soundDemolition d.
Proof using Type.
  unfold processDemolition, soundDemolition.
  destruct (isDemolition record); cbn [negb]; [|discriminate].
  set (year := parseInt10 (getProp record "CompltYear")).
  destruct (isNaN year || lt year 2014%float || gt year 2025%float) eqn:Hguard;
    [discriminate|].
  apply orb_false_iff in Hguard as [Hguard Hgt].
  apply orb_false_iff in Hguard as [Hnan Hlt].
  assert (Hmin : le 2014%float year = true).
  { apply not_lt_leb; [exact Hnan|reflexivity|exact Hlt]. }
  assert (Hmax : le year 2025%float = true).
  { apply not_lt_leb; [reflexivity|exact Hnan|exact Hgt]. }
  destruct (truthy (getProp record "DateComplt"));
    [destruct (toISOString (getProp record "DateComplt")); [|discriminate]|];
    intros [= <-]; cbn [jobType hasNewConstruction demolitionYear id];
    (split; [reflexivity|]); (split; [reflexivity|]); (split; [reflexivity|]);
    (split; [exact Hmin|]); (split; [exact Hmax|]);
    (split;
     [destruct (truthy (getProp record "Job_Number")) eqn:Hj; [exact Hj|reflexivity]|]);
    cbn [truthy]; rewrite Hnan;
    rewrite (above_positive_nonzero 2014%float year eq_refl Hmin); reflexivity.
Qed.

Lemma processDemolition_cases (record : gmap string JsVal) :
  if unreadableDate parseInt10 toISOString record
  then processDemolition parseFloatString parseInt10 Math_round positiveDigits toISOString
         record = Failed "RangeError"
  else (isDemolition record = false
        /\ processDemolition parseFloatString parseInt10 Math_round positiveDigits
             toISOString record = NotADemolition)
       \/ (isDemolition record = true
           /\ processDemolition parseFloatString parseInt10 Math_round positiveDigits
                toISOString record = Skipped)
       \/ (isDemolition record = true
           /\ exists d,
               processDemolition parseFloatString parseInt10 Math_round positiveDigits
                 toISOString record = Pushed d).
Proof using Type.
  unfold unreadableDate, processDemolition.
  destruct (isDemolition record); cbn [negb andb]; [|left; split; reflexivity].
  destruct (isNaN _ || lt _ _ || gt _ _); cbn [negb andb];
    [right; left; split; reflexivity|].
  destruct (truthy (getProp record "DateComplt")); cbn [andb].
  - destruct (toISOString (getProp record "DateComplt")); [|reflexivity].
    right. right. split; [reflexivity|]. eexists. reflexivity.
  - right. right. split; [reflexivity|]. eexists. reflexivity.
Qed.

Lemma demolitionLoop_cases (records : list (gmap string JsVal)) :
  forall (acc : list Demolition) (skipped : nat),
    Forall soundDemolition acc ->
    if existsb (unreadableDate parseInt10 toISOString) records
    then demolitionLoop parseFloatString parseInt10 Math_round positiveDigits toISOString
           records acc skipped = Thrown "RangeError"
    else exists demolitions skipped',
        demolitionLoop parseFloatString parseInt10 Math_round positiveDigits toISOString
          records acc skipped = Returned (demolitions, skipped')
        /\ (length demolitions + skipped'
            = length acc + skipped + length (List.filter isDemolition records))%nat
        /\ Forall soundDemolition demolitions.
Proof using Type.
  induction records as [|record rest IH]; intros acc skipped Hacc;
    cbn [existsb demolitionLoop List.filter].
  - exists acc, skipped. split; [reflexivity|]. split; [cbn [length]; lia|exact Hacc].
  - pose proof (processDemolition_cases record) as Hcase.
    destruct (unreadableDate parseInt10 toISOString record); cbn [orb].
    + rewrite Hcase. reflexivity.
    + destruct Hcase as [[Hd Hp]|[[Hd Hp]|[Hd [d Hp]]]]; rewrite Hp, Hd.
      * apply IH. exact Hacc.
      * specialize (IH acc (S skipped) Hacc).
        destruct (existsb _ rest); [exact IH|].
        destruct IH as (ds & sk & Hrun & Hcount & Hall).
        exists ds, sk. split; [exact Hrun|]. split; [cbn [length]; lia|exact Hall].
      * destruct (pushed_demolition record d Hp) as [_ Hsound].
        specialize (IH (acc ++ [d]) skipped).
        destruct (existsb _ rest).
        -- apply IH. apply Forall_app. split; [exact Hacc|constructor; [exact Hsound|constructor]].
        -- destruct IH as (ds & sk & Hrun & Hcount & Hall).
           { apply Forall_app. split; [exact Hacc|constructor; [exact Hsound|constructor]]. }
           exists ds, sk. split; [exact Hrun|]. split; [|exact Hall].
           rewrite length_app in Hcount. cbn [length] in *. lia.
Qed.

End Intake.

Lemma sound_demolitions_pass (demolitions : list Demolition) :
  Forall soundDemolition demolitions -> someMissingFields demolitions = false.
Proof.
  intros H. induction H as [|d ds Hd _ IH]; [reflexivity|].
  unfold someMissingFields in *. cbn [existsb].
  destruct Hd as (_ & _ & _ & _ & -> & ->). exact IH.
Qed.

(** X21: [processDCPDemolitions] throws a [RangeError] exactly when some
    feature of job type Demolition with a year from 2014 to 2025 carries a
    completion date that is truthy and is not a date; otherwise it
    returns, and then the demolitions pushed and the records skipped add
    up to the features of job type Demolition (the others are not
    counted); each demolition pushed has a year from 2014 to 2025 and no
    construction flag, and its [id] and [demolitionYear] are truthy, so
    that the check of [main] for missing fields never fires. *)
Theorem processDCPDemolitions_accounts_for_demolitions :
  forall (parseFloatString : string -> float) (parseInt10 : JsVal -> float)
         (Math_round : float -> float) (positiveDigits : float -> string)
         (toISOString : JsVal -> option string) (records : list (gmap string JsVal)),
    if existsb (unreadableDate parseInt10 toISOString) records
    then processDCPDemolitions parseFloatString parseInt10 Math_round positiveDigits
           toISOString records = Thrown "RangeError"
    else exists demolitions skipped,
        processDCPDemolitions parseFloatString parseInt10 Math_round positiveDigits
          toISOString records = Returned (demolitions, skipped)
        /\ (length demolitions + skipped = length (List.filter isDemolition records))%nat
        /\ Forall soundDemolition demolitions
        /\ someMissingFields demolitions = false.
Proof.
  intros pfs pi mr pd iso records. unfold processDCPDemolitions.
  pose proof (demolitionLoop_cases pfs pi mr pd iso records [] 0%nat (List.Forall_nil _)) as H.
  destruct (existsb (unreadableDate pi iso) records); [exact H|].
  destruct H as (ds & sk & Hrun & Hcount & Hall).
  exists ds, sk. split; [exact Hrun|]. split; [cbn [length] in Hcount; lia|].
  split; [exact Hall|exact (sound_demolitions_pass ds Hall)].
Qed.

(** A run on a construction feature and two demolitions, and the same
    with a demolition whose date is not a date. *)
Example processDCPDemolitions_run :
  (exists d1 d2,
      processDCPDemolitions noStringParsed parseIntOfNumber roundOfIntegral noDigits
        DemolitionExamples.noDate
        [soundFeature; DemolitionExamples.demolitionFeature "3012340056" "D-1";
         DemolitionExamples.demolitionFeature "1000123456" "D-2"]
      = Returned ([d1; d2], 0%nat))
  /\ processDCPDemolitions noStringParsed parseIntOfNumber roundOfIntegral noDigits
       DemolitionExamples.noDate
       [DemolitionExamples.demolitionFeature "3012340056" "D-1";
        DemolitionExamples.undatedDemolition]
     = Thrown "RangeError".
Proof.
  split; [eexists; eexists|]; vm_compute; reflexivity.
Qed.

(** *** Matching *)

Lemma elem_buildingBBLs (buildings : list Building) (p : string) :
  p ∈ buildingBBLs buildings
  <-> exists b, In b buildings /\ Housing.bbl b = Some p /\ p <> "".
Proof.
  unfold buildingBBLs. rewrite elem_of_list_to_set, list_elem_of_omap.
  split.
  - intros [b [Hb Hp]]. exists b. split; [apply list_elem_of_In, Hb|].
    unfold truthyBbl in Hp. destruct (Housing.bbl b) as [q|]; [|discriminate].
    destruct (String.eqb_spec q "") as [Heq|Hne]; [subst q; discriminate|].
    injection Hp as ->. split; [reflexivity|exact Hne].
  - intros [b [Hb [Hp Hne]]]. exists b. split; [apply list_elem_of_In, Hb|].
    unfold truthyBbl. rewrite Hp.
    destruct (String.eqb_spec p "") as [->|_]; [congruence|reflexivity].
Qed.

(** X22: the matching step of [main].  It keeps the demolitions one for
    one and in order, and changes nothing in a demolition but its
    construction flag: every other field of the record is as it was.  A
    demolition is flagged when it was flagged before, or when its
    identifier is truthy and is the identifier of some building, whatever
    the years of the two; the demolitions flagged and the standalone ones
    add up to the demolitions. *)
Theorem matchDemolitions_flags_by_identifier :
  forall (buildings : list Building) (demolitions : list Demolition),
    Forall2
      (fun before after =>
         after
         = {| id := id before;
              jobNumber := jobNumber before;
              jobType := jobType before;
              bbl := bbl before;
              latitude := latitude before;
              longitude := longitude before;
              demolitionYear := demolitionYear before;
              demolitionDate := demolitionDate before;
              classAInit := classAInit before;
              classANet := classANet before;
              estimatedUnits := estimatedUnits before;
              hasNewConstruction := hasNewConstruction after |}
         /\ (hasNewConstruction after = true
             <-> hasNewConstruction before = true
                 \/ exists b p, In b buildings /\ Housing.bbl b = Some p
                                /\ p <> "" /\ bbl before = Some p))
      demolitions (matchDemolitions buildings demolitions)
    /\ (length (standaloneDemolitions (matchDemolitions buildings demolitions))
        + length (List.filter hasNewConstruction (matchDemolitions buildings demolitions))
        = length demolitions)%nat.
Proof.
  intros buildings demolitions. split.
  - unfold matchDemolitions.
    induction demolitions as [|d ds IH]; cbn [map]; constructor; [|exact IH].
    unfold matchDemolition.
    destruct (truthyBbl (bbl d)) as [p|] eqn:Hp.
    + assert (Hd : bbl d = Some p /\ p <> "").
      { unfold truthyBbl in Hp. destruct (bbl d) as [q|]; [|discriminate].
        destruct (String.eqb_spec q "") as [Heq|Hne]; [subst q; discriminate|].
        injection Hp as ->. split; [reflexivity|exact Hne]. }
      destruct Hd as [Hbbl Hne].
      destruct (bool_decide (p ∈ buildingBBLs buildings)) eqn:Hin.
      * apply bool_decide_eq_true in Hin. apply elem_buildingBBLs in Hin as [b [Hb [Hbp _]]].
        split; [reflexivity|]. cbn [hasNewConstruction]. split; [|reflexivity].
        intros _. right. exists b, p. repeat split; assumption.
      * apply bool_decide_eq_false in Hin.
        split; [destruct d; reflexivity|]. split; [intros H; left; exact H|].
        intros [H|[b [q [Hb [Hbq [Hq Hdq]]]]]]; [exact H|].
        exfalso. apply Hin. apply elem_buildingBBLs. exists b.
        rewrite Hbbl in Hdq. injection Hdq as <-. repeat split; assumption.
    + split; [destruct d; reflexivity|]. split; [intros H; left; exact H|].
      intros [H|[b [q [Hb [Hbq [Hq Hdq]]]]]]; [exact H|].
      unfold truthyBbl in Hp. rewrite Hdq in Hp.
      destruct (String.eqb_spec q "") as [Heq|_]; [contradiction|discriminate].
  - unfold standaloneDemolitions.
    rewrite <- (length_map (matchDemolition (buildingBBLs buildings)) demolitions).
    fold (matchDemolitions buildings demolitions).
    pose proof (filter_split_length hasNewConstruction (matchDemolitions buildings demolitions)).
    lia.
Qed.

(** X23: matching after deduplication.  On construction records whose
    identifiers are ten digits, the buildings the deduplicator returns
    carry the same identifiers as the records it was given, so the
    matching flags the same demolitions whether it reads the buildings
    before or after deduplication. *)
Theorem matching_is_blind_to_deduplication :
  forall (buildings out : list Building) (demolitions : list Demolition),
    Forall (fun b => bblInvariant b = true) buildings ->
    deduplicateBuildings buildings = Some out ->
    buildingBBLs out = buildingBBLs buildings
    /\ matchDemolitions out demolitions = matchDemolitions buildings demolitions.
Proof.
  intros bs out ds Hinv Hout.
  assert (Hset : buildingBBLs out = buildingBBLs bs).
  { apply set_eq. intros p. rewrite !elem_buildingBBLs. split.
    - intros [b [Hb Hp]]. exists b. split; [|exact Hp].
      destruct (deduplicate_structure bs) as (S & Hout' & _ & _ & _ & Hins & _).
      rewrite Hout in Hout'. injection Hout' as ->.
      apply in_app_or in Hb as [Hb|Hb]; [apply filter_In in Hb; apply Hb|exact (Hins b Hb)].
    - intros [b [Hb [Hp Hne]]].
      destruct (identifier_survives bs out b p Hinv Hout Hb Hp) as [s [Hs Hsp]].
      exists s. repeat split; assumption. }
  split; [exact Hset|]. unfold matchDemolitions. rewrite Hset. reflexivity.
Qed.

(** X23 on the scenario. *)
Lemma matching_is_blind_to_deduplication_witness :
  buildingBBLs
    [construction "J050" None 2020 7 false;
     construction "J101" (Some "1000123456") 2020 45 true;
     construction "J102" (Some "1000123456") 2021 45 false;
     construction "J201" (Some "3000500012") 2019 10 false]
  = buildingBBLs scenario.
Proof.
  apply (matching_is_blind_to_deduplication scenario
           [construction "J050" None 2020 7 false;
            construction "J101" (Some "1000123456") 2020 45 true;
            construction "J102" (Some "1000123456") 2021 45 false;
            construction "J201" (Some "3000500012") 2019 10 false] []).
  - repeat constructor.
  - vm_compute. reflexivity.
Defined.

End DemolitionFacts.

(** ** Paged fetching and batched insertion *)

Module SeedUtilsFacts.
Import JS ChangeDetector SeedUtils.

Lemma firstn_then_page {X : Type} (l : list X) (a b : nat) :
  firstn a l ++ firstn b (skipn a l) = firstn (a + b) l.
Proof.
  revert l. induction a as [|a IH]; intros l; [reflexivity|].
  destruct l as [|x l]; cbn [firstn skipn Nat.add app].
  - rewrite firstn_nil. reflexivity.
  - rewrite IH. reflexivity.
Qed.

Lemma sliceTo_prefix {X : Type} (totalLimit : option nat) (l : list X) (offset : nat) :
  belowLimit (length (firstn offset l)) totalLimit = false ->
  sliceTo totalLimit (firstn offset l) = sliceTo totalLimit l.
Proof.
  destruct totalLimit as [n|]; cbn [belowLimit sliceTo]; [|discriminate].
  intros H. apply Nat.ltb_ge in H. rewrite length_firstn in H.
  rewrite firstn_firstn. f_equal. lia.
Qed.

Section Service.

Variable Rec : Type.
Variable dataset : list Rec.
Variable cap : nat.

Lemma fetchPage_service (failures limit offset : nat) :
  fetchPage Rec nat (service dataset cap) failures limit offset
  = if (failures <? 3)%nat
    then (0%nat, Returned (Some (firstn (Nat.min limit cap) (skipn offset dataset))))
    else ((failures - 3)%nat, Thrown "ECONNRESET").
Proof using Type.
  unfold fetchPage.
  destruct failures as [|[|[|n]]]; cbn [service Nat.ltb Nat.leb Nat.sub]; try reflexivity.
  rewrite Nat.sub_0_r. reflexivity.
Qed.

(** The loop of [fetchNycOpenData] on a service that serves full pages. *)
Lemma fetchPages_full_pages (limit : nat) (totalLimit : option nat) (fuel : nat) :
  (0 < limit <= cap)%nat ->
  forall (failures offset : nat),
    (failures < 3)%nat ->
    (offset <= length dataset)%nat ->
    (length dataset - offset < fuel)%nat ->
    exists state all,
      fetchPages Rec nat (service dataset cap) fuel limit totalLimit failures
        (firstn offset dataset) offset = Some (state, Returned all)
      /\ sliceTo totalLimit all = sliceTo totalLimit dataset.
Proof using Type.
  intros Hlimit. induction fuel as [|fuel IH]; intros failures offset Hf Hoff Hfuel; [lia|].
  cbn [fetchPages].
  destruct (belowLimit (length (firstn offset dataset)) totalLimit) eqn:Hbelow; cbn [negb].
  2:{ exists failures, (firstn offset dataset). split; [reflexivity|].
      apply sliceTo_prefix. exact Hbelow. }
  rewrite fetchPage_service.
  replace (failures <? 3)%nat with true by (symmetry; apply Nat.ltb_lt; exact Hf).
  replace (Nat.min limit cap) with limit by lia.
  set (page := firstn limit (skipn offset dataset)).
  assert (Hpage : length page = Nat.min limit (length dataset - offset)).
  { unfold page. rewrite length_firstn, length_skipn. reflexivity. }
  destruct (length page =? 0)%nat eqn:Hzero.
  { apply Nat.eqb_eq in Hzero. exists 0%nat, (firstn offset dataset). split; [reflexivity|].
    f_equal. apply firstn_all2. lia. }
  apply Nat.eqb_neq in Hzero.
  destruct (length page <? limit)%nat eqn:Hshort.
  { apply Nat.ltb_lt in Hshort. exists 0%nat, (firstn offset dataset ++ page).
    split; [reflexivity|]. f_equal. unfold page. rewrite firstn_then_page.
    apply firstn_all2. lia. }
  apply Nat.ltb_ge in Hshort.
  assert (Hfull : length page = limit) by lia.
  unfold page at 1. rewrite firstn_then_page, Hfull.
  apply IH; lia.
Qed.

(** The loop of [fetchArcGISFeatures] on a service that serves full pages. *)
Lemma fetchFeatures_full_pages (batchSize : nat) (fuel : nat) :
  (0 < batchSize <= cap)%nat ->
  forall offset : nat,
    (offset <= length dataset)%nat ->
    (length dataset - offset < fuel)%nat ->
    fetchFeatures Rec nat (service dataset cap) fuel batchSize 0%nat
      (firstn offset dataset) offset
    = Some (0%nat, Returned dataset).
Proof using Type.
  intros Hsize. induction fuel as [|fuel IH]; intros offset Hoff Hfuel; [lia|].
  cbn [fetchFeatures service].
  replace (Nat.min batchSize cap) with batchSize by lia.
  set (page := firstn batchSize (skipn offset dataset)).
  assert (Hpage : length page = Nat.min batchSize (length dataset - offset)).
  { unfold page. rewrite length_firstn, length_skipn. reflexivity. }
  destruct (length page =? 0)%nat eqn:Hzero.
  { apply Nat.eqb_eq in Hzero. do 3 f_equal. apply firstn_all2. lia. }
  apply Nat.eqb_neq in Hzero.
  destruct (length page <? batchSize)%nat eqn:Hshort.
  { apply Nat.ltb_lt in Hshort. do 3 f_equal. unfold page. rewrite firstn_then_page.
    apply firstn_all2. lia. }
  apply Nat.ltb_ge in Hshort.
  unfold page at 1. rewrite firstn_then_page.
  apply IH; lia.
Qed.

End Service.

Section Inserting.

Variable Rec : Type.
Variable rejects : list Rec -> list Rec -> option string.
Variable records : list Rec.
Variable batchSize : nat.

(** The loop of [batchInsert] from index [i]. *)
Lemma insertFrom_prefix (fuel : nat) :
  (0 < batchSize)%nat ->
  forall (i : nat) (table : list Rec),
    (length records - i <= fuel)%nat ->
    exists k outcome,
      insertFrom Rec rejects fuel records batchSize i table
      = Some (table ++ firstn (k * batchSize) (skipn i records), outcome)
      /\ match outcome with
         | Returned _ => (length records <= i + k * batchSize)%nat
         | Thrown message =>
             (i + k * batchSize < length records)%nat
             /\ rejects (table ++ firstn (k * batchSize) (skipn i records))
                  (firstn batchSize (skipn (i + k * batchSize) records))
                = Some message
         end.
Proof using Type.
  intros Hsize. induction fuel as [|fuel IH]; intros i table Hfuel.
  - exists 0%nat, (Returned JsUndefined). cbn [insertFrom Nat.mul firstn].
    replace (i <? length records)%nat with false by (symmetry; apply Nat.ltb_ge; lia).
    cbn [negb]. rewrite app_nil_r. split; [reflexivity|lia].
  - cbn [insertFrom]. destruct (i <? length records)%nat eqn:Hi; cbn [negb].
    2:{ apply Nat.ltb_ge in Hi. exists 0%nat, (Returned JsUndefined).
        cbn [Nat.mul firstn]. rewrite app_nil_r. split; [reflexivity|lia]. }
    apply Nat.ltb_lt in Hi.
    destruct (rejects table (firstn batchSize (skipn i records))) as [message|] eqn:Hrej.
    + exists 0%nat, (Thrown message). cbn [Nat.mul firstn]. rewrite app_nil_r, Nat.add_0_r.
      split; [reflexivity|]. split; [exact Hi|exact Hrej].
    + destruct (IH (i + batchSize)%nat (table ++ firstn batchSize (skipn i records)))
        as (k & outcome & Hrun & Hend); [lia|].
      exists (S k), outcome.
      assert (Hlist : (table ++ firstn batchSize (skipn i records))
                      ++ firstn (k * batchSize) (skipn (i + batchSize) records)
                      = table ++ firstn (S k * batchSize) (skipn i records)).
      { rewrite <- app_assoc. f_equal.
        replace (skipn (i + batchSize) records) with (skipn batchSize (skipn i records))
          by (rewrite skipn_skipn; f_equal; lia).
        rewrite firstn_then_page. f_equal. }
      rewrite Hlist in Hrun, Hend. split; [exact Hrun|].
      destruct outcome as [v|message].
      * cbn [Nat.mul]. lia.
      * destruct Hend as [Hlt Hrej']. split; [cbn [Nat.mul]; lia|].
        replace (i + S k * batchSize)%nat with (i + batchSize + k * batchSize)%nat
          by (cbn [Nat.mul]; lia).
        exact Hrej'.
Qed.

End Inserting.

(** X24: [fetchNycOpenData] against a service that holds a dataset, fails
    a number of requests before it answers and serves at most [cap]
    records a page.  After three failures in a row the fetch throws; after
    fewer it goes on.  When the service serves pages as long as asked
    for, the fetch returns the dataset, cut to [totalLimit] records.  When
    the service serves shorter pages than asked for, the first page is
    taken for the last one: the fetch returns the first [cap] records and
    nothing tells that the dataset holds more. *)
Theorem fetchNycOpenData_on_a_paging_service :
  forall (Rec : Type) (dataset : list Rec) (cap limit : nat) (totalLimit : option nat)
         (failures fuel : nat),
    (0 < limit)%nat ->
    (length dataset < fuel)%nat ->
    belowLimit 0 totalLimit = true ->
    if (failures <? 3)%nat
    then exists state,
        fetchNycOpenData Rec nat (service dataset cap) fuel limit totalLimit failures
        = Some (state,
                Returned (sliceTo totalLimit
                            (if (cap <? limit)%nat then firstn cap dataset else dataset)))
    else fetchNycOpenData Rec nat (service dataset cap) fuel limit totalLimit failures
         = Some ((failures - 3)%nat, Thrown "ECONNRESET").
Proof.
  intros Rec dataset cap limit totalLimit failures fuel Hlimit Hfuel Hbelow.
  unfold fetchNycOpenData.
  destruct (failures <? 3)%nat eqn:Hf.
  - apply Nat.ltb_lt in Hf. destruct (cap <? limit)%nat eqn:Hcap.
    + apply Nat.ltb_lt in Hcap. destruct fuel as [|fuel]; [lia|].
      cbn [fetchPages length]. rewrite Hbelow. cbn [negb].
      rewrite fetchPage_service.
      replace (failures <? 3)%nat with true by (symmetry; apply Nat.ltb_lt; exact Hf).
      replace (Nat.min limit cap) with cap by lia. rewrite skipn_O. cbn [app].
      destruct (length (firstn cap dataset) =? 0)%nat eqn:Hzero.
      * apply Nat.eqb_eq in Hzero. exists 0%nat.
        destruct (firstn cap dataset); [reflexivity|discriminate].
      * replace (length (firstn cap dataset) <? limit)%nat with true
          by (symmetry; apply Nat.ltb_lt; rewrite length_firstn; lia).
        exists 0%nat. reflexivity.
    + apply Nat.ltb_ge in Hcap.
      destruct (fetchPages_full_pages Rec dataset cap limit totalLimit fuel
                  (conj Hlimit Hcap) failures 0%nat Hf (Nat.le_0_l _))
        as (state & all & Hrun & Hall); [lia|].
      change (firstn 0 dataset) with (@nil Rec) in Hrun.
      rewrite Hrun, Hall. exists state. reflexivity.
  - apply Nat.ltb_ge in Hf. destruct fuel as [|fuel]; [lia|].
    cbn [fetchPages length]. rewrite Hbelow. cbn [negb].
    rewrite fetchPage_service.
    replace (failures <? 3)%nat with false by (symmetry; apply Nat.ltb_ge; exact Hf).
    reflexivity.
Qed.

(** X24 on a dataset of seven records asked for by pages of three: from a
    service that fails twice and serves full pages, and from a service
    that serves two records a page. *)
Lemma fetchNycOpenData_on_a_paging_service_witness :
  (exists state,
      fetchNycOpenData nat nat (service (seq 1 7) 3) 8 3 None 2%nat
      = Some (state, Returned (seq 1 7)))
  /\ (exists state,
         fetchNycOpenData nat nat (service (seq 1 7) 2) 8 3 None 0%nat
         = Some (state, Returned [1; 2]%nat)).
Proof.
  split.
  - apply (fetchNycOpenData_on_a_paging_service nat (seq 1 7) 3 3 None 2 8);
      [lia|cbn; lia|reflexivity].
  - apply (fetchNycOpenData_on_a_paging_service nat (seq 1 7) 2 3 None 0 8);
      [lia|cbn; lia|reflexivity].
Defined.

(** X25: [fetchArcGISFeatures] against the same service.  It does not
    retry: the first failure is thrown.  When the service serves pages as
    long as asked for, the fetch returns the dataset; when the service
    caps its pages below [batchSize], the fetch returns the first page
    only. *)
Theorem fetchArcGISFeatures_on_a_paging_service :
  forall (Rec : Type) (dataset : list Rec) (cap batchSize failures fuel : nat),
    (0 < batchSize)%nat ->
    (length dataset < fuel)%nat ->
    fetchArcGISFeatures Rec nat (service dataset cap) fuel batchSize failures
    = match failures with
      | O => Some (0%nat,
                   Returned (if (cap <? batchSize)%nat then firstn cap dataset else dataset))
      | S n => Some (n, Thrown "ECONNRESET")
      end.
Proof.
  intros Rec dataset cap batchSize failures fuel Hsize Hfuel.
  unfold fetchArcGISFeatures. destruct failures as [|n].
  - destruct (cap <? batchSize)%nat eqn:Hcap.
    + apply Nat.ltb_lt in Hcap. destruct fuel as [|fuel]; [lia|].
      cbn [fetchFeatures service]. replace (Nat.min batchSize cap) with cap by lia.
      rewrite skipn_O. cbn [app].
      destruct (length (firstn cap dataset) =? 0)%nat eqn:Hzero.
      * apply Nat.eqb_eq in Hzero.
        destruct (firstn cap dataset); [reflexivity|discriminate].
      * replace (length (firstn cap dataset) <? batchSize)%nat with true
          by (symmetry; apply Nat.ltb_lt; rewrite length_firstn; lia).
        reflexivity.
    + apply Nat.ltb_ge in Hcap.
      change (@nil Rec) with (firstn 0 dataset).
      apply (fetchFeatures_full_pages Rec dataset cap batchSize fuel (conj Hsize Hcap) 0%nat);
        lia.
  - destruct fuel as [|fuel]; [lia|]. reflexivity.
Qed.

(** X25 on a dataset of seven records asked for by pages of three from a
    service that serves two records a page. *)
Lemma fetchArcGISFeatures_on_a_paging_service_witness :
  fetchArcGISFeatures nat nat (service (seq 1 7) 2) 8 3 0%nat
  = Some (0%nat, Returned [1; 2]%nat).
Proof.
  apply (fetchArcGISFeatures_on_a_paging_service nat (seq 1 7) 2 3 0 8); [lia|cbn; lia].
Defined.

Lemma batchInsert_prefix (Rec : Type) (rejects : list Rec -> list Rec -> option string)
    (records : list Rec) (batchSize : nat) (table : list Rec) (fuel : nat) :
  (0 < batchSize)%nat ->
  (length records <= fuel)%nat ->
  exists k outcome,
    batchInsert Rec rejects fuel records batchSize table
    = Some (table ++ firstn (k * batchSize) records, outcome)
    /\ match outcome with
       | Returned _ => firstn (k * batchSize) records = records
       | Thrown message =>
           (k * batchSize < length records)%nat
           /\ rejects (table ++ firstn (k * batchSize) records)
                (firstn batchSize (skipn (k * batchSize) records))
              = Some message
       end.
Proof.
  intros Hsize Hfuel.
  unfold batchInsert. destruct records as [|r rest] eqn:Hrecords.
  - exists 0%nat, (Returned JsUndefined). cbn [Nat.mul firstn]. rewrite app_nil_r.
    split; reflexivity.
  - rewrite <- Hrecords in *.
    destruct (insertFrom_prefix Rec rejects records batchSize fuel Hsize 0%nat table)
      as (k & outcome & Hrun & Hend); [lia|].
    cbn [skipn Nat.add] in Hrun, Hend. exists k, outcome. split; [exact Hrun|].
    destruct outcome as [v|message]; [apply firstn_all2; lia|exact Hend].
Qed.

(** X26: [batchInsert] with a positive batch size returns or throws, and
    leaves in the table the batches inserted so far, in order: all the
    records when it returns; when a batch is rejected, the error of that
    batch is thrown and the records of the batches before it, a multiple
    of the batch size, stay in the table. *)
Theorem batchInsert_writes_a_prefix :
  forall (Rec : Type) (rejects : list Rec -> list Rec -> option string)
         (records : list Rec) (batchSize : nat) (table : list Rec) (fuel : nat),
    (0 < batchSize)%nat ->
    (length records <= fuel)%nat ->
    exists k outcome,
      batchInsert Rec rejects fuel records batchSize table
      = Some (table ++ firstn (k * batchSize) records, outcome)
      /\ match outcome with
         | Returned _ => firstn (k * batchSize) records = records
         | Thrown message =>
             (k * batchSize < length records)%nat
             /\ rejects (table ++ firstn (k * batchSize) records)
                  (firstn batchSize (skipn (k * batchSize) records))
                = Some message
         end.
Proof.
  intros Rec rejects records batchSize table fuel. apply batchInsert_prefix.
Qed.

(** X26 on seven records in batches of three, into a table that takes
    them all and into a table with room for four rows. *)
Lemma batchInsert_writes_a_prefix_witness :
  batchInsert nat acceptsAll 7 (seq 1 7) 3 [0%nat]
  = Some ([0; 1; 2; 3; 4; 5; 6; 7]%nat, Returned JsUndefined)
  /\ batchInsert nat (boundedTable 4) 7 (seq 1 7) 3 [0%nat]
     = Some ([0; 1; 2; 3]%nat, Thrown "insert failed")
  /\ exists k outcome,
      batchInsert nat (boundedTable 4) 7 (seq 1 7) 3 [0%nat]
      = Some ([0%nat] ++ firstn (k * 3) (seq 1 7), outcome).
Proof.
  split; [vm_compute; reflexivity|]. split; [vm_compute; reflexivity|].
  destruct (batchInsert_writes_a_prefix nat (boundedTable 4) (seq 1 7) 3 [0%nat] 7)
    as (k & outcome & Hrun & _); [lia|cbn; lia|].
  exists k, outcome. exact Hrun.
Defined.

End SeedUtilsFacts.

(** ** The seed script of the capital projects, end to end *)

Module CapitalSeedFacts.
Import JS Processing Geometry GeoJSON ChangeDetector CapitalProjects Validation SeedUtils.
Import CapitalFacts SeedUtilsFacts CapitalSeed CapitalSeedExamples CapitalExamples.
Import ValidationExamples HousingNYExamples.

Section Main.

Variable parseFloatString : string -> float.
Variable parseIntString : string -> float.
Variable randomSuffix : nat -> string.
Variable inheritedProperty : string -> bool.
Variable toFixed1 : float -> string.
Variable positiveDigits : float -> string.
Variable stringify : Project -> string.

Lemma validated_count (features : list Feature) (v : JsVal) :
  validateFeatures parseFloatString inheritedProperty toFixed1 positiveDigits features
  = Returned v ->
  (1000 <= length features)%nat.
Proof using Type.
  unfold validateFeatures, validateMinimumRecordCount.
  destruct (length features <? 1000)%nat eqn:H; [discriminate|].
  intros _. apply Nat.ltb_ge in H. exact H.
Qed.

Lemma processed_count (fuel : nat) (features : list Feature) (projects : list Project) :
  processCapitalProjects parseFloatString parseIntString randomSuffix fuel features
  = Some (Returned projects) ->
  length projects = length features /\ missingRequiredFields projects = [].
Proof using Type.
  unfold processCapitalProjects. intros H.
  apply processFrom_returned in H as [out [-> HF]]. cbn [app].
  split; [symmetry; exact (Forall2_length _ _ _ HF)|exact (missing_none _ _ HF)].
Qed.

Lemma validateProjects_passes (projects : list Project) :
  (1000 <= length projects)%nat -> missingRequiredFields projects = [] ->
  validateProjects projects = Returned (JsBool true).
Proof using Type.
  intros Hlen Hmissing. unfold validateProjects, validateProcessedRecords.
  destruct projects as [|p rest] eqn:Hp; [cbn [length] in Hlen; lia|].
  rewrite <- Hp in *. unfold validationErrors. cbn [flat_map].
  unfold validateMinimumRecordCount.
  replace (length projects <? 1000)%nat with false by (symmetry; apply Nat.ltb_ge; exact Hlen).
  rewrite Hmissing. reflexivity.
Qed.

End Main.

(** X27: in the seed script of the capital projects the check of the
    processed projects cannot fail.  When the feed passed the checks of
    step 2 and [processCapitalProjects] returned, there are at least a
    thousand projects and none misses a required field, so
    [validateProcessedRecords] returns. *)
Theorem processed_projects_check_cannot_fail :
  forall (parseFloatString parseIntString : string -> float) (randomSuffix : nat -> string)
         (inheritedProperty : string -> bool) (toFixed1 positiveDigits : float -> string)
         (fuel : nat) (features : list Feature) (projects : list Project) (v : JsVal),
    validateFeatures parseFloatString inheritedProperty toFixed1 positiveDigits features
    = Returned v ->
    processCapitalProjects parseFloatString parseIntString randomSuffix fuel features
    = Some (Returned projects) ->
    validateProjects projects = Returned (JsBool true).
Proof.
  intros pfs pis rs inh tf pd fuel features projects v Hvalid Hrun.
  destruct (processed_count pfs pis rs fuel features projects Hrun) as [Hlen Hmissing].
  apply validateProjects_passes; [|exact Hmissing].
  rewrite Hlen. exact (validated_count pfs inh tf pd features v Hvalid).
Qed.

(** X27 on a feed of a thousand complete features. *)
Lemma processed_projects_check_cannot_fail_witness :
  exists projects,
    processCapitalProjects digitsValue digitsValue fixedSuffix 1000 thousandFeatures
    = Some (Returned projects)
    /\ validateProjects projects = Returned (JsBool true).
Proof.
  assert (Hrings : (longestFeatureRing thousandFeatures <= 1000)%nat) by (vm_compute; lia).
  pose proof (processFrom_cases digitsValue digitsValue fixedSuffix 1000 thousandFeatures
                Hrings 0%nat []) as Hrun.
  fold (processCapitalProjects digitsValue digitsValue fixedSuffix 1000 thousandFeatures)
    in Hrun.
  assert (Hsound : existsb malformedFeature thousandFeatures = false)
    by (vm_compute; reflexivity).
  rewrite Hsound in Hrun. destruct Hrun as [projects Hrun].
  exists projects. split; [exact Hrun|].
  apply (processed_projects_check_cannot_fail digitsValue digitsValue fixedSuffix noInherited
           unreadFixed noDigits 1000 thousandFeatures projects (JsBool true));
    [vm_compute; reflexivity|exact Hrun].
Defined.

(** X28: how a run of [main] ends, given call stack enough for the rings
    and the batches.  The run ends; when the update is skipped the table
    is as it was; when the run reports success the table holds the
    processed projects, all of them and nothing else, and they are at
    least a thousand; when the run fails, either the table is as it was,
    or the [TRUNCATE] had gone through and a batch was then rejected, and
    the table holds only the batches inserted before it, the rows it had
    before the run being lost. *)
Theorem capital_seed_outcomes :
  forall (parseFloatString parseIntString : string -> float) (randomSuffix : nat -> string)
         (inheritedProperty : string -> bool) (toFixed1 positiveDigits : float -> string)
         (stringify : Project -> string) (fuel : nat)
         (response : Outcome (option (list Feature))) (db : Storage Project)
         (truncateError : option string)
         (rejects : list Project -> list Project -> option string) (table : list Project),
    (longestFeatureRing (featuresOf response) <= fuel)%nat ->
    (length (featuresOf response) <= fuel)%nat ->
    exists exit rows,
      main parseFloatString parseIntString randomSuffix inheritedProperty toFixed1
        positiveDigits stringify fuel response db truncateError rejects table
      = Some (exit, rows)
      /\ match exit with
         | SkippedUpdate => rows = table
         | Seeded =>
             exists projects,
               processCapitalProjects parseFloatString parseIntString randomSuffix fuel
                 (featuresOf response) = Some (Returned projects)
               /\ rows = projects
               /\ (1000 <= length projects)%nat
         | ExitFailure =>
             rows = table
             \/ exists projects k,
                 processCapitalProjects parseFloatString parseIntString randomSuffix fuel
                   (featuresOf response) = Some (Returned projects)
                 /\ truncateError = None
                 /\ rows = firstn (k * 500) projects
                 /\ (k * 500 < length projects)%nat
         end.
Proof.
  intros pfs pis rs inh tf pd stringify fuel response db truncateError rejects table
         Hrings Hlen.
  unfold main. destruct response as [fetched|message].
  2:{ exists ExitFailure, table. split; [reflexivity|left; reflexivity]. }
  assert (Hfeatures : default [] fetched = featuresOf (Returned fetched)).
  { destruct fetched; reflexivity. }
  cbv zeta. rewrite Hfeatures. set (features := featuresOf (Returned fetched)) in *.
  destruct (validateFeatures pfs inh tf pd features) as [v|message] eqn:Hvalid.
  2:{ exists ExitFailure, table. split; [reflexivity|left; reflexivity]. }
  pose proof (processFrom_cases pfs pis rs fuel features Hrings 0%nat []) as Hrun.
  fold (processCapitalProjects pfs pis rs fuel features) in Hrun.
  destruct (existsb malformedFeature features).
  { rewrite Hrun. exists ExitFailure, table. split; [reflexivity|left; reflexivity]. }
  destruct Hrun as [projects Hrun]. rewrite Hrun.
  destruct (processed_count pfs pis rs fuel features projects Hrun) as [Hcount Hmissing].
  pose proof (validated_count pfs inh tf pd features v Hvalid) as Hthousand.
  rewrite (validateProjects_passes projects) by (rewrite ?Hcount; assumption).
  destruct (hasChanges (detectDataChanges Project stringify db "capital_projects" projects true));
    cbn [negb].
  2:{ exists SkippedUpdate, table. split; reflexivity. }
  destruct truncateError as [message|].
  { exists ExitFailure, table. split; [reflexivity|left; reflexivity]. }
  destruct (batchInsert_prefix Project rejects projects 500 [] fuel)
    as (k & outcome & Hinsert & Hend); [lia|lia|].
  rewrite Hinsert. cbn [app]. destruct outcome as [u|message].
  - exists Seeded, (firstn (k * 500) projects). split; [reflexivity|].
    exists projects. split; [reflexivity|]. split; [exact Hend|lia].
  - exists ExitFailure, (firstn (k * 500) projects). split; [reflexivity|].
    right. exists projects, k. destruct Hend as [Hlt _].
    split; [reflexivity|]. split; [reflexivity|]. split; [reflexivity|exact Hlt].
Qed.

(** X28 on a feed of a thousand features, an empty table behind the
    change detector and a database with room for 600 rows: the first
    batch of 500 goes in, the second is rejected, and the run fails with
    500 rows in place of the 3 rows of before. *)
Lemma capital_seed_outcomes_witness :
  exists rows,
    main digitsValue digitsValue fixedSuffix noInherited unreadFixed noDigits stringifyId
      1000 (Returned (Some thousandFeatures)) emptyStore None (boundedTable 600)
      (repeat (mkProject JsNull JsNull JsNull JsNull JsNull JsNull JsNull JsNull None None
                 0 0 0 0 GeoMissing None None GeoMissing) 3)
    = Some (ExitFailure, rows)
    /\ length rows = 500%nat.
Proof.
  destruct (capital_seed_outcomes digitsValue digitsValue fixedSuffix noInherited unreadFixed
              noDigits stringifyId 1000 (Returned (Some thousandFeatures)) emptyStore None
              (boundedTable 600)
              (repeat (mkProject JsNull JsNull JsNull JsNull JsNull JsNull JsNull JsNull
                         None None 0 0 0 0 GeoMissing None None GeoMissing) 3))
    as (exit & rows & Hrun & _).
  - vm_compute. lia.
  - vm_compute. lia.
  - exists rows.
    assert (Hmain : option_map (fun er => (fst er, length (snd er)))
                      (main digitsValue digitsValue fixedSuffix noInherited unreadFixed
                         noDigits stringifyId 1000 (Returned (Some thousandFeatures))
                         emptyStore None (boundedTable 600)
                         (repeat (mkProject JsNull JsNull JsNull JsNull JsNull JsNull JsNull
                                    JsNull None None 0 0 0 0 GeoMissing None None
                                    GeoMissing) 3))
                    = Some (ExitFailure, 500%nat)) by (vm_compute; reflexivity).
    rewrite Hrun in Hmain. cbn [option_map fst snd] in Hmain.
    injection Hmain as -> Hrows. split; [exact Hrun|exact Hrows].
Defined.

End CapitalSeedFacts.

(** ** The seed script of the housing data, end to end *)

Module HousingSeedFacts.
Import JS Housing Processing ChangeDetector Validation SeedUtils.
Import HousingNY Demolitions CapitalSeed HousingSeed.
Import OverlayFacts PipelineFacts DeduplicatorLaws DemolitionFacts ValidationFacts.
Import SeedUtilsFacts Examples ValidationExamples HousingNYExamples DemolitionExamples.

Section Main.

Variable parseFloatString : string -> float.
Variable parseInt10 : JsVal -> float.
Variable Math_round : float -> float.
Variable buildingLiteral : gmap string JsVal -> float -> float -> float -> float -> Building.
Variable positiveDigits : float -> string.
Variable getFullYear : JsVal -> float.
Variable toISOString : JsVal -> option string.
Variable canonical : Affordable -> AffordableData.
Variable inheritedProperty : string -> bool.
Variable toFixed1 : float -> string.

(** The processed arrays are not longer than the feeds. *)
Lemma processFeeds_lengths (dcpRecords housingNyRecords demolitionRecords
                              : list (gmap string JsVal))
    (buildings : list Building) (demolitions : list Demolition) :
  processFeeds parseFloatString parseInt10 Math_round buildingLiteral positiveDigits
    getFullYear toISOString canonical dcpRecords housingNyRecords demolitionRecords
  = Returned (buildings, demolitions) ->
  (length buildings <= length dcpRecords)%nat
  /\ (length demolitions <= length demolitionRecords)%nat
  /\ (forall skipped,
        processDCPDemolitions parseFloatString parseInt10 Math_round positiveDigits
          toISOString demolitionRecords = Returned ([], skipped) -> demolitions = []).
Proof using Type.
  unfold processFeeds.
  destruct (ConstructionIntake.processDCPHousing _ _ _ _ _ dcpRecords)
    as [[dcpBuildings skippedRecords]|m] eqn:Hintake; [|discriminate].
  apply intake_returned in Hintake.
  set (housingNyMap := canonical <$> _).
  destruct (deduplicate_structure (overlayAffordableData dcpBuildings housingNyMap))
    as (S & Hout & _ & _ & _ & _ & HS).
  rewrite Hout.
  pose proof (demolitionLoop_cases parseFloatString parseInt10 Math_round positiveDigits
                toISOString demolitionRecords [] 0%nat (List.Forall_nil _)) as Hloop.
  fold (processDCPDemolitions parseFloatString parseInt10 Math_round positiveDigits
          toISOString demolitionRecords) in Hloop.
  destruct (existsb _ demolitionRecords).
  { rewrite Hloop. discriminate. }
  destruct Hloop as (ds & sk & Hrun & Hcount & _). rewrite Hrun.
  intros [= <- <-]. split; [|split].
  - rewrite length_app.
    pose proof (filter_split_length lacksBbl (overlayAffordableData dcpBuildings housingNyMap)).
    rewrite overlayAffordableData_map, length_map in *.
    pose proof (processDCPHousing_count parseFloatString parseInt10 Math_round
                  buildingLiteral dcpRecords) as Hcap.
    rewrite Hintake in Hcap. cbn [fst] in Hcap. lia.
  - unfold matchDemolitions. rewrite length_map.
    pose proof (filter_length_le isDemolition demolitionRecords).
    cbn [length] in Hcount. lia.
  - intros skipped [= -> _]. reflexivity.
Qed.

Lemma validateProcessed_returned (buildings : list Building) (demolitions : list Demolition)
    (v : JsVal) :
  validateProcessed buildings demolitions = Returned v ->
  (10000 <= length buildings)%nat /\ demolitions <> [].
Proof using Type.
  unfold validateProcessed.
  destruct (validateProcessedRecords buildings _ _) as [u|m] eqn:Hb; [|discriminate].
  intros Hd.
  apply validateProcessedRecords_returned in Hb as [_ Hb].
  apply validateProcessedRecords_returned in Hd as [Hd _].
  split; [|exact Hd].
  apply List.Forall_inv in Hb. destruct Hb as [w Hw].
  unfold validateMinimumRecordCount in Hw.
  destruct (length buildings <? 10000)%nat eqn:Hlen; [discriminate|].
  apply Nat.ltb_ge in Hlen. exact Hlen.
Qed.

End Main.

(** X29: how a run of [main] of the housing script ends, given room for
    the batches.  The run ends; when the update is skipped the two tables
    are as they were; when the run reports success the two tables hold
    the processed buildings and the processed demolitions, both rewritten
    whichever of the two had changed, the buildings being at least ten
    thousand and the demolitions at least one; when the run fails, either
    the tables are as they were, or the table of the buildings had been
    truncated: it is then empty or holds the batches inserted before the
    one that was rejected, and the table of the demolitions is as it was,
    empty, or cut in the same way. *)
Theorem housing_seed_outcomes :
  forall (parseFloatString : string -> float) (parseInt10 : JsVal -> float)
         (Math_round : float -> float)
         (buildingLiteral : gmap string JsVal -> float -> float -> float -> float -> Building)
         (positiveDigits : float -> string) (getFullYear : JsVal -> float)
         (toISOString : JsVal -> option string) (canonical : Affordable -> AffordableData)
         (inheritedProperty : string -> bool) (toFixed1 : float -> string)
         (stringifyBuilding : Building -> string) (stringifyDemolition : Demolition -> string)
         (fuel : nat)
         (newBuildingRecords alterationRecords housingNyRecords demolitionRecords
            : Outcome (list (gmap string JsVal)))
         (dbBuildings : Storage Building) (dbDemolitions : Storage Demolition)
         (truncateBuildingsError truncateDemolitionsError : option string)
         (rejectsBuildings : list Building -> list Building -> option string)
         (rejectsDemolitions : list Demolition -> list Demolition -> option string)
         (buildingsTable : list Building) (demolitionsTable : list Demolition),
    (length (recordsOf newBuildingRecords ++ recordsOf alterationRecords) <= fuel)%nat ->
    (length (recordsOf demolitionRecords) <= fuel)%nat ->
    exists exit buildingRows demolitionRows,
      main parseFloatString parseInt10 Math_round buildingLiteral positiveDigits getFullYear
        toISOString canonical inheritedProperty toFixed1 stringifyBuilding
        stringifyDemolition fuel newBuildingRecords alterationRecords housingNyRecords
        demolitionRecords dbBuildings dbDemolitions truncateBuildingsError
        truncateDemolitionsError rejectsBuildings rejectsDemolitions buildingsTable
        demolitionsTable
      = Some (exit, buildingRows, demolitionRows)
      /\ match exit with
         | SkippedUpdate =>
             buildingRows = buildingsTable /\ demolitionRows = demolitionsTable
         | Seeded =>
             exists buildings demolitions,
               processFeeds parseFloatString parseInt10 Math_round buildingLiteral
                 positiveDigits getFullYear toISOString canonical
                 (recordsOf newBuildingRecords ++ recordsOf alterationRecords)
                 (recordsOf housingNyRecords) (recordsOf demolitionRecords)
               = Returned (buildings, demolitions)
               /\ buildingRows = buildings /\ demolitionRows = demolitions
               /\ (10000 <= length buildings)%nat /\ demolitions <> []
         | ExitFailure =>
             (buildingRows = buildingsTable /\ demolitionRows = demolitionsTable)
             \/ (buildingRows = [] /\ demolitionRows = demolitionsTable)
             \/ exists buildings demolitions k,
                 processFeeds parseFloatString parseInt10 Math_round buildingLiteral
                   positiveDigits getFullYear toISOString canonical
                   (recordsOf newBuildingRecords ++ recordsOf alterationRecords)
                   (recordsOf housingNyRecords) (recordsOf demolitionRecords)
                 = Returned (buildings, demolitions)
                 /\ ((buildingRows = firstn (k * 500) buildings
                      /\ (k * 500 < length buildings)%nat /\ demolitionRows = [])
                     \/ (buildingRows = buildings
                         /\ demolitionRows = firstn (k * 500) demolitions
                         /\ (k * 500 < length demolitions)%nat))
         end.
Proof.
  intros pfs pi mr bl pd gy iso canonical inh tf sb sd fuel nb alt ny dem dbB dbD trB trD
         rejB rejD tableB tableD Hfuel1 Hfuel2.
  assert (Hfail : exists exit b d,
             Some (ExitFailure, tableB, tableD) = Some (exit, b, d)
             /\ match exit with
                | SkippedUpdate => b = tableB /\ d = tableD
                | Seeded =>
                    exists buildings demolitions,
                      processFeeds pfs pi mr bl pd gy iso canonical
                        (recordsOf nb ++ recordsOf alt) (recordsOf ny) (recordsOf dem)
                      = Returned (buildings, demolitions)
                      /\ b = buildings /\ d = demolitions
                      /\ (10000 <= length buildings)%nat /\ demolitions <> []
                | ExitFailure =>
                    (b = tableB /\ d = tableD)
                    \/ (b = [] /\ d = tableD)
                    \/ exists buildings demolitions k,
                        processFeeds pfs pi mr bl pd gy iso canonical
                          (recordsOf nb ++ recordsOf alt) (recordsOf ny) (recordsOf dem)
                        = Returned (buildings, demolitions)
                        /\ ((b = firstn (k * 500) buildings
                             /\ (k * 500 < length buildings)%nat /\ d = [])
                            \/ (b = buildings /\ d = firstn (k * 500) demolitions
                                /\ (k * 500 < length demolitions)%nat))
                end).
  { exists ExitFailure, tableB, tableD. split; [reflexivity|]. left. split; reflexivity. }
  unfold main. cbv zeta.
  destruct nb as [newBuildings|m]; [|exact Hfail].
  destruct alt as [alterations|m]; [|exact Hfail].
  destruct (validateConstructionFeed _ _ _ _ _ _) as [v1|m]; [|exact Hfail].
  destruct ny as [housingNy|m]; [|exact Hfail].
  destruct (validateAffordableFeed _ _ _ _) as [v2|m]; [|exact Hfail].
  destruct dem as [demolitionFeed|m]; [|exact Hfail].
  cbn [recordsOf] in *.
  destruct (processFeeds pfs pi mr bl pd gy iso canonical (newBuildings ++ alterations)
              housingNy demolitionFeed) as [[buildings demolitions]|m] eqn:Hfeeds;
    [|exact Hfail].
  destruct (validateProcessed buildings demolitions) as [v3|m] eqn:Hvalid; [|exact Hfail].
  clear Hfail.
  destruct (processFeeds_lengths pfs pi mr bl pd gy iso canonical _ _ _ _ _ Hfeeds)
    as (Hlb & Hld & _).
  destruct (validateProcessed_returned buildings demolitions v3 Hvalid) as [Hmany Hsome].
  destruct (negb (hasChanges _) && negb (hasChanges _)).
  { exists SkippedUpdate, tableB, tableD. split; [reflexivity|]. split; reflexivity. }
  unfold rewriteTables.
  destruct trB as [m|].
  { exists ExitFailure, tableB, tableD. split; [reflexivity|]. left. split; reflexivity. }
  destruct trD as [m|].
  { exists ExitFailure, [], tableD. split; [reflexivity|]. right. left. split; reflexivity. }
  destruct (batchInsert_prefix Building rejB buildings 500 [] fuel)
    as (k & outcome & Hinsert & Hend); [lia|lia|].
  rewrite Hinsert. cbn [app]. destruct outcome as [u|m].
  2:{ exists ExitFailure, (firstn (k * 500) buildings), []. split; [reflexivity|].
      right. right. exists buildings, demolitions, k. split; [reflexivity|].
      left. destruct Hend as [Hlt _]. repeat split; [exact Hlt]. }
  rewrite Hend.
  destruct (batchInsert_prefix Demolition rejD demolitions 500 [] fuel)
    as (k' & outcome' & Hinsert' & Hend'); [lia|lia|].
  rewrite Hinsert'. cbn [app]. destruct outcome' as [u'|m'].
  - rewrite Hend'. exists Seeded, buildings, demolitions. split; [reflexivity|].
    exists buildings, demolitions. repeat split; assumption.
  - exists ExitFailure, buildings, (firstn (k' * 500) demolitions). split; [reflexivity|].
    right. right. exists buildings, demolitions, k'. split; [reflexivity|].
    right. destruct Hend' as [Hlt _]. repeat split; [exact Hlt].
Qed.

(** X29 on a run whose fetch of the alterations failed. *)
Lemma housing_seed_outcomes_witness :
  exists exit buildingRows demolitionRows,
    main noStringParsed parseIntOfNumber roundOfIntegral plainBuilding noDigits leadingYear
      noDate HousingSeedExamples.noOverlay noInherited unreadFixed
      HousingSeedExamples.stringifyAny HousingSeedExamples.stringifyAny 2
      (Returned [soundFeature; oldFeature]) (Thrown "HTTP 503: Service Unavailable")
      (Returned []) (Returned [demolitionFeature "3012340056" "D-1"])
      (HousingSeedExamples.emptyTable Building) (HousingSeedExamples.emptyTable Demolition)
      None None acceptsAll acceptsAll [] []
    = Some (exit, buildingRows, demolitionRows)
    /\ exit = ExitFailure /\ buildingRows = [] /\ demolitionRows = [].
Proof.
  destruct (housing_seed_outcomes noStringParsed parseIntOfNumber roundOfIntegral
              plainBuilding noDigits leadingYear noDate HousingSeedExamples.noOverlay
              noInherited unreadFixed HousingSeedExamples.stringifyAny
              HousingSeedExamples.stringifyAny 2
              (Returned [soundFeature; oldFeature]) (Thrown "HTTP 503: Service Unavailable")
              (Returned []) (Returned [demolitionFeature "3012340056" "D-1"])
              (HousingSeedExamples.emptyTable Building)
              (HousingSeedExamples.emptyTable Demolition)
              None None acceptsAll acceptsAll [] [])
    as (exit & b & d & Hrun & _); [cbn; lia|cbn; lia|].
  exists exit, b, d. split; [exact Hrun|].
  cbn in Hrun. injection Hrun as <- <- <-. repeat split.
Defined.

(** X30: a run of the housing script in which no demolition is pushed
    (the feed of the demolitions is empty, or all its records are skipped)
    fails and leaves the two tables as they were, however sound the
    construction feed: the check handed to [validateProcessedRecords]
    accepts an empty array of demolitions, but [validateProcessedRecords]
    itself refuses any empty array. *)
Theorem seed_without_demolitions_fails :
  forall (parseFloatString : string -> float) (parseInt10 : JsVal -> float)
         (Math_round : float -> float)
         (buildingLiteral : gmap string JsVal -> float -> float -> float -> float -> Building)
         (positiveDigits : float -> string) (getFullYear : JsVal -> float)
         (toISOString : JsVal -> option string) (canonical : Affordable -> AffordableData)
         (inheritedProperty : string -> bool) (toFixed1 : float -> string)
         (stringifyBuilding : Building -> string) (stringifyDemolition : Demolition -> string)
         (fuel : nat)
         (newBuildingRecords alterationRecords housingNyRecords
            : Outcome (list (gmap string JsVal)))
         (demolitionFeed : list (gmap string JsVal)) (skipped : nat)
         (dbBuildings : Storage Building) (dbDemolitions : Storage Demolition)
         (truncateBuildingsError truncateDemolitionsError : option string)
         (rejectsBuildings : list Building -> list Building -> option string)
         (rejectsDemolitions : list Demolition -> list Demolition -> option string)
         (buildingsTable : list Building) (demolitionsTable : list Demolition),
    processDCPDemolitions parseFloatString parseInt10 Math_round positiveDigits toISOString
      demolitionFeed = Returned ([], skipped) ->
    main parseFloatString parseInt10 Math_round buildingLiteral positiveDigits getFullYear
      toISOString canonical inheritedProperty toFixed1 stringifyBuilding stringifyDemolition
      fuel newBuildingRecords alterationRecords housingNyRecords (Returned demolitionFeed)
      dbBuildings dbDemolitions truncateBuildingsError truncateDemolitionsError
      rejectsBuildings rejectsDemolitions buildingsTable demolitionsTable
    = Some (ExitFailure, buildingsTable, demolitionsTable).
Proof.
  intros pfs pi mr bl pd gy iso canonical inh tf sb sd fuel nb alt ny feed skipped dbB dbD
         trB trD rejB rejD tableB tableD Hnone.
  unfold main. cbv zeta.
  destruct nb as [newBuildings|m]; [|reflexivity].
  destruct alt as [alterations|m]; [|reflexivity].
  destruct (validateConstructionFeed _ _ _ _ _ _) as [v1|m]; [|reflexivity].
  destruct ny as [housingNy|m]; [|reflexivity].
  destruct (validateAffordableFeed _ _ _ _) as [v2|m]; [|reflexivity].
  destruct (processFeeds pfs pi mr bl pd gy iso canonical (newBuildings ++ alterations)
              housingNy feed) as [[buildings demolitions]|m] eqn:Hfeeds; [|reflexivity].
  destruct (processFeeds_lengths pfs pi mr bl pd gy iso canonical _ _ _ _ _ Hfeeds)
    as (_ & _ & Hempty).
  rewrite (Hempty skipped Hnone).
  unfold validateProcessed.
  destruct (validateProcessedRecords buildings _ _); reflexivity.
Qed.

(** X30 on a construction feed of ten thousand sound features, an
    affordable housing feed of a hundred sound records and a feed of
    demolitions that is empty: the two feeds pass the checks of steps 2
    and 3.1, and the run fails. *)
Lemma seed_without_demolitions_fails_witness :
  validateConstructionFeed noStringParsed parseIntOfNumber noDigits noInherited unreadFixed
    (repeat soundFeature 10000 ++ [])
  = Returned (JsBool true)
  /\ validateAffordableFeed noDigits noInherited unreadFixed
       (repeat (housingNyRecord "3012340056" "2020-01-15" "40") 100)
     = Returned (JsBool true)
  /\ main noStringParsed parseIntOfNumber roundOfIntegral plainBuilding noDigits leadingYear
       noDate HousingSeedExamples.noOverlay noInherited unreadFixed
       HousingSeedExamples.stringifyAny HousingSeedExamples.stringifyAny 10000
       (Returned (repeat soundFeature 10000)) (Returned [])
       (Returned (repeat (housingNyRecord "3012340056" "2020-01-15" "40") 100))
       (Returned [])
       (HousingSeedExamples.emptyTable Building) (HousingSeedExamples.emptyTable Demolition)
       None None acceptsAll acceptsAll [] []
     = Some (ExitFailure, [], []).
Proof.
  split; [vm_compute; reflexivity|]. split; [vm_compute; reflexivity|].
  apply (seed_without_demolitions_fails noStringParsed parseIntOfNumber roundOfIntegral
           plainBuilding noDigits leadingYear noDate HousingSeedExamples.noOverlay
           noInherited unreadFixed HousingSeedExamples.stringifyAny
           HousingSeedExamples.stringifyAny 10000
           (Returned (repeat soundFeature 10000)) (Returned [])
           (Returned (repeat (housingNyRecord "3012340056" "2020-01-15" "40") 100))
           [] 0%nat).
  reflexivity.
Defined.

End HousingSeedFacts.
